(** * promptfoo: provider resolution and evaluation setup

    A shallow embedding of [src/index.ts] (the [evaluate] entry point with
    its prompt normalisation and nested provider resolution) and of the
    providers module (the OpenAI completion and chat adapters and
    [loadApiProvider]), with the properties of the specification stated
    and settled against that embedding.

    Conventions.
    - A JavaScript string is a [string]; text outside ASCII stands by its
      UTF-8 bytes.
    - A JSON-representable JavaScript value is a [Json]; [undefined] is the
      [None] of [JsValue := option Json].
    - A JavaScript number is a [Number.t], an IEEE 754 double: a decimal
      text is rounded to the nearest double, and a finite double is kept by
      its sign and the shortest decimal that reads back as it.
    - A surrogate that has no partner is outside the model, and so is an
      object listed twice: every test and every assertion of a list is an
      object of its own.
    - A module-level constant is computed once, when its module is
      imported, from [process.env] as it is then: the [startup] of a
      [Host].
    - Code that can throw, log or call an external collaborator lives in the
      monad [Js], a state monad over [World] with exceptions. *)

From Stdlib Require Import String Ascii ZArith List Bool Lia DecimalString.
From Stdlib Require Import Decimal DecimalN DecimalPos DecimalFacts.
From stdpp Require Import gmap strings list.
Import ListNotations.
Open Scope string_scope.
Set Warnings "-register-all".

(* ===================================================================== *)
(** ** Strings *)
(* ===================================================================== *)

Module Str.

Definition of_char (c : ascii) : string := String c EmptyString.

(** The double quote character, and a string in double quotes. *)
Definition dquote : ascii := "034"%char.
Definition backslash : ascii := "092"%char.
Definition quoted (s : string) : string :=
  String dquote (s ++ of_char dquote).

(** JavaScript truthiness of a string: every string but the empty one. *)
Definition truthy (s : string) : bool :=
  match s with EmptyString => false | String _ _ => true end.

(** [s.startsWith(p)] *)
Definition startsWith (s p : string) : bool := String.prefix p s.

(** [s.split(sep)] for a one-character separator. *)
Fixpoint split (sep : ascii) (s : string) : list string :=
  match s with
  | EmptyString => [EmptyString]
  | String c rest =>
      let parts := split sep rest in
      if Ascii.eqb c sep then EmptyString :: parts
      else match parts with
           | p :: ps => String c p :: ps
           | [] => [of_char c]
           end
  end.

(** [c] occurs in [s]. *)
Fixpoint contains (c : ascii) (s : string) : bool :=
  match s with
  | EmptyString => false
  | String d rest => Ascii.eqb d c || contains c rest
  end.

(** [parts.join(sep)] *)
Fixpoint join (sep : string) (parts : list string) : string :=
  match parts with
  | [] => EmptyString
  | [p] => p
  | p :: ps => p ++ sep ++ join sep ps
  end.

(** [xs.includes(x)] on an array of strings. *)
Definition includes (xs : list string) (x : string) : bool :=
  existsb (String.eqb x) xs.

Definition of_N (n : N) : string := NilZero.string_of_uint (N.to_uint n).

Definition of_Z (z : Z) : string :=
  if (z <? 0)%Z then "-" ++ of_N (Z.to_N (- z)) else of_N (Z.to_N z).

Fixpoint repeat (c : ascii) (n : nat) : string :=
  match n with O => EmptyString | S n' => String c (repeat c n') end.


End Str.

(* ===================================================================== *)
(** ** Numbers *)
(* ===================================================================== *)

Module Number.

(** A JavaScript number. A finite one is written [m * 10^e] with its sign
    apart, so that [-0] is one; it stands for the double nearest to that
    decimal, and [round] gives every double one writing: the decimal with
    the fewest digits that reads back as it. *)
Inductive t : Type :=
| NaN
| Infinity (negative : bool)
| Finite (negative : bool) (m : N) (e : Z).

Local Open Scope Z_scope.

(** The fraction [n / d] over [2^x], and over [10^t], as fractions. *)
Definition over_pow2 (n d x : Z) : Z * Z :=
  if 0 <=? x then (n, d * 2 ^ x) else (n * 2 ^ (- x), d).

Definition over_pow10 (n d t : Z) : Z * Z :=
  if 0 <=? t then (n, d * 10 ^ t) else (n * 10 ^ (- t), d).

(** The integer nearest to [n / d], the even one of two that are as near. *)
Definition nearest_integer (n d : Z) : Z :=
  let q := n / d in
  let r := n mod d in
  if 2 * r <? d then q
  else if d <? 2 * r then q + 1
  else if Z.even q then q else q + 1.

(** The double nearest to the positive fraction [n / d], ties to even, as
    [q * 2^x]: with [2^52 <= q < 2^53], or with [x = -1074] and
    [q < 2^52]. Nothing when [n / d] rounds beyond the largest double,
    [(2^53 - 1) * 2^971]. *)
Definition binary (n d : Z) : option (Z * Z) :=
  let x0 := Z.log2 n - Z.log2 d - 52 in
  let '(a, b) := over_pow2 n d x0 in
  let x1 := if a / b <? 2 ^ 52 then x0 - 1 else x0 in
  let x := Z.max x1 (-1074) in
  let '(a, b) := over_pow2 n d x in
  let q := nearest_integer a b in
  let '(q, x) := if q =? 2 ^ 53 then (2 ^ 52, x + 1) else (q, x) in
  if 971 <? x then None else Some (q, x).

(** Whether [s * 10^t] rounds to the double [q * 2^x]. *)
Definition reads_as (q x s t : Z) : bool :=
  let '(n, d) := over_pow10 s 1 (- t) in
  match binary n d with
  | Some (q', x') => (q' =? q) && (x' =? x)
  | None => false
  end.

(** The [n] with [10^(n-1) <= a / b < 10^n], from a guess. *)
Fixpoint magnitude (fuel : nat) (a b n : Z) : Z :=
  match fuel with
  | O => n
  | S fuel' =>
      let '(lo_a, lo_b) := over_pow10 a b (n - 1) in
      let '(hi_a, hi_b) := over_pow10 a b n in
      if lo_a <? lo_b then magnitude fuel' a b (n - 1)
      else if hi_b <=? hi_a then magnitude fuel' a b (n + 1)
      else n
  end.

(** The digits of [Number::toString] for the double [q * 2^x = a / b]:
    the fewest digits [s], with their exponent [t], such that [s * 10^t]
    rounds to it, from [k] digits on; of the two candidates of a length
    the nearer one is tried first. Seventeen digits always do. *)
Fixpoint digits (fuel : nat) (q x a b n k : Z) : Z * Z :=
  let t := n - k in
  let '(c, d) := over_pow10 a b t in
  let low := c / d in
  let r := c mod d in
  let low_first := (2 * r <? d) || ((2 * r =? d) && Z.even low) in
  let first := if low_first then low else low + 1 in
  let second := if low_first then low + 1 else low in
  if reads_as q x first t then (first, t)
  else if reads_as q x second t then (second, t)
  else match fuel with
       | O => (first, t)
       | S fuel' => digits fuel' q x a b n (k + 1)
       end.

(** Trailing zeros go to the exponent. *)
Fixpoint strip_zeros (fuel : nat) (s t : Z) : Z * Z :=
  match fuel with
  | O => (s, t)
  | S fuel' =>
      if (s mod 10 =? 0) && negb (s =? 0) then strip_zeros fuel' (s / 10) (t + 1)
      else (s, t)
  end.

(** The shortest decimal of the positive double [q * 2^x]. An integer
    below [10^21], which [Number::toString] writes out in full, is kept
    with the exponent 0. *)
Definition shortest (q x : Z) : Z * Z :=
  let '(a, b) := over_pow2 q 1 (- x) in
  let guess := (Z.log2 a - Z.log2 b) * 30103 / 100000 in
  let n := magnitude 8 a b guess in
  let '(s, t) := digits 16 q x a b n 1 in
  let '(s, t) := strip_zeros (Z.to_nat (Z.log2 s) + 1) s t in
  if (0 <? t) && (s * 10 ^ t <? 10 ^ 21) then (s * 10 ^ t, 0) else (s, t).

(** The double nearest to [m * 10^e], with the sign [negative]: the Number
    value of a decimal text. From [10^310] on a number lies beyond the
    doubles, and below [10^-330] it rounds to zero. *)
Definition round (negative : bool) (m : N) (e : Z) : t :=
  if (m =? 0)%N then Finite negative 0 0
  else if 310 <=? e then Infinity negative
  else if e + Z.log2 (Z.of_N m) + 1 <? -330 then Finite negative 0 0
  else
    let '(n, d) := over_pow10 (Z.of_N m) 1 (- e) in
    match binary n d with
    | None => Infinity negative
    | Some (q, x) =>
        if q =? 0 then Finite negative 0 0
        else let '(s, t) := shortest q x in Finite negative (Z.to_N s) t
    end.

(** An integer literal of the code; one of at most [2^53] is a double. *)
Definition integer (z : Z) : t := Finite (z <? 0) (Z.abs_N z) 0.

(** The double a number stands for. *)
Definition canonical (x : t) : t :=
  match x with
  | Finite negative m e => round negative m e
  | other => other
  end.

(** [NaN], [0] and [-0] are falsy. *)
Definition truthy (x : t) : bool :=
  match canonical x with
  | NaN => false
  | Infinity _ => true
  | Finite _ m _ => negb (m =? 0)%N
  end.

Definition take_str (n : nat) (s : string) : string := String.substring 0 n s.
Definition drop_str (n : nat) (s : string) : string :=
  String.substring n (String.length s - n) s.

(** [Number::toString] in radix 10 for the digits [s] and the exponent
    [t] of a positive double. *)
Definition positive_to_string (s t : Z) : string :=
  let '(s, t) := strip_zeros (Z.to_nat (Z.log2 s) + 1) s t in
  let digits := Str.of_Z s in
  let k := Z.of_nat (String.length digits) in
  let n := k + t in
  if (k <=? n) && (n <=? 21) then
    digits ++ Str.repeat "0" (Z.to_nat (n - k))
  else if (0 <? n) && (n <=? 21) then
    take_str (Z.to_nat n) digits ++ "." ++ drop_str (Z.to_nat n) digits
  else if (-6 <? n) && (n <=? 0) then
    "0." ++ Str.repeat "0" (Z.to_nat (- n)) ++ digits
  else
    let exponent :=
      (if 0 <=? n - 1 then "e+" else "e-") ++ Str.of_Z (Z.abs (n - 1)) in
    if k =? 1 then digits ++ exponent
    else take_str 1 digits ++ "." ++ drop_str 1 digits ++ exponent.

(** [String(x)], which is [Number::toString]. *)
Definition toString (x : t) : string :=
  match canonical x with
  | NaN => "NaN"
  | Infinity false => "Infinity"
  | Infinity true => "-Infinity"
  | Finite negative m e =>
      if (m =? 0)%N then "0"
      else if negative then "-" ++ positive_to_string (Z.of_N m) e
      else positive_to_string (Z.of_N m) e
  end.

End Number.

(* ===================================================================== *)
(** ** JSON-representable values *)
(* ===================================================================== *)

(** An object lists its own properties in enumeration order. *)
Inductive Json : Type :=
| JNull
| JBool (b : bool)
| JNum (x : Number.t)
| JStr (s : string)
| JArr (elements : list Json)
| JObj (members : list (string * Json)).

(** An integer literal. *)
Definition JInt (n : Z) : Json := JNum (Number.integer n).

(** A JavaScript value as far as this code meets one: [None] is
    [undefined]. *)
Definition JsValue : Type := option Json.

Module JSON.

(** *** [JSON.stringify] *)

Definition hex_digit (n : N) : ascii :=
  match n with
  | 0 => "0" | 1 => "1" | 2 => "2" | 3 => "3" | 4 => "4" | 5 => "5"
  | 6 => "6" | 7 => "7" | 8 => "8" | 9 => "9" | 10 => "a" | 11 => "b"
  | 12 => "c" | 13 => "d" | 14 => "e" | _ => "f"
  end%N%char.

(** One character of a string under [QuoteJSONString]. *)
Definition escape_char (c : ascii) : string :=
  let n := N_of_ascii c in
  if Ascii.eqb c Str.dquote then String Str.backslash (Str.of_char Str.dquote)
  else if Ascii.eqb c Str.backslash then String Str.backslash (Str.of_char Str.backslash)
  else if (n =? 8)%N then String Str.backslash "b"
  else if (n =? 12)%N then String Str.backslash "f"
  else if (n =? 10)%N then String Str.backslash "n"
  else if (n =? 13)%N then String Str.backslash "r"
  else if (n =? 9)%N then String Str.backslash "t"
  else if (n <? 32)%N then
    String Str.backslash
      ("u00" ++ String (hex_digit (n / 16)) (Str.of_char (hex_digit (n mod 16))))
  else Str.of_char c.

Fixpoint escape (s : string) : string :=
  match s with
  | EmptyString => EmptyString
  | String c rest => escape_char c ++ escape rest
  end.

Definition quote (s : string) : string := Str.quoted (escape s).

(** A number as [JSON.stringify] writes it: [SerializeJSONProperty] gives
    [null] for a number that is not finite. *)
Definition number_to_string (x : Number.t) : string :=
  match Number.canonical x with
  | Number.Finite _ _ _ => Number.toString x
  | Number.NaN | Number.Infinity _ => "null"
  end.

(** [JSON.stringify(v)] with no replacer and no indentation. *)
Fixpoint stringify (v : Json) : string :=
  match v with
  | JNull => "null"
  | JBool true => "true"
  | JBool false => "false"
  | JNum x => number_to_string x
  | JStr s => quote s
  | JArr elements => "[" ++ Str.join "," (List.map stringify elements) ++ "]"
  | JObj members =>
      "{" ++ Str.join ","
               (List.map (fun kv => match kv with
                                    | (k, x) => quote k ++ ":" ++ stringify x
                                    end) members)
          ++ "}"
  end.

(** *** [JSON.parse] *)

Definition is_ws (c : ascii) : bool :=
  match N_of_ascii c with
  | 32 | 9 | 10 | 13 => true
  | _ => false
  end%N.

Fixpoint skip_ws (s : string) : string :=
  match s with
  | String c rest => if is_ws c then skip_ws rest else s
  | EmptyString => s
  end.

Definition digit_val (c : ascii) : option Z :=
  let n := N_of_ascii c in
  if ((48 <=? n) && (n <=? 57))%N then Some (Z.of_N (n - 48)) else None.

Definition hex_val (c : ascii) : option N :=
  let n := N_of_ascii c in
  if ((48 <=? n) && (n <=? 57))%N then Some (n - 48)%N
  else if ((97 <=? n) && (n <=? 102))%N then Some (n - 87)%N
  else if ((65 <=? n) && (n <=? 70))%N then Some (n - 55)%N
  else None.

(** Reads a run of decimal digits: the value accumulated onto [acc], how
    many digits were read, and what follows. *)
Fixpoint read_digits (s : string) (acc : Z) (count : Z) : Z * Z * string :=
  match s with
  | String c rest =>
      match digit_val c with
      | Some d => read_digits rest (10 * acc + d)%Z (count + 1)%Z
      | None => (acc, count, s)
      end
  | EmptyString => (acc, count, s)
  end.

Definition read_fraction (int_val : Z) (s : string) : option (Z * Z * string) :=
  match s with
  | String c rest =>
      if Ascii.eqb c "." then
        let '(v, n, rest') := read_digits rest int_val 0 in
        if (n =? 0)%Z then None else Some (v, n, rest')
      else Some (int_val, 0%Z, s)
  | EmptyString => Some (int_val, 0%Z, s)
  end.

(** A sign, if there is one: whether it is a minus, and what follows. *)
Definition read_sign (plus_too : bool) (s : string) : bool * string :=
  match s with
  | String c rest =>
      if Ascii.eqb c "-" then (true, rest)
      else if plus_too && Ascii.eqb c "+" then (false, rest)
      else (false, s)
  | EmptyString => (false, s)
  end.

Definition read_exponent (s : string) : option (Z * string) :=
  match s with
  | String c rest =>
      if Ascii.eqb c "e" || Ascii.eqb c "E" then
        let '(negative, digits) := read_sign true rest in
        let '(v, n, rest') := read_digits digits 0 0 in
        if (n =? 0)%Z then None
        else Some (if negative then (- v)%Z else v, rest')
      else Some (0%Z, s)
  | EmptyString => Some (0%Z, s)
  end.

(** A number: an optional minus sign; zero, or a digit from 1 to 9 and
    any digits; optionally a point and at least one digit; optionally an
    exponent mark, a sign and at least one digit. *)
Definition parse_number (s : string) : option (Json * string) :=
  let '(negative, s1) := read_sign false s in
  match s1 with
  | String c r =>
      match digit_val c with
      | None => None
      | Some d =>
          let '(int_val, s2) :=
            if (d =? 0)%Z then (0%Z, r)
            else let '(v, _, r') := read_digits r d 1 in (v, r') in
          match read_fraction int_val s2 with
          | None => None
          | Some (mantissa, frac_digits, s3) =>
              match read_exponent s3 with
              | None => None
              | Some (exponent, s4) =>
                  Some (JNum (Number.round negative (Z.to_N mantissa)
                                (exponent - frac_digits)%Z), s4)
              end
          end
      end
  | EmptyString => None
  end.

(** What a string literal holds: a character taken as it stands, or a
    UTF-16 code unit written [\uXXXX]. *)
Inductive StrItem : Type :=
| Raw (c : ascii)
| Unit16 (u : N).

Definition byte (n : N) : ascii := ascii_of_N n.

(** UTF-8 for a code point. *)
Definition utf8 (cp : N) : string :=
  (if cp <? 128 then Str.of_char (byte cp)
   else if cp <? 2048 then
     String (byte (192 + cp / 64)) (Str.of_char (byte (128 + cp mod 64)))
   else if cp <? 65536 then
     String (byte (224 + cp / 4096))
       (String (byte (128 + (cp / 64) mod 64))
          (Str.of_char (byte (128 + cp mod 64))))
   else
     String (byte (240 + cp / 262144))
       (String (byte (128 + (cp / 4096) mod 64))
          (String (byte (128 + (cp / 64) mod 64))
             (Str.of_char (byte (128 + cp mod 64))))))%N.

Definition is_high_surrogate (u : N) : bool := ((55296 <=? u) && (u <=? 56319))%N.
Definition is_low_surrogate (u : N) : bool := ((56320 <=? u) && (u <=? 57343))%N.

(** The string of a literal's items; a surrogate pair is one code point. *)
Fixpoint encode_items (items : list StrItem) : string :=
  match items with
  | [] => EmptyString
  | Raw c :: rest => String c (encode_items rest)
  | Unit16 hi :: rest =>
      match rest with
      | Unit16 lo :: rest' =>
          if is_high_surrogate hi && is_low_surrogate lo then
            utf8 (65536 + (hi - 55296) * 1024 + (lo - 56320))%N ++ encode_items rest'
          else utf8 hi ++ encode_items rest
      | _ => utf8 hi ++ encode_items rest
      end
  end.

Definition simple_escape (c : ascii) : option ascii :=
  if Ascii.eqb c Str.dquote then Some Str.dquote
  else if Ascii.eqb c Str.backslash then Some Str.backslash
  else if Ascii.eqb c "/" then Some "/"%char
  else if Ascii.eqb c "b" then Some (byte 8)
  else if Ascii.eqb c "f" then Some (byte 12)
  else if Ascii.eqb c "n" then Some (byte 10)
  else if Ascii.eqb c "r" then Some (byte 13)
  else if Ascii.eqb c "t" then Some (byte 9)
  else None.

Definition hex4 (a b c d : ascii) : option N :=
  match hex_val a, hex_val b, hex_val c, hex_val d with
  | Some x, Some y, Some z, Some w => Some (((x * 16 + y) * 16 + z) * 16 + w)%N
  | _, _, _, _ => None
  end.

(** The items of a string literal after its opening quote, up to the
    closing one, and what follows it. *)
Fixpoint read_items (s : string) : option (list StrItem * string) :=
  match s with
  | EmptyString => None
  | String c rest =>
      if Ascii.eqb c Str.dquote then Some ([], rest)
      else if Ascii.eqb c Str.backslash then
        match rest with
        | String e rest' =>
            if Ascii.eqb e "u" then
              match rest' with
              | String h1 (String h2 (String h3 (String h4 rest''))) =>
                  match hex4 h1 h2 h3 h4 with
                  | Some u =>
                      match read_items rest'' with
                      | Some (items, after) => Some (Unit16 u :: items, after)
                      | None => None
                      end
                  | None => None
                  end
              | _ => None
              end
            else
              match simple_escape e with
              | Some x =>
                  match read_items rest' with
                  | Some (items, after) => Some (Raw x :: items, after)
                  | None => None
                  end
              | None => None
              end
        | EmptyString => None
        end
      else if (N_of_ascii c <? 32)%N then None
      else
        match read_items rest with
        | Some (items, after) => Some (Raw c :: items, after)
        | None => None
        end
  end.

Definition parse_string (s : string) : option (string * string) :=
  match read_items s with
  | Some (items, after) => Some (encode_items items, after)
  | None => None
  end.

(** Property keys that are array indices come first when an object's
    properties are enumerated, in ascending order. *)
Fixpoint all_digits (s : string) : bool :=
  match s with
  | EmptyString => true
  | String c rest =>
      match digit_val c with Some _ => all_digits rest | None => false end
  end.

Definition array_index (k : string) : option N :=
  match k with
  | EmptyString => None
  | String c rest =>
      if all_digits k && (negb (Ascii.eqb c "0") || negb (Str.truthy rest)) then
        let '(v, _, _) := read_digits k 0 0 in
        if (v <? 4294967295)%Z then Some (Z.to_N v) else None
      else None
  end.

Fixpoint replace_member (k : string) (v : Json) (members : list (string * Json))
  : option (list (string * Json)) :=
  match members with
  | [] => None
  | (k', v') :: rest =>
      if String.eqb k k' then Some ((k, v) :: rest)
      else match replace_member k v rest with
           | Some rest' => Some ((k', v') :: rest')
           | None => None
           end
  end.

Fixpoint insert_index (i : N) (k : string) (v : Json)
    (members : list (string * Json)) : list (string * Json) :=
  match members with
  | [] => [(k, v)]
  | (k', v') :: rest =>
      match array_index k' with
      | Some j =>
          if (i <? j)%N then (k, v) :: members
          else (k', v') :: insert_index i k v rest
      | None => (k, v) :: members
      end
  end.

(** [CreateDataProperty]: a key met again keeps its place and takes the
    new value. *)
Definition define (k : string) (v : Json) (members : list (string * Json))
  : list (string * Json) :=
  match replace_member k v members with
  | Some members' => members'
  | None =>
      match array_index k with
      | Some i => insert_index i k v members
      | None => members ++ [(k, v)]
      end
  end.

Inductive Parsed : Type :=
| OutOfFuel
| Invalid
| Got (v : Json) (rest : string).

(** What the parser is reading: a value, the elements of an array after
    those in [acc], or the members of an object after those in [acc]. *)
Inductive Mode : Type :=
| MValue
| MElements (acc : list Json)
| MMembers (acc : list (string * Json)).

Fixpoint strip_prefix (p s : string) : option string :=
  match p with
  | EmptyString => Some s
  | String a p' =>
      match s with
      | String b s' => if Ascii.eqb a b then strip_prefix p' s' else None
      | EmptyString => None
      end
  end.

Definition parse_literal (s : string) : Parsed :=
  match strip_prefix "null" s with
  | Some rest => Got JNull rest
  | None =>
      match strip_prefix "true" s with
      | Some rest => Got (JBool true) rest
      | None =>
          match strip_prefix "false" s with
          | Some rest => Got (JBool false) rest
          | None =>
              match parse_number s with
              | Some (v, rest) => Got v rest
              | None => Invalid
              end
          end
      end
  end.

(** What follows a value inside an array or an object: a comma, the
    closing bracket [close], or something else. *)
Inductive Next : Type :=
| More (rest : string)
| Closed (rest : string)
| Neither.

Definition next (close : ascii) (s : string) : Next :=
  match skip_ws s with
  | String c rest =>
      if Ascii.eqb c "," then More rest
      else if Ascii.eqb c close then Closed rest
      else Neither
  | EmptyString => Neither
  end.

(** Whether [close] comes next, and what follows it. *)
Definition closes (close : ascii) (s : string) : option string :=
  match skip_ws s with
  | String c rest => if Ascii.eqb c close then Some rest else None
  | EmptyString => None
  end.

(** A member's key and the colon after it. *)
Definition read_key (s : string) : option (string * string) :=
  match skip_ws s with
  | String c rest =>
      if Ascii.eqb c Str.dquote then
        match parse_string rest with
        | Some (k, after_key) =>
            match closes ":" after_key with
            | Some after_colon => Some (k, after_colon)
            | None => None
            end
        | None => None
        end
      else None
  | EmptyString => None
  end.

Fixpoint parse_at (fuel : nat) (mode : Mode) (s : string) : Parsed :=
  match fuel with
  | O => OutOfFuel
  | S fuel' =>
      match mode with
      | MValue =>
          match skip_ws s with
          | EmptyString => Invalid
          | String c rest =>
              if Ascii.eqb c "[" then
                match closes "]" rest with
                | Some after => Got (JArr []) after
                | None => parse_at fuel' (MElements []) rest
                end
              else if Ascii.eqb c "{" then
                match closes "}" rest with
                | Some after => Got (JObj []) after
                | None => parse_at fuel' (MMembers []) rest
                end
              else if Ascii.eqb c Str.dquote then
                match parse_string rest with
                | Some (str, after) => Got (JStr str) after
                | None => Invalid
                end
              else parse_literal (String c rest)
          end
      | MElements acc =>
          match parse_at fuel' MValue s with
          | Got v after =>
              match next "]" after with
              | More more => parse_at fuel' (MElements (acc ++ [v])) more
              | Closed more => Got (JArr (acc ++ [v])) more
              | Neither => Invalid
              end
          | failure => failure
          end
      | MMembers acc =>
          match read_key s with
          | Some (k, after_colon) =>
              match parse_at fuel' MValue after_colon with
              | Got v after =>
                  match next "}" after with
                  | More more => parse_at fuel' (MMembers (define k v acc)) more
                  | Closed more => Got (JObj (define k v acc)) more
                  | Neither => Invalid
                  end
              | failure => failure
              end
          | None => Invalid
          end
      end
  end.

Definition fuel_for (text : string) : nat := 2 * String.length text + 2.

(** The fuel that reading [s] in a mode can use. *)
Definition fuel_needed (mode : Mode) (s : string) : nat :=
  match mode with
  | MValue => 2 * String.length s + 1
  | MElements _ | MMembers _ => 2 * String.length s + 2
  end.

(** [JSON.parse(text)]: [None] when it throws a [SyntaxError]. *)
Definition parse (text : string) : option Json :=
  match parse_at (fuel_for text) MValue text with
  | Got v rest =>
      match skip_ws rest with
      | EmptyString => Some v
      | String _ _ => None
      end
  | _ => None
  end.

End JSON.

(* ===================================================================== *)
(** ** The runtime: errors, the process environment, the logger *)
(* ===================================================================== *)

(** An [Error] object as far as the code looks at one. *)
Record JsError : Type := mkError { name : string; message : string }.

Definition Error (msg : string) : JsError := mkError "Error" msg.
Definition TypeError (msg : string) : JsError := mkError "TypeError" msg.
Definition SyntaxError (msg : string) : JsError := mkError "SyntaxError" msg.

(** [String(err)], which is [Error.prototype.toString]. *)
Definition String_of_error (err : JsError) : string :=
  if negb (Str.truthy (name err)) then message err
  else if negb (Str.truthy (message err)) then name err
  else name err ++ ": " ++ message err.

Inductive LogLevel : Type := Debug | Warn.

Record LogEntry : Type := mkLog { level : LogLevel; text : string }.

(** The process as the code sees it: [process.env], what the logger has
    received, and a journal for the effects of the external collaborators
    (files written, cache switched off, telemetry sent). *)
Record World : Type := mkWorld {
  env : gmap string string;
  logs : list LogEntry;
  journal : list string
}.

Inductive Completion (A : Type) : Type :=
| Normal (a : A)
| Throw (e : JsError).
Arguments Normal {A} a.
Arguments Throw {A} e.

(** A computation that may log, call out, and return or throw. An [async]
    function is one of these: a rejected promise is a [Throw] at the
    [await]. *)
Definition Js (A : Type) : Type := World -> Completion A * World.

Definition pure {A : Type} (a : A) : Js A := fun w => (Normal a, w).

Definition throw {A : Type} (e : JsError) : Js A := fun w => (Throw e, w).

Definition bind {A B : Type} (c : Js A) (k : A -> Js B) : Js B :=
  fun w =>
    match c w with
    | (Normal a, w') => k a w'
    | (Throw e, w') => (Throw e, w')
    end.

(** [try { c } catch (err) { handler(err) }] *)
Definition try_catch {A : Type} (c : Js A) (handler : JsError -> Js A) : Js A :=
  fun w =>
    match c w with
    | (Normal a, w') => (Normal a, w')
    | (Throw e, w') => handler e w'
    end.

Notation "'let*' x ':=' c 'in' k" := (bind c (fun x => k))
  (at level 10, x name, c at level 100, k at level 200).

Definition getenv (key : string) : Js (option string) :=
  fun w => (Normal (env w !! key), w).

(** [a || b] where [a] is a string or [undefined]. *)
Definition or_else {A : Type} (a : option string) (inj : string -> A) (b : A) : A :=
  match a with
  | Some s => if Str.truthy s then inj s else b
  | None => b
  end.

(** The world after the logger has received [msg]. *)
Definition logged (lvl : LogLevel) (msg : string) (w : World) : World :=
  mkWorld (env w) (logs w ++ [mkLog lvl msg]) (journal w).

(** Modelled from the spec: the logger module, with its [warn] and [debug],
    is not among the sources. The specification has the adapters log a
    warning and go on; a call records its message in [logs], in order, and
    returns. *)
Definition log (lvl : LogLevel) (msg : string) : Js unit :=
  fun w => (Normal tt, logged lvl msg w).

Module logger.
Definition warn (msg : string) : Js unit := log Warn msg.
Definition debug (msg : string) : Js unit := log Debug msg.
End logger.

(** [JSON.parse] as a computation: a [SyntaxError] on text that is not
    JSON. The error's message differs between engines. *)
Definition JSON_parse (text : string) : Js Json :=
  match JSON.parse text with
  | Some v => pure v
  | None => throw (SyntaxError "Unexpected token in JSON")
  end.

(** *** Property access *)

Fixpoint lookup_member (key : string) (members : list (string * Json)) : JsValue :=
  match members with
  | [] => None
  | (k, v) :: rest => if String.eqb k key then Some v else lookup_member key rest
  end.

(** [v[key]] for a key that is not [length] and that no built-in prototype
    defines (as [choices], [text], [usage], [0] are): a [TypeError] on
    [undefined] and [null], an own property otherwise. An array and a
    string have their elements as own properties; a character of a string
    is one byte here. The wording of the [TypeError] is V8's. *)
Definition get (v : JsValue) (key : string) : Js JsValue :=
  match v with
  | None =>
      throw (TypeError ("Cannot read properties of undefined (reading '" ++ key ++ "')"))
  | Some JNull =>
      throw (TypeError ("Cannot read properties of null (reading '" ++ key ++ "')"))
  | Some (JObj members) => pure (lookup_member key members)
  | Some (JArr elements) =>
      pure (match JSON.array_index key with
            | Some i => nth_error elements (N.to_nat i)
            | None => None
            end)
  | Some (JStr s) =>
      pure (match JSON.array_index key with
            | Some i =>
                match String.get (N.to_nat i) s with
                | Some c => Some (JStr (Str.of_char c))
                | None => None
                end
            | None => None
            end)
  | Some (JBool _) | Some (JNum _) => pure None
  end.

(* ===================================================================== *)
(** ** The providers module *)
(* ===================================================================== *)

Definition DEFAULT_OPENAI_HOST : string := "api.openai.com".

(** The white space [parseInt] skips, [StrWhiteSpaceChar]: the code points
    of [WhiteSpace] and of [LineTerminator]. In UTF-8 six are one byte,
    U+00A0 is two, and the others are three: U+1680, U+2000 to U+200A,
    U+2028, U+2029, U+202F, U+205F, U+3000 and U+FEFF. *)
Definition is_space (c : ascii) : bool :=
  match N_of_ascii c with
  | 9 | 10 | 11 | 12 | 13 | 32 => true
  | _ => false
  end%N.

Definition is_space2 (a b : ascii) : bool :=
  match N_of_ascii a, N_of_ascii b with
  | 194, 160 => true
  | _, _ => false
  end%N.

Definition is_space3 (a b c : ascii) : bool :=
  match N_of_ascii a, N_of_ascii b with
  | 225, 154 => (N_of_ascii c =? 128)%N
  | 226, 128 =>
      let n := N_of_ascii c in
      ((128 <=? n) && (n <=? 138) || (n =? 168) || (n =? 169) || (n =? 175))%N
  | 226, 129 => (N_of_ascii c =? 159)%N
  | 227, 128 => (N_of_ascii c =? 128)%N
  | 239, 187 => (N_of_ascii c =? 191)%N
  | _, _ => false
  end%N.

(** Whether a byte begins a character of more than one byte. *)
Definition is_lead (a : ascii) : bool := (192 <=? N_of_ascii a)%N.

Fixpoint skip_space (s : string) : string :=
  match s with
  | EmptyString => s
  | String a rest =>
      if is_space a then skip_space rest
      else if is_lead a then
        match rest with
        | EmptyString => s
        | String b rest2 =>
            if is_space2 a b then skip_space rest2
            else
              match rest2 with
              | EmptyString => s
              | String c rest3 =>
                  if is_space3 a b c then skip_space rest3 else s
              end
        end
      else s
  end.

(** [parseInt(s, 10)]: white space is skipped, then a sign is read, then
    the digits that follow, as many as there are; without a digit the
    result is [NaN]. The integer read is rounded to a double. *)
Definition parseInt (s : string) : Number.t :=
  let '(negative, digits) :=
    match skip_space s with
    | String "-" r => (true, r)
    | String "+" r => (false, r)
    | other => (false, other)
    end in
  let '(v, n, _) := JSON.read_digits digits 0 0 in
  if (n =? 0)%Z then Number.NaN else Number.round negative (Z.to_N v) 0.

(** What [fetch] resolves to, with its [json()] method. *)
Record Response : Type := mkResponse { json : Js Json }.

Record RequestInit : Type := mkRequest {
  method : string;
  headers : list (string * string);
  body : string
}.

(** An instance of a user's provider class. *)
Record CustomProvider : Type := mkCustom { custom_id : string }.

(** What the code takes from the process that runs it: [process.env] as it
    was when the modules were imported, [fetchWithTimeout] of the util
    module, and the dynamic [import] of a user's module at
    [path.join(process.cwd(), providerPath)] followed by [new] on its
    default export. The imported module and its constructor are a user's
    code and may do anything: [importDefault] stands for all of it, and is
    given the network, which that code may use. *)
Record Host : Type := mkHost {
  startup : gmap string string;
  fetchWithTimeout : string -> RequestInit -> Number.t -> Js Response;
  importDefault :
    (string -> RequestInit -> Number.t -> Js Response) -> string -> Js CustomProvider
}.

(** Lines 9-11: the module-level constant, computed once, at import. *)
Definition REQUEST_TIMEOUT_MS (host : Host) : Number.t :=
  or_else (startup host !! "REQUEST_TIMEOUT_MS") parseInt (Number.integer 10000).

Module TokenUsage.
Record t : Type := mk { total : JsValue; prompt : JsValue; completion : JsValue }.
End TokenUsage.

(** A [ProviderResponse] object: each field is [None] when the object has
    no such key. *)
Module ProviderResponse.
Record t : Type := mk {
  error : option string;
  output : option JsValue;
  tokenUsage : option TokenUsage.t
}.

(** [{ error: msg }] *)
Definition failure (msg : string) : t := mk (Some msg) None None.

(** [{ output: o, tokenUsage: u }] *)
Definition success (o : JsValue) (u : TokenUsage.t) : t := mk None (Some o) (Some u).
End ProviderResponse.

Module OpenAiGenericProvider.

Record t : Type := mk { modelName : string; apiKey : string; apiHost : string }.

Definition new (modelName : string) (apiKey : option string) : Js t :=
  let* from_env := getenv "OPENAI_API_KEY" in
  match or_else apiKey Some from_env with
  | Some key =>
      if Str.truthy key then
        let* host_name := getenv "OPENAI_API_HOST" in
        pure (mk modelName key (or_else host_name (fun h => h) DEFAULT_OPENAI_HOST))
      else
        throw (Error "OpenAI API key is not set. Set OPENAI_API_KEY environment variable or pass it as an argument to the constructor.")
  | None =>
      throw (Error "OpenAI API key is not set. Set OPENAI_API_KEY environment variable or pass it as an argument to the constructor.")
  end.

Definition id (self : t) : string := "openai:" ++ modelName self.

Definition toString (self : t) : string := "[OpenAI Provider " ++ modelName self ++ "]".

Definition callApi (self : t) (prompt : string) : Js ProviderResponse.t :=
  throw (Error "Not implemented").

(** The request both subclasses send. *)
Definition post (self : t) (payload : Json) : RequestInit :=
  mkRequest "POST"
    [("Content-Type", "application/json");
     ("Authorization", "Bearer " ++ apiKey self)]
    (JSON.stringify payload).

(** What the first [try] of both subclasses evaluates: the call of
    [fetchWithTimeout] on the endpoint, then [response.json()]. *)
Definition request (host : Host) (self : t) (endpoint : string) (payload : Json)
  : Js Json :=
  let* response :=
    fetchWithTimeout host ("https://" ++ apiHost self ++ endpoint)
      (post self payload) (REQUEST_TIMEOUT_MS host) in
  json response.

(** [data.usage.total_tokens] and its two siblings, in that order. *)
Definition read_usage (data : Json) : Js TokenUsage.t :=
  let* usage := get (Some data) "usage" in
  let* total := get usage "total_tokens" in
  let* usage := get (Some data) "usage" in
  let* prompt := get usage "prompt_tokens" in
  let* usage := get (Some data) "usage" in
  let* completion := get usage "completion_tokens" in
  pure (TokenUsage.mk total prompt completion).

End OpenAiGenericProvider.

Definition TAB : string := Str.of_char (ascii_of_N 9).

Module OpenAiCompletionProvider.

Definition OPENAI_COMPLETION_MODELS : list string :=
  ["text-davinci-003"; "text-davinci-002"; "text-curie-001";
   "text-babbage-001"; "text-ada-001"].

Definition new (modelName : string) (apiKey : option string)
  : Js OpenAiGenericProvider.t :=
  let* _ :=
    if negb (Str.includes OPENAI_COMPLETION_MODELS modelName)
    then logger.warn ("Using unknown OpenAI completion model: " ++ modelName)
    else pure tt in
  OpenAiGenericProvider.new modelName apiKey.

(** The [body] of lines 63-68. *)
Definition request_body (self : OpenAiGenericProvider.t) (prompt : string)
  : Js Json :=
  let* max_tokens := getenv "OPENAI_MAX_TOKENS" in
  let* temperature := getenv "OPENAI_TEMPERATURE" in
  pure (JObj [("model", JStr (OpenAiGenericProvider.modelName self));
             ("prompt", JStr prompt);
             ("max_tokens", or_else max_tokens JStr (JInt 1024));
             ("temperature", or_else temperature JStr (JInt 0))]).

(** What the [try] of lines 92-100 evaluates. *)
Definition read_result (data : Json) : Js ProviderResponse.t :=
  let* choices := get (Some data) "choices" in
  let* first := get choices "0" in
  let* text := get first "text" in
  let* usage := OpenAiGenericProvider.read_usage data in
  pure (ProviderResponse.success text usage).

Definition callApi (host : Host) (self : OpenAiGenericProvider.t) (prompt : string)
  : Js ProviderResponse.t :=
  let* body := request_body self prompt in
  let* _ := logger.debug ("Calling OpenAI API: " ++ JSON.stringify body) in
  let* fetched :=
    try_catch
      (let* data := OpenAiGenericProvider.request host self "/v1/completions" body in
       pure (inl data))
      (fun err =>
         pure (inr (ProviderResponse.failure ("API call error: " ++ String_of_error err)))) in
  match fetched with
  | inr returned => pure returned
  | inl data =>
      let* _ := logger.debug (TAB ++ "OpenAI API response: " ++ JSON.stringify data) in
      try_catch
        (read_result data)
        (fun err =>
           pure (ProviderResponse.failure
                  ("API response error: " ++ String_of_error err ++ ": "
                     ++ JSON.stringify data)))
  end.

End OpenAiCompletionProvider.

Module OpenAiChatCompletionProvider.

Definition OPENAI_CHAT_MODELS : list string :=
  ["gpt-4"; "gpt-4-0314"; "gpt-4-32k"; "gpt-4-32k-0314";
   "gpt-3.5-turbo"; "gpt-3.5-turbo-0301"].

Definition new (modelName : string) (apiKey : option string)
  : Js OpenAiGenericProvider.t :=
  let* _ :=
    if negb (Str.includes OPENAI_CHAT_MODELS modelName)
    then logger.warn ("Using unknown OpenAI chat model: " ++ modelName)
    else pure tt in
  OpenAiGenericProvider.new modelName apiKey.

(** The [messages] of lines 127-134. *)
Definition read_messages (prompt : string) : Js Json :=
  try_catch
    (JSON_parse prompt)
    (fun err => pure (JArr [JObj [("role", JStr "user"); ("content", JStr prompt)]])).

(** The [body] of lines 135-140. *)
Definition request_body (self : OpenAiGenericProvider.t) (prompt : string)
  : Js Json :=
  let* messages := read_messages prompt in
  let* max_tokens := getenv "OPENAI_MAX_TOKENS" in
  let* temperature := getenv "OPENAI_MAX_TEMPERATURE" in
  pure (JObj [("model", JStr (OpenAiGenericProvider.modelName self));
             ("messages", messages);
             ("max_tokens", or_else max_tokens JStr (JInt 1024));
             ("temperature", or_else temperature JStr (JInt 0))]).

(** What the [try] of lines 165-173 evaluates. *)
Definition read_result (data : Json) : Js ProviderResponse.t :=
  let* choices := get (Some data) "choices" in
  let* first := get choices "0" in
  let* message := get first "message" in
  let* content := get message "content" in
  let* usage := OpenAiGenericProvider.read_usage data in
  pure (ProviderResponse.success content usage).

Definition callApi (host : Host) (self : OpenAiGenericProvider.t) (prompt : string)
  : Js ProviderResponse.t :=
  let* body := request_body self prompt in
  let* _ := logger.debug ("Calling OpenAI API: " ++ JSON.stringify body) in
  let* fetched :=
    try_catch
      (let* data := OpenAiGenericProvider.request host self "/v1/chat/completions" body in
       pure (inl data))
      (fun err =>
         pure (inr (ProviderResponse.failure ("API call error: " ++ String_of_error err)))) in
  match fetched with
  | inr returned => pure returned
  | inl data =>
      let* _ := logger.debug (TAB ++ "OpenAI API response: " ++ JSON.stringify data) in
      try_catch
        (read_result data)
        (fun err =>
           pure (ProviderResponse.failure
                  ("API response error: " ++ String_of_error err ++ ": "
                     ++ JSON.stringify data)))
  end.

End OpenAiChatCompletionProvider.

(** An [ApiProvider] object: an instance of one of the two OpenAI classes or
    of a user's class. *)
Inductive ApiProvider : Type :=
| CompletionInstance (self : OpenAiGenericProvider.t)
| ChatInstance (self : OpenAiGenericProvider.t)
| CustomInstance (self : CustomProvider).

Definition provider_id (p : ApiProvider) : string :=
  match p with
  | CompletionInstance self | ChatInstance self => OpenAiGenericProvider.id self
  | CustomInstance self => custom_id self
  end.

(** What a caller hands to [loadApiProvider]: the declared string, or a
    value of another kind, as line 49 of the entry point does. *)
Inductive LoaderArg : Type :=
| ArgString (s : string)
| ArgUndefined
| ArgObject
| ArgFunction.

Definition show_undefined (v : option string) : string :=
  match v with Some s => s | None => "undefined" end.

Definition is_string (v : option string) (s : string) : bool :=
  match v with Some x => String.eqb x s | None => false end.

Definition includes_value (xs : list string) (v : option string) : bool :=
  match v with Some x => Str.includes xs x | None => false end.

Definition loadApiProvider (host : Host) (providerPath : LoaderArg) : Js ApiProvider :=
  match providerPath with
  | ArgObject | ArgFunction =>
      throw (TypeError "providerPath?.startsWith is not a function")
  | ArgUndefined =>
      (* [undefined?.startsWith(...)] is [undefined]; [path.join] refuses it *)
      throw (TypeError ("The " ++ Str.quoted "path"
                          ++ " argument must be of type string. Received undefined"))
  | ArgString providerPath =>
      if Str.startsWith providerPath "openai:" then
        let options := Str.split ":" providerPath in
        let modelType := nth_error options 1 in
        let modelName := nth_error options 2 in
        if is_string modelType "chat" then
          let* self :=
            OpenAiChatCompletionProvider.new
              (or_else modelName (fun m => m) "gpt-3.5-turbo") None in
          pure (ChatInstance self)
        else if is_string modelType "completion" then
          let* self :=
            OpenAiCompletionProvider.new
              (or_else modelName (fun m => m) "text-davinci-003") None in
          pure (CompletionInstance self)
        else if includes_value OpenAiChatCompletionProvider.OPENAI_CHAT_MODELS modelType then
          let* self := OpenAiChatCompletionProvider.new (show_undefined modelType) None in
          pure (ChatInstance self)
        else if includes_value OpenAiCompletionProvider.OPENAI_COMPLETION_MODELS modelType then
          let* self := OpenAiCompletionProvider.new (show_undefined modelType) None in
          pure (CompletionInstance self)
        else
          throw (Error ("Unknown OpenAI model type: " ++ show_undefined modelType
                          ++ ". Use one of the following providers: openai:chat:<model name>, openai:completion:<model name>"))
      else
        let* instance := importDefault host (fetchWithTimeout host) providerPath in
        pure (CustomInstance instance)
  end.

(* ===================================================================== *)
(** ** The entry point: [evaluate] *)
(* ===================================================================== *)

Module ProviderOptions.
Record t : Type := mk { id : option string; config : JsValue }.
End ProviderOptions.

(** The value of a [provider] field of a test or of an assertion. *)
Inductive ProviderRef : Type :=
| RefString (s : string)
| RefOptions (o : ProviderOptions.t)
| RefFunction (label : string)
| RefInstance (a : ApiProvider).

Inductive JsType : Type := TString | TObject | TFunction.

Definition typeof (p : ProviderRef) : JsType :=
  match p with
  | RefString _ => TString
  | RefOptions _ | RefInstance _ => TObject
  | RefFunction _ => TFunction
  end.

Definition truthy (p : ProviderRef) : bool :=
  match p with
  | RefString s => Str.truthy s
  | RefOptions _ | RefFunction _ | RefInstance _ => true
  end.

(** The value itself as an argument of [loadApiProvider]. *)
Definition as_argument (p : ProviderRef) : LoaderArg :=
  match p with
  | RefString s => ArgString s
  | RefOptions _ | RefInstance _ => ArgObject
  | RefFunction _ => ArgFunction
  end.

(** [p.id]: the identifier of a configuration object, the [id] method of
    an adapter. *)
Definition id_property (p : ProviderRef) : LoaderArg :=
  match p with
  | RefOptions o =>
      match ProviderOptions.id o with
      | Some ident => ArgString ident
      | None => ArgUndefined
      end
  | RefInstance _ => ArgFunction
  | RefString _ | RefFunction _ => ArgUndefined
  end.

Definition truthy_argument (a : LoaderArg) : bool :=
  match a with
  | ArgString s => Str.truthy s
  | ArgUndefined => false
  | ArgObject | ArgFunction => true
  end.

Module Assertion.
Record t : Type := mk {
  type : string;
  value : JsValue;
  provider : option ProviderRef
}.
End Assertion.

Module TestOptions.
Record t : Type := mk { prefix : JsValue; suffix : JsValue; provider : option ProviderRef }.
End TestOptions.

Module TestCase.
Record t : Type := mk {
  vars : JsValue;
  options : option TestOptions.t;
  assert : option (list Assertion.t)
}.
End TestCase.

Module PromptEntry.
Record t : Type := mk { raw : string; display : string }.
End PromptEntry.

Inductive OutputPath : Type :=
| NoOutputPath
| OneOutputPath (path : string)
| OutputPaths (paths : list string).

(** The suite as the caller gives it. *)
Module EvaluateTestSuite.
Record t : Type := mk {
  providers : JsValue;
  env : JsValue;
  tests : JsValue;
  nunjucksFilters : JsValue;
  prompts : list Json;
  outputPath : OutputPath;
  writeLatestResults : bool
}.
End EvaluateTestSuite.

(** The suite as the Evaluation Engine receives it: the caller's suite
    ([base], the spread) with four fields replaced. *)
Module TestSuite.
Record t : Type := mk {
  base : EvaluateTestSuite.t;
  providers : list ApiProvider;
  tests : option (list TestCase.t);
  nunjucksFilters : Json;
  prompts : list PromptEntry.t
}.
End TestSuite.

Module EvaluateOptions.
Record t : Type := mk { cache : option bool; maxConcurrency : JsValue }.
End EvaluateOptions.

Definition EvaluateSummary : Type := Json.

(** The modules [evaluate] imports that are not among the sources. *)
Record Collaborators : Type := mkCollaborators {
  loadApiProviders : JsValue -> JsValue -> Js (list ApiProvider);
  readTests : JsValue -> Js (option (list TestCase.t));
  readFilters : Json -> Js Json;
  disableCache : Js unit;
  maybeShowNotice : Js unit;
  doEvaluate : TestSuite.t -> EvaluateOptions.t -> Js EvaluateSummary;
  writeOutput : string -> EvaluateSummary -> EvaluateTestSuite.t -> Js unit;
  writeMultipleOutputs : list string -> EvaluateSummary -> EvaluateTestSuite.t -> Js unit;
  writeLatestResults : EvaluateSummary -> EvaluateTestSuite.t -> Js unit;
  send : Js unit
}.

(** [isProduction] of tiny-invariant, a module-level constant:
    [process.env.NODE_ENV === 'production'] at import. *)
Definition isProduction (host : Host) : bool :=
  match startup host !! "NODE_ENV" with
  | Some mode => String.eqb mode "production"
  | None => false
  end.

(** [invariant(condition, message)] of tiny-invariant: in production the
    message is dropped. *)
Definition invariant (host : Host) (condition : bool) (msg : string) : Js unit :=
  if condition then pure tt
  else if isProduction host then throw (Error "Invariant failed")
  else throw (Error (if Str.truthy msg then "Invariant failed: " ++ msg
                     else "Invariant failed")).

(** A call with one argument more than the function has parameters: the
    argument is evaluated, which for an object literal does nothing, and
    dropped. *)
Definition surplus {A B : Type} (call : A) (argument : B) : A := call.

(** [{ options: casted }], the second argument of line 57. *)
Record LoaderContext : Type := mkContext { context_options : ProviderRef }.

(** JavaScript truthiness of a value. *)
Definition truthy_value (v : JsValue) : bool :=
  match v with
  | None | Some JNull => false
  | Some (JBool b) => b
  | Some (JNum x) => Number.truthy x
  | Some (JStr s) => Str.truthy s
  | Some (JArr _) | Some (JObj _) => true
  end.

(** [a || b] on values. *)
Definition value_or (a : JsValue) (b : Json) : Json :=
  match a with
  | Some v => if truthy_value a then v else b
  | None => b
  end.

Definition isOpenAIMessagesObjects (arr : Json) : bool :=
  match arr with
  | JArr elements =>
      forallb (fun element =>
                 match element with
                 | JObj _ => true
                 | JNull | JArr _ => false
                 | JBool _ | JNum _ | JStr _ => false
                 end) elements
  | _ => false
  end.

(** The [prompts] of lines 28-43. *)
Definition normalizePrompts (prompts : list Json) : list PromptEntry.t :=
  if isOpenAIMessagesObjects (JArr prompts) then
    [PromptEntry.mk (JSON.stringify (JArr prompts)) (JSON.stringify (JArr prompts))]
  else
    List.map (fun promptContent =>
                match promptContent with
                | JStr s => PromptEntry.mk s s
                | other => PromptEntry.mk (JSON.stringify other) (JSON.stringify other)
                end) prompts.

(** [for (const x of xs) { ... }] where the body may replace [x]. *)
Fixpoint for_each {A : Type} (body : A -> Js A) (xs : list A) : Js (list A) :=
  match xs with
  | [] => pure []
  | x :: rest =>
      let* x' := body x in
      let* rest' := for_each body rest in
      pure (x' :: rest')
  end.

Section Evaluate.

Context (host : Host) (ext : Collaborators).

(** Lines 48-50. *)
Definition resolveTestProvider (test : TestCase.t) : Js TestCase.t :=
  match TestCase.options test with
  | Some opts =>
      match TestOptions.provider opts with
      | Some p =>
          if truthy p then
            match typeof p with
            | TFunction =>
                let* loaded := loadApiProvider host (as_argument p) in
                pure (TestCase.mk (TestCase.vars test)
                        (Some (TestOptions.mk (TestOptions.prefix opts)
                                 (TestOptions.suffix opts)
                                 (Some (RefInstance loaded))))
                        (TestCase.assert test))
            | TString | TObject => pure test
            end
          else pure test
      | None => pure test
      end
  | None => pure test
  end.

Definition with_provider (assertion : Assertion.t) (a : ApiProvider) : Assertion.t :=
  Assertion.mk (Assertion.type assertion) (Assertion.value assertion)
    (Some (RefInstance a)).

(** Lines 53-63. *)
Definition resolveAssertionProvider (assertion : Assertion.t) : Js Assertion.t :=
  match Assertion.provider assertion with
  | Some p =>
      if truthy p then
        match typeof p with
        | TObject =>
            let casted := p in
            let* _ :=
              invariant host (truthy_argument (id_property casted))
                        "Provider object must have an id" in
            let* loaded :=
              surplus (loadApiProvider host (id_property casted))
                      (mkContext casted) in
            pure (with_provider assertion loaded)
        | TString =>
            let* loaded := loadApiProvider host (as_argument p) in
            pure (with_provider assertion loaded)
        | TFunction =>
            (* It's a function, no need to do anything *)
            pure assertion
        end
      else pure assertion
  | None => pure assertion
  end.

(** The body of the loop of lines 47-66. *)
Definition resolveTest (test : TestCase.t) : Js TestCase.t :=
  let* test := resolveTestProvider test in
  match TestCase.assert test with
  | Some assertions =>
      let* assertions' := for_each resolveAssertionProvider assertions in
      pure (TestCase.mk (TestCase.vars test) (TestCase.options test) (Some assertions'))
  | None => pure test
  end.

(** Lines 46-66: the Nested Provider Resolver. *)
Definition resolveNestedProviders (tests : list TestCase.t) : Js (list TestCase.t) :=
  for_each resolveTest tests.

(** Lines 18-72: everything before the Evaluation Engine runs. *)
Definition prepare (testSuite : EvaluateTestSuite.t) (options : EvaluateOptions.t)
  : Js TestSuite.t :=
  let* providers :=
    loadApiProviders ext (EvaluateTestSuite.providers testSuite)
      (EvaluateTestSuite.env testSuite) in
  let* tests := readTests ext (EvaluateTestSuite.tests testSuite) in
  let* nunjucksFilters :=
    readFilters ext
      (value_or (EvaluateTestSuite.nunjucksFilters testSuite) (JObj [])) in
  let prompts := normalizePrompts (EvaluateTestSuite.prompts testSuite) in
  let* tests :=
    match tests with
    | Some loaded =>
        let* resolved := resolveNestedProviders loaded in
        pure (Some resolved)
    | None => pure None
    end in
  let* _ :=
    match EvaluateOptions.cache options with
    | Some false => disableCache ext
    | _ => pure tt
    end in
  let* _ := maybeShowNotice ext in
  pure (TestSuite.mk testSuite providers tests nunjucksFilters prompts).

(** Lines 77-83. *)
Definition write_outputs (testSuite : EvaluateTestSuite.t) (ret : EvaluateSummary)
  : Js unit :=
  match EvaluateTestSuite.outputPath testSuite with
  | OneOutputPath path =>
      if Str.truthy path then writeOutput ext path ret testSuite else pure tt
  | OutputPaths paths => writeMultipleOutputs ext paths ret testSuite
  | NoOutputPath => pure tt
  end.

(** Lines 85-87. *)
Definition write_latest (testSuite : EvaluateTestSuite.t) (ret : EvaluateSummary)
  : Js unit :=
  if EvaluateTestSuite.writeLatestResults testSuite
  then writeLatestResults ext ret testSuite
  else pure tt.

Definition evaluate (testSuite : EvaluateTestSuite.t) (options : EvaluateOptions.t)
  : Js EvaluateSummary :=
  let* constructedTestSuite := prepare testSuite options in
  let* ret := doEvaluate ext constructedTestSuite options in
  let* _ := write_outputs testSuite ret in
  let* _ := write_latest testSuite ret in
  let* _ := send ext in
  pure ret.

End Evaluate.

(* ===================================================================== *)
(** ** Concrete surroundings *)
(* ===================================================================== *)

(** Worlds, hosts and collaborators on which the definitions above can be
    run. *)
Module Demo.

Definition world (variables : list (string * string)) : World :=
  mkWorld (list_to_map variables) [] [].

Definition with_key : World := world [("OPENAI_API_KEY", "sk-test")].

Definition without_key : World := world [].

Definition note (event : string) : Js unit :=
  fun w => (Normal tt, mkWorld (env w) (logs w) (journal w ++ [event])).

(** A network on which every request is answered by [reply], a text. *)
Definition replying (reply : string) : Host :=
  mkHost empty (fun url init timeout => pure (mkResponse (JSON_parse reply)))
         (fun network path => throw (Error ("Cannot find module '" ++ path ++ "'"))).

(** A network on which no request gets through. *)
Definition unreachable : Host :=
  mkHost empty (fun url init timeout => throw (TypeError "fetch failed"))
         (fun network path => throw (Error ("Cannot find module '" ++ path ++ "'"))).

(** The same process, started with other variables. *)
Definition started_with (variables : list (string * string)) (host : Host) : Host :=
  mkHost (list_to_map variables) (fetchWithTimeout host) (importDefault host).

Definition self : OpenAiGenericProvider.t :=
  OpenAiGenericProvider.mk "text-davinci-003" "sk-test" DEFAULT_OPENAI_HOST.

Definition member (key value : string) : string := Str.quoted key ++ ":" ++ value.

Definition usage_text : string :=
  "{" ++ member "total_tokens" "7" ++ "," ++ member "prompt_tokens" "3" ++ ","
      ++ member "completion_tokens" "4" ++ "}".

(** A completion response as the vendor documents it. *)
Definition completion_reply : string :=
  "{" ++ member "choices" ("[{" ++ member "text" (Str.quoted "Hello!") ++ "}]") ++ ","
      ++ member "usage" usage_text ++ "}".

(** A chat response as the vendor documents it. *)
Definition chat_reply : string :=
  "{" ++ member "choices"
           ("[{" ++ member "message"
                      ("{" ++ member "role" (Str.quoted "assistant") ++ ","
                           ++ member "content" (Str.quoted "Hello!") ++ "}") ++ "}]")
      ++ "," ++ member "usage" usage_text ++ "}".



Definition no_content : string :=
  "{" ++ member "choices" ("[{" ++ member "message" "{}" ++ "}]") ++ ","
      ++ member "usage" "{}" ++ "}".

Definition chat_self : OpenAiGenericProvider.t :=
  OpenAiGenericProvider.mk "gpt-4" "sk-test" DEFAULT_OPENAI_HOST.

Definition summary : EvaluateSummary := JObj [("version", JInt 1); ("results", JArr [])].

(** Collaborators that all succeed, each leaving a note in the journal. *)
Definition collaborators : Collaborators :=
  mkCollaborators
    (fun providers env => pure [])
    (fun tests => pure (Some []))
    (fun filters => pure filters)
    (note "disableCache")
    (note "maybeShowNotice")
    (fun suite options =>
       let* _ := note "doEvaluate" in pure summary)
    (fun path ret suite => note ("writeOutput " ++ path))
    (fun paths ret suite => note "writeMultipleOutputs")
    (fun ret suite => note "writeLatestResults")
    (note "telemetry.send").

(** The same, but the output file cannot be written. *)
Definition read_only_disk : Collaborators :=
  mkCollaborators
    (loadApiProviders collaborators)
    (readTests collaborators)
    (readFilters collaborators)
    (disableCache collaborators)
    (maybeShowNotice collaborators)
    (doEvaluate collaborators)
    (fun path ret suite =>
       throw (Error ("EACCES: permission denied, open '" ++ path ++ "'")))
    (writeMultipleOutputs collaborators)
    (writeLatestResults collaborators)
    (send collaborators).

Definition suite : EvaluateTestSuite.t :=
  EvaluateTestSuite.mk (Some (JArr [JStr "openai:chat:gpt-4"])) None (Some (JArr []))
    None [JStr "Say hi"] (OneOutputPath "out.json") false.

Definition options : EvaluateOptions.t := EvaluateOptions.mk None None.

Definition assertion (p : ProviderRef) : Assertion.t :=
  Assertion.mk "llm-rubric" (Some (JStr "is polite")) (Some p).

Definition test_with (p : ProviderRef) : TestCase.t :=
  TestCase.mk None (Some (TestOptions.mk None None (Some p))) None.

End Demo.

(* ===================================================================== *)
(** ** The vocabulary of the specification *)
(* ===================================================================== *)

(** A non-array object. *)
Inductive plain_object : Json -> Prop :=
| plain_object_intro (members : list (string * Json)) : plain_object (JObj members).

(** The entry the specification gives one element mapped on its own. *)
Inductive entry_for : Json -> PromptEntry.t -> Prop :=
| entry_for_string (s : string) :
    entry_for (JStr s) (PromptEntry.mk s s)
| entry_for_other (p : Json) :
    (forall s, p <> JStr s) ->
    entry_for p (PromptEntry.mk (JSON.stringify p) (JSON.stringify p)).

(** [undefined] or [null]: a value no property can be read from. *)
Definition missing (v : JsValue) : bool :=
  match v with
  | None | Some JNull => true
  | Some _ => false
  end.

(** The error of reading [key] from a missing value. *)
Definition access_error (v : JsValue) (key : string) : JsError :=
  match v with
  | Some JNull => TypeError ("Cannot read properties of null (reading '" ++ key ++ "')")
  | _ => TypeError ("Cannot read properties of undefined (reading '" ++ key ++ "')")
  end.

(** What [v[key]] is when [v] is not missing. *)
Definition peek (v : JsValue) (key : string) : JsValue :=
  match v with
  | Some (JObj members) => lookup_member key members
  | Some (JArr elements) =>
      match JSON.array_index key with
      | Some i => nth_error elements (N.to_nat i)
      | None => None
      end
  | Some (JStr s) =>
      match JSON.array_index key with
      | Some i =>
          match String.get (N.to_nat i) s with
          | Some c => Some (JStr (Str.of_char c))
          | None => None
          end
      | None => None
      end
  | _ => None
  end.

Definition is_string_value (v : JsValue) : bool :=
  match v with Some (JStr _) => true | _ => false end.

Definition is_number_value (v : JsValue) : bool :=
  match v with Some (JNum _) => true | _ => false end.

Definition usage_shape (data : Json) : bool :=
  let usage := peek (Some data) "usage" in
  is_number_value (peek usage "total_tokens")
  && is_number_value (peek usage "prompt_tokens")
  && is_number_value (peek usage "completion_tokens").

(** The response the completion endpoint is expected to give: a string at
    [choices[0].text] and the three token counts under [usage]. *)
Definition completion_shape (data : Json) : bool :=
  is_string_value (peek (peek (peek (Some data) "choices") "0") "text")
  && usage_shape data.

(** The response the chat endpoint is expected to give: a string at
    [choices[0].message.content] and the three token counts. *)
Definition chat_shape (data : Json) : bool :=
  is_string_value
    (peek (peek (peek (peek (Some data) "choices") "0") "message") "content")
  && usage_shape data.

(** The bodies whose reading throws: those in which [data], [choices],
    [choices[0]] or [usage] is missing. *)
Definition completion_unreadable (data : Json) : bool :=
  missing (Some data)
  || missing (peek (Some data) "choices")
  || missing (peek (peek (Some data) "choices") "0")
  || missing (peek (Some data) "usage").

Definition chat_unreadable (data : Json) : bool :=
  missing (Some data)
  || missing (peek (Some data) "choices")
  || missing (peek (peek (Some data) "choices") "0")
  || missing (peek (peek (peek (Some data) "choices") "0") "message")
  || missing (peek (Some data) "usage").

Definition usage_of (data : Json) : TokenUsage.t :=
  let usage := peek (Some data) "usage" in
  TokenUsage.mk (peek usage "total_tokens") (peek usage "prompt_tokens")
    (peek usage "completion_tokens").

(** The two sides of a ProviderResult as the specification describes them:
    a success carries an output string and token counts, a failure an error
    string. *)
Definition success_populated (r : ProviderResponse.t) : Prop :=
  exists (text : string) (usage : TokenUsage.t),
    ProviderResponse.output r = Some (Some (JStr text))
    /\ ProviderResponse.tokenUsage r = Some usage.

Definition failure_populated (r : ProviderResponse.t) : Prop :=
  exists msg : string, ProviderResponse.error r = Some msg.

(** Exactly one of the two sides is populated: not both, not neither. *)
Definition exactly_one_populated (r : ProviderResponse.t) : Prop :=
  (success_populated r /\ ~ failure_populated r)
  \/ (failure_populated r /\ ~ success_populated r).

(** One role/content turn, and a list of them. *)
Definition is_turn (v : Json) : bool :=
  match v with
  | JObj members =>
      is_string_value (lookup_member "role" members)
      && is_string_value (lookup_member "content" members)
  | _ => false
  end.

Definition is_turns (v : Json) : bool :=
  match v with
  | JArr elements => forallb is_turn elements
  | _ => false
  end.

Definition user_turn (prompt : string) : Json :=
  JArr [JObj [("role", JStr "user"); ("content", JStr prompt)]].

(** The chat claim as the specification words it: turn data is sent as
    parsed, and a prompt that does not parse as turn data is sent as one
    user turn, with nothing logged and nothing thrown. *)
Definition turns_or_fallback (self : OpenAiGenericProvider.t) (prompt : string)
    (w : World) : Prop :=
  exists body : Json,
    OpenAiChatCompletionProvider.request_body self prompt w = (Normal body, w)
    /\ (forall parsed,
          JSON.parse prompt = Some parsed -> is_turns parsed = true ->
          peek (Some body) "messages" = Some parsed)
    /\ ((forall parsed, JSON.parse prompt = Some parsed -> is_turns parsed = false) ->
        peek (Some body) "messages" = Some (user_turn prompt)).

(** The loader claim as the specification words it, for one model name in
    one world: both tagged forms load, and the adapter is named after the
    model. *)
Definition loads_tagged (host : Host) (m : string) (w : World) : Prop :=
  (exists (p : ApiProvider) (w' : World),
     loadApiProvider host (ArgString ("openai:chat:" ++ m)) w = (Normal p, w')
     /\ provider_id p = "openai:" ++ m)
  /\ (exists (p : ApiProvider) (w' : World),
        loadApiProvider host (ArgString ("openai:completion:" ++ m)) w = (Normal p, w')
        /\ provider_id p = "openai:" ++ m).

(** The world after a constructor has checked [m] against [known]. *)
Definition warned (known : list string) (family m : string) (w : World) : World :=
  if Str.includes known m then w
  else logged Warn ("Using unknown OpenAI " ++ family ++ " model: " ++ m) w.


(** The claim on the later steps of [evaluate] as the specification words
    it: once the engine has returned, [evaluate] returns its result. *)
Definition result_survives (host : Host) (ext : Collaborators)
    (testSuite : EvaluateTestSuite.t) (options : EvaluateOptions.t) (w : World) : Prop :=
  forall (constructed : TestSuite.t) (w1 : World) (ret : EvaluateSummary) (w2 : World),
    prepare host ext testSuite options w = (Normal constructed, w1) ->
    doEvaluate ext constructed options w1 = (Normal ret, w2) ->
    fst (evaluate host ext testSuite options w) = Normal ret.

(** Either [{ error }] alone or [{ output, tokenUsage }] alone. *)
Definition one_sided (r : ProviderResponse.t) : Prop :=
  (exists msg : string, r = ProviderResponse.failure msg)
  \/ (exists (o : JsValue) (u : TokenUsage.t), r = ProviderResponse.success o u).

(** What [callApi] of either subclass returns in the world [w], as
    [result], by the outcome of the request and by the body received:
    [read_result] is the subclass's reading of the body, [unreadable] the
    bodies on which it throws and [text_of] the output it finds. *)
Definition outcome (host : Host) (endpoint : string)
    (read_result : Json -> Js ProviderResponse.t) (unreadable : Json -> bool)
    (text_of : Json -> JsValue) (self : OpenAiGenericProvider.t) (body : Json)
    (w : World) (result : Completion ProviderResponse.t * World) : Prop :=
  match OpenAiGenericProvider.request host self endpoint body
          (logged Debug ("Calling OpenAI API: " ++ JSON.stringify body) w) with
  | (Throw err, w2) =>
      result = (Normal (ProviderResponse.failure
                          ("API call error: " ++ String_of_error err)), w2)
  | (Normal data, w2) =>
      let w3 := logged Debug (TAB ++ "OpenAI API response: " ++ JSON.stringify data) w2 in
      match read_result data w3 with
      | (Throw err, _) =>
          unreadable data = true
          /\ name err = "TypeError"
          /\ result =
               (Normal (ProviderResponse.failure
                          ("API response error: " ++ String_of_error err ++ ": "
                             ++ JSON.stringify data)), w3)
      | (Normal r, _) =>
          unreadable data = false
          /\ r = ProviderResponse.success (text_of data) (usage_of data)
          /\ result = (Normal r, w3)
      end
  end.




(** What the completion variant returns as output, and the chat variant. *)
Definition completion_text (data : Json) : JsValue :=
  peek (peek (peek (Some data) "choices") "0") "text".

Definition chat_text (data : Json) : JsValue :=
  peek (peek (peek (peek (Some data) "choices") "0") "message") "content".

(** A body of the expected shape comes back as a success whose output is
    the string the body holds at [text_of] and whose token counts are the
    three numbers it holds under [usage], with no error, once the response
    has been logged. *)
Definition good_body_returned (host : Host)
    (callApi : Host -> OpenAiGenericProvider.t -> string -> Js ProviderResponse.t)
    (request_body : OpenAiGenericProvider.t -> string -> Js Json)
    (endpoint : string) (good : Json -> bool) (text_of : Json -> JsValue)
    (self : OpenAiGenericProvider.t) (prompt : string) (w : World) : Prop :=
  forall (body data : Json) (w2 : World),
    request_body self prompt w = (Normal body, w) ->
    OpenAiGenericProvider.request host self endpoint body
      (logged Debug ("Calling OpenAI API: " ++ JSON.stringify body) w) = (Normal data, w2) ->
    good data = true ->
    exists (text : string) (total prompt_tokens completion_tokens : Number.t),
      text_of data = Some (JStr text)
      /\ peek (peek (Some data) "usage") "total_tokens" = Some (JNum total)
      /\ peek (peek (Some data) "usage") "prompt_tokens" = Some (JNum prompt_tokens)
      /\ peek (peek (Some data) "usage") "completion_tokens"
         = Some (JNum completion_tokens)
      /\ callApi host self prompt w
         = (Normal (ProviderResponse.mk None (Some (Some (JStr text)))
                      (Some (TokenUsage.mk (Some (JNum total))
                               (Some (JNum prompt_tokens))
                               (Some (JNum completion_tokens))))),
            logged Debug (TAB ++ "OpenAI API response: " ++ JSON.stringify data) w2).

(** Any body that can be read comes back as a success whose output and
    token counts are whatever the body holds at [text_of] and under
    [usage], [undefined] where it holds nothing. *)
Definition readable_body_returned (host : Host)
    (callApi : Host -> OpenAiGenericProvider.t -> string -> Js ProviderResponse.t)
    (request_body : OpenAiGenericProvider.t -> string -> Js Json)
    (endpoint : string) (unreadable : Json -> bool) (text_of : Json -> JsValue)
    (self : OpenAiGenericProvider.t) (prompt : string) (w : World) : Prop :=
  forall (body data : Json) (w2 : World),
    request_body self prompt w = (Normal body, w) ->
    OpenAiGenericProvider.request host self endpoint body
      (logged Debug ("Calling OpenAI API: " ++ JSON.stringify body) w) = (Normal data, w2) ->
    unreadable data = false ->
    callApi host self prompt w
    = (Normal (ProviderResponse.mk None (Some (text_of data)) (Some (usage_of data))),
       logged Debug (TAB ++ "OpenAI API response: " ++ JSON.stringify data) w2).

(** Every result is one-sided, and nothing is thrown. *)
Definition returns_one_sided (c : Js ProviderResponse.t) (w : World) : Prop :=
  match c w with
  | (Normal r, _) => one_sided r
  | (Throw _, _) => False
  end.

(* ===================================================================== *)
(** ** Vocabulary of the further properties *)
(* ===================================================================== *)

(** The values whose serialisation [JSON.parse] reads back as they are: no
    number among them, and in every object the keys are distinct and none
    of them is an array index. *)
Fixpoint has_key (k : string) (members : list (string * Json)) : bool :=
  match members with
  | [] => false
  | (k', _) :: rest => String.eqb k k' || has_key k rest
  end.

Fixpoint plain_keys (members : list (string * Json)) : bool :=
  match members with
  | [] => true
  | (k, _) :: rest =>
      negb (has_key k rest)
      && match JSON.array_index k with Some _ => false | None => true end
      && plain_keys rest
  end.

Fixpoint textual (v : Json) : bool :=
  match v with
  | JNull | JBool _ | JStr _ => true
  | JNum _ => false
  | JArr elements => forallb textual elements
  | JObj members =>
      plain_keys members
      && forallb (fun kv => match kv with (_, x) => textual x end) members
  end.

(** Whether a string that may be [undefined] is there and not empty. *)
Definition provided (v : option string) : bool := or_else v (fun _ => true) false.

(** What a constructor throws when it finds no key. *)
Definition key_not_set : JsError :=
  Error "OpenAI API key is not set. Set OPENAI_API_KEY environment variable or pass it as an argument to the constructor.".

(** The host an adapter is given in the world [w]. *)
Definition host_of (w : World) : string :=
  or_else (env w !! "OPENAI_API_HOST") (fun h => h) DEFAULT_OPENAI_HOST.

(** The segment of a specification that follows [openai:], up to the next
    colon. *)
Definition first_segment (rest : string) : string :=
  match Str.split ":" rest with
  | segment :: _ => segment
  | [] => EmptyString
  end.

(** What may follow [openai:] for the loader to accept it. *)
Definition model_types : list string :=
  "chat" :: "completion"
  :: (OpenAiChatCompletionProvider.OPENAI_CHAT_MODELS
        ++ OpenAiCompletionProvider.OPENAI_COMPLETION_MODELS)%list.

Definition unknown_model_type (modelType : string) : JsError :=
  Error ("Unknown OpenAI model type: " ++ modelType
           ++ ". Use one of the following providers: openai:chat:<model name>, openai:completion:<model name>").

(** The payloads of the two variants in the world [w]. *)
Definition completion_payload (self : OpenAiGenericProvider.t) (prompt : string)
    (w : World) : Json :=
  JObj [("model", JStr (OpenAiGenericProvider.modelName self));
        ("prompt", JStr prompt);
        ("max_tokens", or_else (env w !! "OPENAI_MAX_TOKENS") JStr (JInt 1024));
        ("temperature", or_else (env w !! "OPENAI_TEMPERATURE") JStr (JInt 0))].

Definition chat_payload (self : OpenAiGenericProvider.t) (prompt : string)
    (w : World) : Json :=
  JObj [("model", JStr (OpenAiGenericProvider.modelName self));
        ("messages", match JSON.parse prompt with
                     | Some parsed => parsed
                     | None => user_turn prompt
                     end);
        ("max_tokens", or_else (env w !! "OPENAI_MAX_TOKENS") JStr (JInt 1024));
        ("temperature", or_else (env w !! "OPENAI_MAX_TEMPERATURE") JStr (JInt 0))].

(** The one call of [fetchWithTimeout] that [callApi] makes for a payload:
    a POST of the serialised payload to the endpoint on the adapter's host,
    with the adapter's key as bearer token, made after the request has been
    logged. *)
Definition the_request (host : Host) (self : OpenAiGenericProvider.t)
    (endpoint : string) (payload : Json) (w : World) : Completion Response * World :=
  fetchWithTimeout host
    ("https://" ++ OpenAiGenericProvider.apiHost self ++ endpoint)
    (mkRequest "POST"
       [("Content-Type", "application/json");
        ("Authorization", "Bearer " ++ OpenAiGenericProvider.apiKey self)]
       (JSON.stringify payload))
    (REQUEST_TIMEOUT_MS host)
    (logged Debug ("Calling OpenAI API: " ++ JSON.stringify payload) w).

(** What a network that keeps a record enters in the journal for a call
    of [fetchWithTimeout]: its arguments, one after the other. *)
Definition call_record (url : string) (init : RequestInit) (timeout : Number.t)
  : list string :=
  ("fetchWithTimeout" :: url :: method init
     :: flat_map (fun header => [fst header; snd header]) (headers init)
     ++ [body init; Number.toString timeout])%list.

(** A process started with [variables] whose network enters every call in
    the journal and then gives [answer]. *)
Definition recording (variables : gmap string string) (answer : Completion Response)
  : Host :=
  mkHost variables
    (fun url init timeout w =>
       (answer,
        mkWorld (env w) (logs w) (journal w ++ call_record url init timeout)))
    (fun network path => throw (Error ("Cannot find module '" ++ path ++ "'"))).

(** An answer whose body is read without an entry in the journal. *)
Definition silent (answer : Completion Response) : Prop :=
  match answer with
  | Normal response => forall w, journal (snd (json response w)) = journal w
  | Throw _ => True
  end.

(** A provider field the resolver has nothing to do for: absent, the empty
    string, or a function. *)
Definition at_rest (p : option ProviderRef) : bool :=
  match p with
  | None => true
  | Some (RefString s) => negb (Str.truthy s)
  | Some (RefFunction _) => true
  | Some (RefOptions _) | Some (RefInstance _) => false
  end.

(** What the resolver hands to the Provider Loader for a provider field
    that is not at rest: the string itself, or the [id] of the object. *)
Definition loader_argument (p : ProviderRef) : LoaderArg :=
  match typeof p with
  | TObject => id_property p
  | TString | TFunction => as_argument p
  end.

(** Steps taken one after the other, each from the world the one before
    it left: [R x w y w'] takes [x] to [y] and the world [w] to [w']. *)
Inductive threaded {A : Type} (R : A -> World -> A -> World -> Prop)
  : list A -> World -> list A -> World -> Prop :=
| threaded_nil (w : World) : threaded R [] w [] w
| threaded_cons (x : A) (w : World) (y : A) (w1 : World) (xs ys : list A) (w2 : World) :
    R x w y w1 -> threaded R xs w1 ys w2 -> threaded R (x :: xs) w (y :: ys) w2.

(** An assertion through the resolver, from the world [w] to the world
    [w']: one whose provider is at rest is untouched, and so is the world;
    any other keeps its type and value, and its provider is now the adapter
    the Provider Loader returned for it in [w], which left [w']. *)
Definition assertion_resolved (host : Host) (a : Assertion.t) (w : World)
    (a' : Assertion.t) (w' : World) : Prop :=
  if at_rest (Assertion.provider a) then a' = a /\ w' = w
  else
    exists (p : ProviderRef) (loaded : ApiProvider),
      Assertion.provider a = Some p
      /\ loadApiProvider host (loader_argument p) w = (Normal loaded, w')
      /\ a' = Assertion.mk (Assertion.type a) (Assertion.value a)
                (Some (RefInstance loaded)).

(** A test through the resolver: the same but for its assertions, which
    are resolved one after the other. *)
Definition test_resolved (host : Host) (t : TestCase.t) (w : World)
    (t' : TestCase.t) (w' : World) : Prop :=
  TestCase.vars t' = TestCase.vars t
  /\ TestCase.options t' = TestCase.options t
  /\ match TestCase.assert t, TestCase.assert t' with
     | Some declared, Some resolved =>
         threaded (assertion_resolved host) declared w resolved w'
     | None, None => w' = w
     | _, _ => False
     end.

(** A test the resolver has nothing to do for. *)
Definition test_at_rest (t : TestCase.t) : bool :=
  match TestCase.options t with
  | Some opts =>
      match TestOptions.provider opts with
      | Some (RefFunction _) => false
      | _ => true
      end
  | None => true
  end
  && match TestCase.assert t with
     | Some declared => forallb (fun a => at_rest (Assertion.provider a)) declared
     | None => true
     end.

(** Two sets of collaborators that agree on what runs before the engine. *)
Definition same_setup (ext ext' : Collaborators) : Prop :=
  loadApiProviders ext' = loadApiProviders ext
  /\ readTests ext' = readTests ext
  /\ readFilters ext' = readFilters ext
  /\ disableCache ext' = disableCache ext
  /\ maybeShowNotice ext' = maybeShowNotice ext.

(** The collaborators [ext] with another cache switch. *)
Definition with_disableCache (ext : Collaborators) (switch : Js unit) : Collaborators :=
  mkCollaborators (loadApiProviders ext) (readTests ext) (readFilters ext)
    switch (maybeShowNotice ext) (doEvaluate ext) (writeOutput ext)
    (writeMultipleOutputs ext) (writeLatestResults ext) (send ext).

(** The collaborators [ext] with other writers. *)
Definition with_writers (ext : Collaborators)
    (one : string -> EvaluateSummary -> EvaluateTestSuite.t -> Js unit)
    (many : list string -> EvaluateSummary -> EvaluateTestSuite.t -> Js unit)
    (latest : EvaluateSummary -> EvaluateTestSuite.t -> Js unit) : Collaborators :=
  mkCollaborators (loadApiProviders ext) (readTests ext) (readFilters ext)
    (disableCache ext) (maybeShowNotice ext) (doEvaluate ext) one many latest (send ext).

(** Whether a suite asks for one output file, for several, for none. *)
Definition wants_one_output (testSuite : EvaluateTestSuite.t) : bool :=
  match EvaluateTestSuite.outputPath testSuite with
  | OneOutputPath path => Str.truthy path
  | _ => false
  end.

Definition wants_many_outputs (testSuite : EvaluateTestSuite.t) : bool :=
  match EvaluateTestSuite.outputPath testSuite with
  | OutputPaths _ => true
  | _ => false
  end.

(** [s] is read as [v], leaving [rest], with any fuel from some amount on. *)
Definition reads (mode : JSON.Mode) (s : string) (v : Json) (rest : string) : Prop :=
  exists fuel,
    forall fuel', fuel <= fuel' -> JSON.parse_at fuel' mode s = JSON.Got v rest.

(** How a serialisation begins: with a character that is no white space,
    no comma, no colon and no closing bracket. *)
Definition opens (c : ascii) : Prop :=
  JSON.is_ws c = false /\ Ascii.eqb c "," = false /\ Ascii.eqb c "]" = false
  /\ Ascii.eqb c "}" = false /\ Ascii.eqb c ":" = false.

(** One member of an object as [JSON.stringify] writes it. *)
Definition member_text (kv : string * Json) : string :=
  match kv with (k, x) => JSON.quote k ++ ":" ++ JSON.stringify x end.

(** A computation whose outcome is a function of [process.env], which it
    leaves as it is. *)
Definition reads_env_only {A : Type} (c : Js A) : Prop :=
  forall w,
    env (snd (c w)) = env w
    /\ forall w2, env w2 = env w -> fst (c w2) = fst (c w).

(** More surroundings to run the definitions on. *)
Module Fixtures.

(** A network that answers the completion endpoint of the default host and
    nothing else. *)
Definition completions_only : Host :=
  mkHost empty
    (fun url init timeout =>
       if String.eqb url "https://api.openai.com/v1/completions"
       then pure (mkResponse (JSON_parse Demo.completion_reply))
       else throw (TypeError "fetch failed"))
    (fun network path => throw (Error ("Cannot find module '" ++ path ++ "'"))).

(** What the documented completion response parses to. *)
Definition completion_data : Json :=
  JObj [("choices", JArr [JObj [("text", JStr "Hello!")]]);
        ("usage", JObj [("total_tokens", JInt 7); ("prompt_tokens", JInt 3);
                        ("completion_tokens", JInt 4)])].

(** Collaborators whose test files cannot be read. *)
Definition no_tests : Collaborators :=
  mkCollaborators
    (loadApiProviders Demo.collaborators)
    (fun tests => throw (Error "ENOENT: no such file or directory, open 'tests.csv'"))
    (readFilters Demo.collaborators)
    (disableCache Demo.collaborators)
    (maybeShowNotice Demo.collaborators)
    (doEvaluate Demo.collaborators)
    (writeOutput Demo.collaborators)
    (writeMultipleOutputs Demo.collaborators)
    (writeLatestResults Demo.collaborators)
    (send Demo.collaborators).

(** Collaborators whose engine fails. *)
Definition engine_down : Collaborators :=
  mkCollaborators
    (loadApiProviders Demo.collaborators)
    (readTests Demo.collaborators)
    (readFilters Demo.collaborators)
    (disableCache Demo.collaborators)
    (maybeShowNotice Demo.collaborators)
    (fun suite options => throw (Error "No providers to evaluate"))
    (writeOutput Demo.collaborators)
    (writeMultipleOutputs Demo.collaborators)
    (writeLatestResults Demo.collaborators)
    (send Demo.collaborators).

(** A test with two assertions: one graded by a named model, one by a
    function. *)
Definition graded : TestCase.t :=
  TestCase.mk None None
    (Some [Demo.assertion (RefString "openai:chat:gpt-4");
           Demo.assertion (RefFunction "grade")]).

Definition graded_resolved : TestCase.t :=
  TestCase.mk None None
    (Some [Assertion.mk "llm-rubric" (Some (JStr "is polite"))
             (Some (RefInstance (ChatInstance Demo.chat_self)));
           Demo.assertion (RefFunction "grade")]).

(** A test with no provider of its own and no assertion. *)
Definition bare : TestCase.t := TestCase.mk (Some (JObj [("name", JStr "Ada")])) None None.

(** A conversation of two turns. *)
Definition conversation : list Json :=
  [JObj [("role", JStr "system"); ("content", JStr "Be brief.")];
   JObj [("role", JStr "user"); ("content", JStr "Say hi")]].

End Fixtures.

(* ===================================================================== *)
(** ** [JSON.parse] has fuel enough *)
(* ===================================================================== *)

Section ParserFuel.

Import JSON.

Local Abbreviation len := String.length.

Lemma skip_ws_length (s : string) : len (skip_ws s) <= len s.
Proof.
  induction s as [|c s IH]; simpl; [lia|].
  destruct (is_ws c); simpl; lia.
Qed.

Lemma read_digits_length (s : string) :
  forall acc count v n rest,
    read_digits s acc count = (v, n, rest) -> len rest <= len s.
Proof.
  induction s as [|c s IH]; simpl; intros acc count v n rest H.
  - injection H as _ _ <-. simpl. lia.
  - destruct (digit_val c).
    + apply IH in H. lia.
    + injection H as _ _ <-. simpl. lia.
Qed.

Lemma read_sign_length (plus_too : bool) (s : string) (negative : bool) (rest : string) :
  read_sign plus_too s = (negative, rest) -> len rest <= len s.
Proof.
  unfold read_sign. destruct s as [|c s]; [intros H; injection H as _ <-; lia|].
  destruct (Ascii.eqb c "-"); [intros H; injection H as _ <-; simpl; lia|].
  destruct (plus_too && Ascii.eqb c "+"); intros H; injection H as _ <-; simpl; lia.
Qed.

Lemma read_fraction_length (int_val : Z) (s : string) (v n : Z) (rest : string) :
  read_fraction int_val s = Some (v, n, rest) -> len rest <= len s.
Proof.
  unfold read_fraction. destruct s as [|c s]; [intros H; injection H as _ _ <-; lia|].
  destruct (Ascii.eqb c ".").
  - destruct (read_digits s int_val 0) as [[v' n'] rest'] eqn:E.
    destruct (n' =? 0)%Z; [discriminate|].
    intros H. injection H as _ _ <-. apply read_digits_length in E. simpl. lia.
  - intros H. injection H as _ _ <-. lia.
Qed.

Lemma read_exponent_length (s : string) (v : Z) (rest : string) :
  read_exponent s = Some (v, rest) -> len rest <= len s.
Proof.
  unfold read_exponent. destruct s as [|c s]; [intros H; injection H as _ <-; lia|].
  destruct (Ascii.eqb c "e" || Ascii.eqb c "E").
  - destruct (read_sign true s) as [negative digits] eqn:Es.
    destruct (read_digits digits 0 0) as [[v' n'] rest'] eqn:Ed.
    destruct (n' =? 0)%Z; [discriminate|].
    intros H. injection H as _ <-.
    apply read_sign_length in Es. apply read_digits_length in Ed. simpl. lia.
  - intros H. injection H as _ <-. lia.
Qed.

Lemma parse_number_length (s : string) (v : Json) (rest : string) :
  parse_number s = Some (v, rest) -> len rest < len s.
Proof.
  unfold parse_number.
  destruct (read_sign false s) as [negative s1] eqn:Es. apply read_sign_length in Es.
  destruct s1 as [|c r]; [discriminate|].
  destruct (digit_val c) as [d|]; [|discriminate].
  assert (Hint : forall int_val s2,
            (if (d =? 0)%Z then (0%Z, r)
             else let '(v0, _, r') := read_digits r d 1 in (v0, r')) = (int_val, s2) ->
            len s2 <= len r).
  { intros int_val s2. destruct (d =? 0)%Z.
    - intros H. injection H as _ <-. lia.
    - destruct (read_digits r d 1) as [[v0 n0] r'] eqn:Ed.
      intros H. injection H as _ <-. now apply read_digits_length in Ed. }
  destruct (if (d =? 0)%Z then (0%Z, r)
            else let '(v0, _, r') := read_digits r d 1 in (v0, r')) as [int_val s2].
  specialize (Hint int_val s2 eq_refl).
  destruct (read_fraction int_val s2) as [[[mantissa frac_digits] s3]|] eqn:Ef;
    [|discriminate].
  apply read_fraction_length in Ef.
  destruct (read_exponent s3) as [[exponent s4]|] eqn:Ee; [|discriminate].
  apply read_exponent_length in Ee.
  intros H. injection H as _ <-. simpl in Es. lia.
Qed.

Lemma read_items_length (n : nat) :
  forall s items after,
    len s <= n -> read_items s = Some (items, after) -> len after < len s.
Proof.
  induction n as [|n IH]; intros s items after Hn H.
  - destruct s; [discriminate | simpl in Hn; lia].
  - destruct s as [|c rest]; [discriminate|]. simpl in Hn. simpl in H.
    destruct (Ascii.eqb c Str.dquote).
    { injection H as _ <-. simpl. lia. }
    destruct (Ascii.eqb c Str.backslash).
    + destruct rest as [|e rest']; [discriminate|]. simpl in Hn.
      destruct (Ascii.eqb e "u").
      * destruct rest' as [|h1 [|h2 [|h3 [|h4 rest'']]]]; try discriminate.
        simpl in Hn.
        destruct (hex4 h1 h2 h3 h4); [|discriminate].
        destruct (read_items rest'') as [[items' after']|] eqn:E; [|discriminate].
        injection H as _ <-. apply IH in E; [simpl; lia | lia].
      * destruct (simple_escape e); [|discriminate].
        destruct (read_items rest') as [[items' after']|] eqn:E; [|discriminate].
        injection H as _ <-. apply IH in E; [simpl; lia | lia].
    + destruct (N_of_ascii c <? 32)%N; [discriminate|].
      destruct (read_items rest) as [[items' after']|] eqn:E; [|discriminate].
      injection H as _ <-. apply IH in E; [simpl; lia | lia].
Qed.

Lemma parse_string_length (s str after : string) :
  parse_string s = Some (str, after) -> len after < len s.
Proof.
  unfold parse_string.
  destruct (read_items s) as [[items after']|] eqn:E; [|discriminate].
  intros H. injection H as _ <-. exact (read_items_length (len s) s _ _ (le_n _) E).
Qed.

Lemma strip_prefix_length (p : string) :
  forall s rest, strip_prefix p s = Some rest -> len s = len p + len rest.
Proof.
  induction p as [|a p IH]; simpl; intros s rest H.
  - now injection H as <-.
  - destruct s as [|b s]; [discriminate|].
    destruct (Ascii.eqb a b); [|discriminate].
    apply IH in H. simpl. lia.
Qed.

Lemma parse_literal_length (s : string) (v : Json) (rest : string) :
  parse_literal s = Got v rest -> len rest < len s.
Proof.
  unfold parse_literal.
  destruct (strip_prefix "null" s) eqn:E1.
  { intros H. injection H as _ <-. apply strip_prefix_length in E1. simpl in E1. lia. }
  destruct (strip_prefix "true" s) eqn:E2.
  { intros H. injection H as _ <-. apply strip_prefix_length in E2. simpl in E2. lia. }
  destruct (strip_prefix "false" s) eqn:E3.
  { intros H. injection H as _ <-. apply strip_prefix_length in E3. simpl in E3. lia. }
  destruct (parse_number s) as [[v' rest']|] eqn:E4; [|discriminate].
  intros H. injection H as _ <-. now apply parse_number_length in E4.
Qed.

Lemma closes_length (close : ascii) (s rest : string) :
  closes close s = Some rest -> len rest < len s.
Proof.
  unfold closes. pose proof (skip_ws_length s) as Hws.
  destruct (skip_ws s) as [|c r]; [discriminate|].
  destruct (Ascii.eqb c close); [|discriminate].
  intros H. injection H as <-. simpl in Hws. lia.
Qed.

Lemma next_length (close : ascii) (s : string) :
  match next close s with
  | More rest | Closed rest => len rest < len s
  | Neither => True
  end.
Proof.
  unfold next. pose proof (skip_ws_length s) as Hws.
  destruct (skip_ws s) as [|c r]; [exact I|].
  simpl in Hws.
  destruct (Ascii.eqb c ","); [lia|].
  destruct (Ascii.eqb c close); [lia | exact I].
Qed.

Lemma read_key_length (s k rest : string) :
  read_key s = Some (k, rest) -> len rest < len s.
Proof.
  unfold read_key. pose proof (skip_ws_length s) as Hws.
  destruct (skip_ws s) as [|c r]; [discriminate|]. simpl in Hws.
  destruct (Ascii.eqb c Str.dquote); [|discriminate].
  destruct (parse_string r) as [[k' after_key]|] eqn:Ek; [|discriminate].
  apply parse_string_length in Ek.
  destruct (closes ":" after_key) as [after_colon|] eqn:Ec; [|discriminate].
  apply closes_length in Ec.
  intros H. injection H as _ <-. lia.
Qed.

(** Whatever the parser reads, it reads at least one character. *)
Lemma parse_at_length (fuel : nat) :
  forall mode s v rest, parse_at fuel mode s = Got v rest -> len rest < len s.
Proof.
  induction fuel as [|fuel IH]; intros mode s v rest H; [discriminate|].
  simpl in H. destruct mode as [|acc|acc].
  - pose proof (skip_ws_length s) as Hws.
    destruct (skip_ws s) as [|c r]; [discriminate|]. simpl in Hws.
    destruct (Ascii.eqb c "[").
    { destruct (closes "]" r) as [after|] eqn:Ec.
      - injection H as _ <-. apply closes_length in Ec. lia.
      - apply IH in H. lia. }
    destruct (Ascii.eqb c "{").
    { destruct (closes "}" r) as [after|] eqn:Ec.
      - injection H as _ <-. apply closes_length in Ec. lia.
      - apply IH in H. lia. }
    destruct (Ascii.eqb c Str.dquote).
    { destruct (parse_string r) as [[str after]|] eqn:Es; [|discriminate].
      injection H as _ <-. apply parse_string_length in Es. lia. }
    apply parse_literal_length in H. simpl in H. lia.
  - destruct (parse_at fuel MValue s) as [| |x after] eqn:Ev; try discriminate.
    apply IH in Ev. pose proof (next_length "]" after) as Hnext.
    destruct (next "]" after) as [more|more|]; [| |discriminate].
    + apply IH in H. lia.
    + injection H as _ <-. lia.
  - destruct (read_key s) as [[k after_colon]|] eqn:Ek; [|discriminate].
    apply read_key_length in Ek.
    destruct (parse_at fuel MValue after_colon) as [| |x after] eqn:Ev; try discriminate.
    apply IH in Ev. pose proof (next_length "}" after) as Hnext.
    destruct (next "}" after) as [more|more|]; [| |discriminate].
    + apply IH in H. lia.
    + injection H as _ <-. lia.
Qed.

Lemma parse_at_fuel (fuel : nat) :
  forall mode s, fuel_needed mode s <= fuel -> parse_at fuel mode s <> OutOfFuel.
Proof.
  induction fuel as [|fuel IH]; intros mode s Hfuel.
  - destruct mode; simpl in Hfuel; lia.
  - simpl. destruct mode as [|acc|acc]; simpl in Hfuel.
    + pose proof (skip_ws_length s) as Hws.
      destruct (skip_ws s) as [|c r]; [discriminate|]. simpl in Hws.
      destruct (Ascii.eqb c "[").
      { destruct (closes "]" r); [discriminate|]. apply IH. simpl. lia. }
      destruct (Ascii.eqb c "{").
      { destruct (closes "}" r); [discriminate|]. apply IH. simpl. lia. }
      destruct (Ascii.eqb c Str.dquote).
      { destruct (parse_string r) as [[str after]|]; discriminate. }
      unfold parse_literal.
      destruct (strip_prefix "null" _); [discriminate|].
      destruct (strip_prefix "true" _); [discriminate|].
      destruct (strip_prefix "false" _); [discriminate|].
      destruct (parse_number _) as [[x after]|]; discriminate.
    + destruct (parse_at fuel MValue s) as [| |x after] eqn:Ev.
      * exfalso. revert Ev. apply IH. simpl. lia.
      * discriminate.
      * apply parse_at_length in Ev. pose proof (next_length "]" after) as Hnext.
        destruct (next "]" after) as [more|more|]; [|discriminate|discriminate].
        apply IH. simpl. lia.
    + destruct (read_key s) as [[k after_colon]|] eqn:Ek; [|discriminate].
      apply read_key_length in Ek.
      destruct (parse_at fuel MValue after_colon) as [| |x after] eqn:Ev.
      * exfalso. revert Ev. apply IH. simpl. lia.
      * discriminate.
      * apply parse_at_length in Ev. pose proof (next_length "}" after) as Hnext.
        destruct (next "}" after) as [more|more|]; [|discriminate|discriminate].
        apply IH. simpl. lia.
Qed.

(** The fuel [JSON.parse] starts with is never used up: [None] is always a
    syntax error. *)
Lemma parse_never_starves (text : string) :
  parse_at (fuel_for text) MValue text <> OutOfFuel.
Proof. apply parse_at_fuel. unfold fuel_needed, fuel_for. lia. Qed.

End ParserFuel.

(* ===================================================================== *)
(** ** Prompt normalisation *)
(* ===================================================================== *)

Section PromptNormalizer.

Lemma isOpenAIMessagesObjects_iff (prompts : list Json) :
  isOpenAIMessagesObjects (JArr prompts) = true <-> Forall plain_object prompts.
Proof.
  simpl. rewrite forallb_forall, Forall_forall. split.
  - intros H p Hp. apply list_elem_of_In in Hp. specialize (H p Hp).
    destruct p; try discriminate. constructor.
  - intros H p Hp. apply list_elem_of_In in Hp. specialize (H p Hp).
    destruct H. reflexivity.
Qed.

Lemma map_entry_for (prompts : list Json) :
  Forall2 entry_for prompts
    (List.map (fun promptContent =>
                 match promptContent with
                 | JStr s => PromptEntry.mk s s
                 | other => PromptEntry.mk (JSON.stringify other) (JSON.stringify other)
                 end) prompts).
Proof.
  induction prompts as [|p rest IH]; simpl; constructor; [|exact IH].
  destruct p; try (apply entry_for_other; intros s; discriminate).
  apply entry_for_string.
Qed.

(** C6. A prompt collection in which every element is a non-array object
    becomes exactly one entry whose [raw] and [display] are the
    serialisation of the whole collection; any other collection is mapped
    element by element, a string passing through unchanged and any other
    element being serialised. So [["a","b"]] gives two entries and
    [[{a:1},{b:2}]] exactly one. *)
Theorem normalizePrompts_cases (prompts : list Json) :
  (Forall plain_object prompts ->
     normalizePrompts prompts =
       [PromptEntry.mk (JSON.stringify (JArr prompts)) (JSON.stringify (JArr prompts))])
  /\ (~ Forall plain_object prompts ->
        Forall2 entry_for prompts (normalizePrompts prompts))
  /\ normalizePrompts [JStr "a"; JStr "b"]
     = [PromptEntry.mk "a" "a"; PromptEntry.mk "b" "b"]
  /\ normalizePrompts [JObj [("a", JInt 1)]; JObj [("b", JInt 2)]]
     = [PromptEntry.mk (JSON.stringify (JArr [JObj [("a", JInt 1)]; JObj [("b", JInt 2)]]))
                       (JSON.stringify (JArr [JObj [("a", JInt 1)]; JObj [("b", JInt 2)]]))].
Proof.
  repeat split.
  - intros H. apply isOpenAIMessagesObjects_iff in H.
    unfold normalizePrompts. rewrite H. reflexivity.
  - intros H. unfold normalizePrompts.
    destruct (isOpenAIMessagesObjects (JArr prompts)) eqn:E.
    + apply isOpenAIMessagesObjects_iff in E. contradiction.
    + apply map_entry_for.
Qed.

(** The conversation [[{role:"user",content:"hi"}]] is one prompt, and
    the list [["a", {b:2}]] is two. *)
Lemma normalizePrompts_cases_witness :
  normalizePrompts [JObj [("role", JStr "user"); ("content", JStr "hi")]]
  = [PromptEntry.mk
       ("[{" ++ Str.quoted "role" ++ ":" ++ Str.quoted "user" ++ ","
             ++ Str.quoted "content" ++ ":" ++ Str.quoted "hi" ++ "}]")
       ("[{" ++ Str.quoted "role" ++ ":" ++ Str.quoted "user" ++ ","
             ++ Str.quoted "content" ++ ":" ++ Str.quoted "hi" ++ "}]")]
  /\ Forall2 entry_for [JStr "a"; JObj [("b", JInt 2)]]
       (normalizePrompts [JStr "a"; JObj [("b", JInt 2)]]).
Proof.
  split.
  - apply (proj1 (normalizePrompts_cases
                    [JObj [("role", JStr "user"); ("content", JStr "hi")]])).
    repeat constructor.
  - apply (proj1 (proj2 (normalizePrompts_cases [JStr "a"; JObj [("b", JInt 2)]]))).
    intros H. inversion H as [|? ? Hhead]. inversion Hhead.
Defined.

(** C10. The empty prompt collection takes the single-conversation branch,
    the test on every element being vacuously true, and gives exactly one
    entry whose [raw] and [display] are the two characters of an empty
    array, not an empty list of entries. *)
Theorem normalizePrompts_empty :
  isOpenAIMessagesObjects (JArr []) = true
  /\ normalizePrompts [] = [PromptEntry.mk "[]" "[]"].
Proof. split; reflexivity. Qed.

End PromptNormalizer.

(* ===================================================================== *)
(** ** The adapters' [callApi] *)
(* ===================================================================== *)

Section CallApi.

Context (host : Host).

Lemma get_run (v : JsValue) (key : string) (w : World) :
  get v key w =
    (if missing v then Throw (access_error v key) else Normal (peek v key), w).
Proof. destruct v as [[]|]; reflexivity. Qed.

Lemma read_usage_run (data : Json) (w : World) :
  OpenAiGenericProvider.read_usage data w =
    (if missing (Some data) || missing (peek (Some data) "usage")
     then Throw (if missing (Some data)
                 then access_error (Some data) "usage"
                 else access_error (peek (Some data) "usage") "total_tokens")
     else Normal (usage_of data), w).
Proof.
  unfold OpenAiGenericProvider.read_usage, bind. rewrite !get_run.
  destruct (missing (Some data)) eqn:Hd; [reflexivity|].
  rewrite !get_run.
  destruct (missing (peek (Some data) "usage")) eqn:Hu; [reflexivity|].
  rewrite Hd. rewrite !get_run. rewrite Hu. rewrite Hd. rewrite !get_run, Hu.
  reflexivity.
Qed.

(** Reading a completion response throws exactly on the unreadable bodies,
    and otherwise gives the success object built from what the body holds. *)
Lemma completion_read_result_run (data : Json) (w : World) :
  exists err : JsError,
    name err = "TypeError"
    /\ OpenAiCompletionProvider.read_result data w =
         (if completion_unreadable data then Throw err
          else Normal (ProviderResponse.success
                         (peek (peek (peek (Some data) "choices") "0") "text")
                         (usage_of data)), w).
Proof.
  unfold OpenAiCompletionProvider.read_result, completion_unreadable, bind.
  rewrite get_run.
  destruct (missing (Some data)) eqn:Hd.
  { eexists; split; [|reflexivity]. destruct data; reflexivity. }
  rewrite get_run.
  destruct (missing (peek (Some data) "choices")) eqn:Hc.
  { eexists; split; [|reflexivity].
    destruct (peek (Some data) "choices") as [[]|]; reflexivity. }
  rewrite get_run.
  destruct (missing (peek (peek (Some data) "choices") "0")) eqn:Hf.
  { eexists; split; [|reflexivity].
    destruct (peek (peek (Some data) "choices") "0") as [[]|]; reflexivity. }
  rewrite read_usage_run, Hd. cbn [orb].
  destruct (missing (peek (Some data) "usage")) eqn:Hu.
  { eexists; split; [|reflexivity].
    destruct (peek (Some data) "usage") as [[]|]; reflexivity. }
  exists (TypeError EmptyString). split; reflexivity.
Qed.

Lemma chat_read_result_run (data : Json) (w : World) :
  exists err : JsError,
    name err = "TypeError"
    /\ OpenAiChatCompletionProvider.read_result data w =
         (if chat_unreadable data then Throw err
          else Normal (ProviderResponse.success
                         (peek (peek (peek (peek (Some data) "choices") "0") "message")
                               "content")
                         (usage_of data)), w).
Proof.
  unfold OpenAiChatCompletionProvider.read_result, chat_unreadable, bind.
  rewrite get_run.
  destruct (missing (Some data)) eqn:Hd.
  { eexists; split; [|reflexivity]. destruct data; reflexivity. }
  rewrite get_run.
  destruct (missing (peek (Some data) "choices")) eqn:Hc.
  { eexists; split; [|reflexivity].
    destruct (peek (Some data) "choices") as [[]|]; reflexivity. }
  rewrite get_run.
  destruct (missing (peek (peek (Some data) "choices") "0")) eqn:Hf.
  { eexists; split; [|reflexivity].
    destruct (peek (peek (Some data) "choices") "0") as [[]|]; reflexivity. }
  rewrite get_run.
  destruct (missing (peek (peek (peek (Some data) "choices") "0") "message")) eqn:Hm.
  { eexists; split; [|reflexivity].
    destruct (peek (peek (peek (Some data) "choices") "0") "message") as [[]|];
      reflexivity. }
  rewrite read_usage_run, Hd. cbn [orb].
  destruct (missing (peek (Some data) "usage")) eqn:Hu.
  { eexists; split; [|reflexivity].
    destruct (peek (Some data) "usage") as [[]|]; reflexivity. }
  exists (TypeError EmptyString). split; reflexivity.
Qed.

Lemma completion_request_body_run (self : OpenAiGenericProvider.t) (prompt : string)
    (w : World) :
  OpenAiCompletionProvider.request_body self prompt w =
    (Normal (JObj [("model", JStr (OpenAiGenericProvider.modelName self));
                   ("prompt", JStr prompt);
                   ("max_tokens", or_else (env w !! "OPENAI_MAX_TOKENS") JStr (JInt 1024));
                   ("temperature", or_else (env w !! "OPENAI_TEMPERATURE") JStr (JInt 0))]),
     w).
Proof. reflexivity. Qed.

Lemma read_messages_run (prompt : string) (w : World) :
  OpenAiChatCompletionProvider.read_messages prompt w =
    (Normal (match JSON.parse prompt with
             | Some parsed => parsed
             | None => user_turn prompt
             end), w).
Proof.
  unfold OpenAiChatCompletionProvider.read_messages, try_catch, JSON_parse.
  destruct (JSON.parse prompt); reflexivity.
Qed.

Lemma chat_request_body_run (self : OpenAiGenericProvider.t) (prompt : string)
    (w : World) :
  OpenAiChatCompletionProvider.request_body self prompt w =
    (Normal (JObj [("model", JStr (OpenAiGenericProvider.modelName self));
                   ("messages", match JSON.parse prompt with
                                | Some parsed => parsed
                                | None => user_turn prompt
                                end);
                   ("max_tokens", or_else (env w !! "OPENAI_MAX_TOKENS") JStr (JInt 1024));
                   ("temperature",
                    or_else (env w !! "OPENAI_MAX_TEMPERATURE") JStr (JInt 0))]),
     w).
Proof.
  unfold OpenAiChatCompletionProvider.request_body, bind.
  rewrite read_messages_run. reflexivity.
Qed.

(** What [callApi] returns, by the outcome of the request and the body
    received. *)
Lemma completion_callApi_outcome (self : OpenAiGenericProvider.t) (prompt : string)
    (w : World) :
  exists body : Json,
    OpenAiCompletionProvider.request_body self prompt w = (Normal body, w)
    /\ outcome host "/v1/completions" OpenAiCompletionProvider.read_result
         completion_unreadable
         (fun data => peek (peek (peek (Some data) "choices") "0") "text")
         self body w (OpenAiCompletionProvider.callApi host self prompt w).
Proof.
  eexists. split; [apply completion_request_body_run|].
  unfold outcome, OpenAiCompletionProvider.callApi, bind, try_catch, logger.debug, log, pure.
  rewrite completion_request_body_run.
  match goal with |- context [OpenAiGenericProvider.request host self ?e ?b ?w1] =>
    destruct (OpenAiGenericProvider.request host self e b w1) as [[data|err] w2]
  end; [|reflexivity].
  destruct (completion_read_result_run data
              (logged Debug (TAB ++ "OpenAI API response: " ++ JSON.stringify data) w2))
    as (err & Hname & Hrun).
  cbv zeta. rewrite Hrun.
  destruct (completion_unreadable data); repeat split; assumption.
Qed.

Lemma chat_callApi_outcome (self : OpenAiGenericProvider.t) (prompt : string)
    (w : World) :
  exists body : Json,
    OpenAiChatCompletionProvider.request_body self prompt w = (Normal body, w)
    /\ outcome host "/v1/chat/completions" OpenAiChatCompletionProvider.read_result
         chat_unreadable
         (fun data =>
            peek (peek (peek (peek (Some data) "choices") "0") "message") "content")
         self body w (OpenAiChatCompletionProvider.callApi host self prompt w).
Proof.
  eexists. split; [apply chat_request_body_run|].
  unfold outcome, OpenAiChatCompletionProvider.callApi, bind, try_catch, logger.debug,
    log, pure.
  rewrite chat_request_body_run.
  match goal with |- context [OpenAiGenericProvider.request host self ?e ?b ?w1] =>
    destruct (OpenAiGenericProvider.request host self e b w1) as [[data|err] w2]
  end; [|reflexivity].
  destruct (chat_read_result_run data
              (logged Debug (TAB ++ "OpenAI API response: " ++ JSON.stringify data) w2))
    as (err & Hname & Hrun).
  cbv zeta. rewrite Hrun.
  destruct (chat_unreadable data); repeat split; assumption.
Qed.

Lemma append_empty (s : string) : s ++ EmptyString = s.
Proof.
  induction s as [|c s IH]; [reflexivity|].
  change (String c (s ++ EmptyString) = String c s). now rewrite IH.
Qed.

Lemma append_associative (a b c : string) : (a ++ b) ++ c = a ++ b ++ c.
Proof.
  induction a as [|x a IH]; [reflexivity|].
  change (String x ((a ++ b) ++ c) = String x (a ++ b ++ c)). now rewrite IH.
Qed.




Section Outcome.

Context (endpoint : string) (read_result : Json -> Js ProviderResponse.t)
  (unreadable : Json -> bool) (text_of : Json -> JsValue)
  (self : OpenAiGenericProvider.t) (body : Json) (w : World)
  (result : Completion ProviderResponse.t * World)
  (Hout : outcome host endpoint read_result unreadable text_of self body w result).

Lemma outcome_returns :
  exists (r : ProviderResponse.t) (w' : World), result = (Normal r, w') /\ one_sided r.
Proof.
  unfold outcome in Hout.
  destruct (OpenAiGenericProvider.request host self endpoint body _) as [[data|err] w2].
  - cbv zeta in Hout.
    destruct (read_result data _) as [[r|err] w3].
    + destruct Hout as (_ & Hr & Hres). subst r.
      eexists _, _. split; [exact Hres|]. right. eauto.
    + destruct Hout as (_ & _ & Hres).
      eexists _, _. split; [exact Hres|]. left. eauto.
  - eexists _, _. split; [exact Hout|]. left. eauto.
Qed.



Lemma outcome_readable (data : Json) (w2 : World) :
  OpenAiGenericProvider.request host self endpoint body
    (logged Debug ("Calling OpenAI API: " ++ JSON.stringify body) w) = (Normal data, w2) ->
  unreadable data = false ->
  exists w3 : World,
    result = (Normal (ProviderResponse.success (text_of data) (usage_of data)), w3).
Proof.
  intros Hreq Hgood. unfold outcome in Hout. rewrite Hreq in Hout. cbv zeta in Hout.
  destruct (read_result data _) as [[r|err] w3] eqn:Hread.
  - destruct Hout as (_ & Hr & Hres). subst r. eexists. exact Hres.
  - destruct Hout as (Hbad & _). congruence.
Qed.

Lemma outcome_readable_logged (data : Json) (w2 : World) :
  OpenAiGenericProvider.request host self endpoint body
    (logged Debug ("Calling OpenAI API: " ++ JSON.stringify body) w) = (Normal data, w2) ->
  unreadable data = false ->
  result
  = (Normal (ProviderResponse.success (text_of data) (usage_of data)),
     logged Debug (TAB ++ "OpenAI API response: " ++ JSON.stringify data) w2).
Proof.
  intros Hreq Hgood. unfold outcome in Hout. rewrite Hreq in Hout. cbv zeta in Hout.
  destruct (read_result data _) as [[r|err] w3] eqn:Hread.
  - destruct Hout as (_ & Hr & Hres). subst r. exact Hres.
  - destruct Hout as (Hbad & _). congruence.
Qed.

End Outcome.

End CallApi.

Lemma peek_missing (v : JsValue) (key : string) : missing v = true -> peek v key = None.
Proof. destruct v as [[]|]; simpl; intros H; try discriminate; reflexivity. Qed.

Lemma present_of_peek (v : JsValue) (key : string) :
  peek v key <> None -> missing v = false.
Proof.
  intros H. destruct (missing v) eqn:E; [|reflexivity].
  now apply peek_missing with (key := key) in E.
Qed.

Lemma string_value_present (v : JsValue) :
  is_string_value v = true -> exists s, v = Some (JStr s).
Proof. destruct v as [[]|]; simpl; intros H; try discriminate. eauto. Qed.

Lemma number_value_present (v : JsValue) : is_number_value v = true -> v <> None.
Proof. destruct v as [[]|]; simpl; intros H; discriminate. Qed.

Lemma usage_shape_present (data : Json) :
  usage_shape data = true -> missing (peek (Some data) "usage") = false.
Proof.
  unfold usage_shape. intros H.
  apply andb_true_iff in H as [H _]. apply andb_true_iff in H as [H _].
  apply number_value_present in H. now apply present_of_peek in H.
Qed.

Lemma completion_shape_readable (data : Json) :
  completion_shape data = true ->
  completion_unreadable data = false
  /\ exists s, peek (peek (peek (Some data) "choices") "0") "text" = Some (JStr s).
Proof.
  unfold completion_shape, completion_unreadable. intros H.
  apply andb_true_iff in H as [Htext Husage].
  apply string_value_present in Htext as [s Hs].
  assert (Hfirst : missing (peek (peek (Some data) "choices") "0") = false).
  { apply present_of_peek with (key := "text"). congruence. }
  assert (Hchoices : missing (peek (Some data) "choices") = false).
  { apply present_of_peek with (key := "0").
    intros E. rewrite E in Hfirst. discriminate. }
  assert (Hdata : missing (Some data) = false).
  { apply present_of_peek with (key := "choices").
    intros E. rewrite E in Hchoices. discriminate. }
  rewrite Hdata, Hchoices, Hfirst, (usage_shape_present _ Husage).
  split; [reflexivity | eauto].
Qed.

Lemma chat_shape_readable (data : Json) :
  chat_shape data = true ->
  chat_unreadable data = false
  /\ exists s,
       peek (peek (peek (peek (Some data) "choices") "0") "message") "content"
       = Some (JStr s).
Proof.
  unfold chat_shape, chat_unreadable. intros H.
  apply andb_true_iff in H as [Htext Husage].
  apply string_value_present in Htext as [s Hs].
  assert (Hmessage :
            missing (peek (peek (peek (Some data) "choices") "0") "message") = false).
  { apply present_of_peek with (key := "content"). congruence. }
  assert (Hfirst : missing (peek (peek (Some data) "choices") "0") = false).
  { apply present_of_peek with (key := "message").
    intros E. rewrite E in Hmessage. discriminate. }
  assert (Hchoices : missing (peek (Some data) "choices") = false).
  { apply present_of_peek with (key := "0").
    intros E. rewrite E in Hfirst. discriminate. }
  assert (Hdata : missing (Some data) = false).
  { apply present_of_peek with (key := "choices").
    intros E. rewrite E in Hchoices. discriminate. }
  rewrite Hdata, Hchoices, Hfirst, Hmessage, (usage_shape_present _ Husage).
  split; [reflexivity | eauto].
Qed.




Lemma number_value_held (v : JsValue) :
  is_number_value v = true -> exists x, v = Some (JNum x).
Proof. destruct v as [[]|]; simpl; intros H; try discriminate. eauto. Qed.

Lemma readable_body_from_outcome (host : Host)
    (callApi : Host -> OpenAiGenericProvider.t -> string -> Js ProviderResponse.t)
    (request_body : OpenAiGenericProvider.t -> string -> Js Json)
    (read_result : Json -> Js ProviderResponse.t) (endpoint : string)
    (unreadable : Json -> bool) (text_of : Json -> JsValue)
    (self : OpenAiGenericProvider.t) (prompt : string) (w : World) (body : Json) :
  request_body self prompt w = (Normal body, w) ->
  outcome host endpoint read_result unreadable text_of self body w
    (callApi host self prompt w) ->
  readable_body_returned host callApi request_body endpoint unreadable text_of
    self prompt w.
Proof.
  intros Hbody Hout body' data w2 Hbody' Hreq Hreadable.
  rewrite Hbody in Hbody'. injection Hbody' as <-.
  exact (outcome_readable_logged _ _ _ _ _ _ _ _ _ Hout data w2 Hreq Hreadable).
Qed.

Lemma good_body_from_readable (host : Host)
    (callApi : Host -> OpenAiGenericProvider.t -> string -> Js ProviderResponse.t)
    (request_body : OpenAiGenericProvider.t -> string -> Js Json)
    (endpoint : string) (unreadable good : Json -> bool) (text_of : Json -> JsValue)
    (self : OpenAiGenericProvider.t) (prompt : string) (w : World) :
  readable_body_returned host callApi request_body endpoint unreadable text_of
    self prompt w ->
  (forall data, good data = true ->
     unreadable data = false
     /\ (exists s, text_of data = Some (JStr s))
     /\ usage_shape data = true) ->
  good_body_returned host callApi request_body endpoint good text_of self prompt w.
Proof.
  intros Hreadable Hshape body data w2 Hbody Hreq Hgood.
  destruct (Hshape data Hgood) as (Hread & (text & Htext) & Husage).
  unfold usage_shape in Husage.
  apply andb_true_iff in Husage as [Husage Hcompletion].
  apply andb_true_iff in Husage as [Htotal Hprompt].
  apply number_value_held in Htotal as [total Htotal].
  apply number_value_held in Hprompt as [prompt_tokens Hprompt].
  apply number_value_held in Hcompletion as [completion_tokens Hcompletion].
  exists text, total, prompt_tokens, completion_tokens.
  split; [exact Htext|]. split; [exact Htotal|]. split; [exact Hprompt|].
  split; [exact Hcompletion|].
  rewrite (Hreadable body data w2 Hbody Hreq Hread).
  unfold usage_of. rewrite Htext, Htotal, Hprompt, Hcompletion. reflexivity.
Qed.

Lemma completion_shape_good (data : Json) :
  completion_shape data = true ->
  completion_unreadable data = false
  /\ (exists s, completion_text data = Some (JStr s))
  /\ usage_shape data = true.
Proof.
  intros H. destruct (completion_shape_readable data H) as [Hread Htext].
  split; [exact Hread|]. split; [exact Htext|].
  unfold completion_shape in H. now apply andb_true_iff in H as [_ H].
Qed.

Lemma chat_shape_good (data : Json) :
  chat_shape data = true ->
  chat_unreadable data = false
  /\ (exists s, chat_text data = Some (JStr s))
  /\ usage_shape data = true.
Proof.
  intros H. destruct (chat_shape_readable data H) as [Hread Htext].
  split; [exact Hread|]. split; [exact Htext|].
  unfold chat_shape in H. now apply andb_true_iff in H as [_ H].
Qed.

(** C9, amended. Every result either variant's [callApi] returns is
    one-sided in its keys: it is [{ error }] with an error string and
    nothing else, or [{ output, tokenUsage }] and no error; never both and
    never neither, and nothing is thrown. A response of the expected shape
    gives the success side: the output is the string the body holds at
    [choices[0].text] (chat: [choices[0].message.content]) and the token
    counts are the three numbers it holds under [usage]. For every other
    response that can be read the output and the counts are whatever the
    body holds there, [undefined] where it holds nothing. *)
Theorem callApi_result_one_sided (host : Host) (self : OpenAiGenericProvider.t)
    (prompt : string) (w : World) :
  (returns_one_sided (OpenAiCompletionProvider.callApi host self prompt) w
   /\ good_body_returned host OpenAiCompletionProvider.callApi
        OpenAiCompletionProvider.request_body "/v1/completions" completion_shape
        completion_text self prompt w
   /\ readable_body_returned host OpenAiCompletionProvider.callApi
        OpenAiCompletionProvider.request_body "/v1/completions" completion_unreadable
        completion_text self prompt w)
  /\ (returns_one_sided (OpenAiChatCompletionProvider.callApi host self prompt) w
      /\ good_body_returned host OpenAiChatCompletionProvider.callApi
           OpenAiChatCompletionProvider.request_body "/v1/chat/completions" chat_shape
           chat_text self prompt w
      /\ readable_body_returned host OpenAiChatCompletionProvider.callApi
           OpenAiChatCompletionProvider.request_body "/v1/chat/completions"
           chat_unreadable chat_text self prompt w).
Proof.
  split.
  - destruct (completion_callApi_outcome host self prompt w) as (body & Hbody & Hout).
    assert (Hreadable :
              readable_body_returned host OpenAiCompletionProvider.callApi
                OpenAiCompletionProvider.request_body "/v1/completions"
                completion_unreadable completion_text self prompt w).
    { eapply readable_body_from_outcome; [exact Hbody | exact Hout]. }
    split; [|split; [|exact Hreadable]].
    + destruct (outcome_returns _ _ _ _ _ _ _ _ _ Hout) as (r & w' & Hres & Hside).
      unfold returns_one_sided. rewrite Hres. exact Hside.
    + eapply good_body_from_readable; [exact Hreadable|].
      apply completion_shape_good.
  - destruct (chat_callApi_outcome host self prompt w) as (body & Hbody & Hout).
    assert (Hreadable :
              readable_body_returned host OpenAiChatCompletionProvider.callApi
                OpenAiChatCompletionProvider.request_body "/v1/chat/completions"
                chat_unreadable chat_text self prompt w).
    { eapply readable_body_from_outcome; [exact Hbody | exact Hout]. }
    split; [|split; [|exact Hreadable]].
    + destruct (outcome_returns _ _ _ _ _ _ _ _ _ Hout) as (r & w' & Hres & Hside).
      unfold returns_one_sided. rewrite Hres. exact Hside.
    + eapply good_body_from_readable; [exact Hreadable|].
      apply chat_shape_good.
Qed.

(** A documented chat response comes back as a success that carries its
    text and its three counts; one whose only choice has a message without
    content comes back as a success that carries nothing. *)
Lemma callApi_result_one_sided_witness :
  (exists w3 : World,
     OpenAiChatCompletionProvider.callApi (Demo.replying Demo.chat_reply) Demo.chat_self
       "Say hi" Demo.with_key
     = (Normal (ProviderResponse.mk None (Some (Some (JStr "Hello!")))
                  (Some (TokenUsage.mk (Some (JInt 7)) (Some (JInt 3)) (Some (JInt 4))))),
        w3))
  /\ (exists w3 : World,
        OpenAiChatCompletionProvider.callApi (Demo.replying Demo.no_content)
          Demo.chat_self "Say hi" Demo.with_key
        = (Normal (ProviderResponse.mk None (Some None)
                     (Some (TokenUsage.mk None None None))), w3)).
Proof.
  split.
  - destruct (callApi_result_one_sided (Demo.replying Demo.chat_reply) Demo.chat_self
                "Say hi" Demo.with_key) as (_ & _ & Hgood & _).
    edestruct Hgood as (text & total & prompt_tokens & completion_tokens
                        & Htext & Htotal & Hprompt & Hcompletion & Hcall);
      [reflexivity | reflexivity | reflexivity |].
    vm_compute in Htext. injection Htext as <-.
    vm_compute in Htotal. injection Htotal as <-.
    vm_compute in Hprompt. injection Hprompt as <-.
    vm_compute in Hcompletion. injection Hcompletion as <-.
    eexists. exact Hcall.
  - destruct (callApi_result_one_sided (Demo.replying Demo.no_content) Demo.chat_self
                "Say hi" Demo.with_key) as (_ & _ & _ & Hreadable).
    eexists.
    rewrite (Hreadable _
               (JObj [("choices", JArr [JObj [("message", JObj [])]]);
                      ("usage", JObj [])]) _ eq_refl eq_refl eq_refl).
    reflexivity.
Defined.

(** C9 as stated fails: on a response whose only choice carries a message
    without content the chat adapter returns a result with no error and an
    output that is [undefined]: neither side is populated. *)
Lemma callApi_result_neither_side :
  exists (r : ProviderResponse.t) (w3 : World),
    OpenAiChatCompletionProvider.callApi (Demo.replying Demo.no_content) Demo.chat_self
      "Say hi" Demo.with_key = (Normal r, w3)
    /\ r = ProviderResponse.success None (TokenUsage.mk None None None)
    /\ ~ success_populated r
    /\ ~ failure_populated r
    /\ ~ exactly_one_populated r.
Proof.
  eexists _, _. split; [vm_compute; reflexivity|].
  assert (Hs : ~ success_populated
                 (ProviderResponse.success None (TokenUsage.mk None None None))).
  { intros (text & usage & Hout & _). discriminate Hout. }
  assert (Hf : ~ failure_populated
                 (ProviderResponse.success None (TokenUsage.mk None None None))).
  { intros (msg & Hmsg). discriminate Hmsg. }
  split; [reflexivity|]. split; [exact Hs|]. split; [exact Hf|].
  intros [[H _]|[H _]]; [exact (Hs H) | exact (Hf H)].
Qed.

(* ===================================================================== *)
(** ** The request payloads *)
(* ===================================================================== *)

(** C7, amended. The chat variant sends as its message list the value the
    prompt parses to whenever the prompt is JSON text, of whatever shape;
    when the prompt is not JSON text it sends exactly one user turn whose
    content is the prompt. Building the request throws nothing and logs
    nothing. *)
Theorem chat_messages_from_prompt (self : OpenAiGenericProvider.t) (prompt : string)
    (w : World) :
  exists body : Json,
    OpenAiChatCompletionProvider.request_body self prompt w = (Normal body, w)
    /\ (forall parsed,
          JSON.parse prompt = Some parsed ->
          peek (Some body) "messages" = Some parsed)
    /\ (JSON.parse prompt = None ->
        peek (Some body) "messages" = Some (user_turn prompt)).
Proof.
  eexists. split; [apply chat_request_body_run|].
  split.
  - intros parsed Hparse. rewrite Hparse. reflexivity.
  - intros Hparse. rewrite Hparse. reflexivity.
Qed.

(** A plain sentence becomes one user turn, and a serialised conversation
    is sent as parsed. *)
Lemma chat_messages_from_prompt_witness :
  (exists body : Json,
     OpenAiChatCompletionProvider.request_body Demo.chat_self "Say hi" Demo.with_key
     = (Normal body, Demo.with_key)
     /\ peek (Some body) "messages" = Some (user_turn "Say hi"))
  /\ (exists body : Json,
        OpenAiChatCompletionProvider.request_body Demo.chat_self
          ("[{" ++ Demo.member "role" (Str.quoted "system") ++ ","
                ++ Demo.member "content" (Str.quoted "Be brief.") ++ "}]")
          Demo.with_key
        = (Normal body, Demo.with_key)
        /\ peek (Some body) "messages"
           = Some (JArr [JObj [("role", JStr "system"); ("content", JStr "Be brief.")]])).
Proof.
  split.
  - destruct (chat_messages_from_prompt Demo.chat_self "Say hi" Demo.with_key)
      as (body & Hbody & _ & Hfallback).
    exists body. split; [exact Hbody|]. apply Hfallback. vm_compute. reflexivity.
  - destruct (chat_messages_from_prompt Demo.chat_self
                ("[{" ++ Demo.member "role" (Str.quoted "system") ++ ","
                      ++ Demo.member "content" (Str.quoted "Be brief.") ++ "}]")
                Demo.with_key)
      as (body & Hbody & Hparsed & _).
    exists body. split; [exact Hbody|]. apply Hparsed. vm_compute. reflexivity.
Defined.

(** C7 as stated fails: the prompt [42] is JSON text and is not turn data,
    and the chat variant sends the number 42 as its message list, not a
    user turn. *)
Lemma chat_messages_number_prompt :
  JSON.parse "42" = Some (JInt 42)
  /\ is_turns (JInt 42) = false
  /\ fst (OpenAiChatCompletionProvider.request_body Demo.chat_self "42" Demo.with_key)
     = Normal (JObj [("model", JStr "gpt-4"); ("messages", JInt 42);
                     ("max_tokens", JInt 1024); ("temperature", JInt 0)])
  /\ ~ turns_or_fallback Demo.chat_self "42" Demo.with_key.
Proof.
  split; [vm_compute; reflexivity|]. split; [reflexivity|].
  split; [vm_compute; reflexivity|].
  intros (body & Hbody & _ & Hfallback).
  assert (Hmessages : peek (Some body) "messages" = Some (user_turn "42")).
  { apply Hfallback. intros parsed Hparse.
    vm_compute in Hparse. injection Hparse as <-. reflexivity. }
  apply (f_equal fst) in Hbody. vm_compute in Hbody. injection Hbody as <-.
  vm_compute in Hmessages. discriminate Hmessages.
Qed.

(** C3, at the failing input. Both variants take the max-output-size from
    [OPENAI_MAX_TOKENS], falling back to 1024, and the completion variant
    takes the temperature from [OPENAI_TEMPERATURE], falling back to 0; the
    chat variant takes the temperature from another variable,
    [OPENAI_MAX_TEMPERATURE]. With [OPENAI_TEMPERATURE] set to 0.7 the
    completion payload carries 0.7 and the chat payload carries 0. *)
Theorem chat_temperature_other_variable (self : OpenAiGenericProvider.t)
    (prompt : string) (w : World) :
  (exists completion_body chat_body : Json,
     OpenAiCompletionProvider.request_body self prompt w = (Normal completion_body, w)
     /\ OpenAiChatCompletionProvider.request_body self prompt w = (Normal chat_body, w)
     /\ peek (Some completion_body) "max_tokens"
        = Some (or_else (env w !! "OPENAI_MAX_TOKENS") JStr (JInt 1024))
     /\ peek (Some completion_body) "temperature"
        = Some (or_else (env w !! "OPENAI_TEMPERATURE") JStr (JInt 0))
     /\ peek (Some chat_body) "max_tokens"
        = Some (or_else (env w !! "OPENAI_MAX_TOKENS") JStr (JInt 1024))
     /\ peek (Some chat_body) "temperature"
        = Some (or_else (env w !! "OPENAI_MAX_TEMPERATURE") JStr (JInt 0)))
  /\ (let configured := Demo.world [("OPENAI_TEMPERATURE", "0.7")] in
      fst (OpenAiCompletionProvider.request_body Demo.self "Say hi" configured)
      = Normal (JObj [("model", JStr "text-davinci-003"); ("prompt", JStr "Say hi");
                      ("max_tokens", JInt 1024); ("temperature", JStr "0.7")])
      /\ fst (OpenAiChatCompletionProvider.request_body Demo.chat_self "Say hi" configured)
         = Normal (JObj [("model", JStr "gpt-4"); ("messages", user_turn "Say hi");
                         ("max_tokens", JInt 1024); ("temperature", JInt 0)])).
Proof.
  split.
  - eexists _, _.
    split; [apply completion_request_body_run|].
    split; [apply chat_request_body_run|].
    repeat split.
  - cbv zeta. split; vm_compute; reflexivity.
Qed.

(* ===================================================================== *)
(** ** The Provider Loader *)
(* ===================================================================== *)

Section Loader.

Context (host : Host).

Lemma split_no_separator (sep : ascii) (s : string) :
  Str.contains sep s = false -> Str.split sep s = [s].
Proof.
  induction s as [|c s IH]; [reflexivity|].
  simpl. intros H. apply orb_false_iff in H as [Hc Hs].
  rewrite Hc, (IH Hs). reflexivity.
Qed.

Lemma split_at_separator (sep : ascii) (a b : string) :
  Str.contains sep a = false ->
  Str.split sep (a ++ String sep b) = a :: Str.split sep b.
Proof.
  induction a as [|c a IH]; intros H.
  - change (EmptyString ++ String sep b) with (String sep b).
    simpl. rewrite Ascii.eqb_refl. reflexivity.
  - change (String c a ++ String sep b) with (String c (a ++ String sep b)).
    simpl in H. apply orb_false_iff in H as [Hc Ha].
    simpl. rewrite Hc, (IH Ha). reflexivity.
Qed.

Lemma split_tagged (tag m : string) :
  Str.contains ":" tag = false ->
  Str.contains ":" m = false ->
  Str.split ":" ("openai" ++ String ":" (tag ++ String ":" m)) = ["openai"; tag; m].
Proof.
  intros Htag Hm.
  rewrite split_at_separator by reflexivity.
  rewrite (split_at_separator _ _ _ Htag), (split_no_separator _ _ Hm).
  reflexivity.
Qed.

Lemma generic_new_run (m key : string) (w : World) :
  env w !! "OPENAI_API_KEY" = Some key ->
  Str.truthy key = true ->
  OpenAiGenericProvider.new m None w =
    (Normal (OpenAiGenericProvider.mk m key
               (or_else (env w !! "OPENAI_API_HOST") (fun h => h) DEFAULT_OPENAI_HOST)),
     w).
Proof.
  intros Hkey Htruthy.
  unfold OpenAiGenericProvider.new, bind, getenv, pure.
  rewrite Hkey. cbn [or_else]. rewrite Htruthy. reflexivity.
Qed.

Lemma chat_new_run (m key : string) (w : World) :
  env w !! "OPENAI_API_KEY" = Some key ->
  Str.truthy key = true ->
  OpenAiChatCompletionProvider.new m None w =
    (Normal (OpenAiGenericProvider.mk m key
               (or_else (env w !! "OPENAI_API_HOST") (fun h => h) DEFAULT_OPENAI_HOST)),
     warned OpenAiChatCompletionProvider.OPENAI_CHAT_MODELS "chat" m w).
Proof.
  intros Hkey Htruthy.
  unfold OpenAiChatCompletionProvider.new, warned, bind.
  destruct (Str.includes OpenAiChatCompletionProvider.OPENAI_CHAT_MODELS m).
  - simpl. apply generic_new_run; assumption.
  - simpl. unfold logger.warn, log.
    rewrite (generic_new_run m key (logged Warn _ w)) by assumption.
    reflexivity.
Qed.

Lemma completion_new_run (m key : string) (w : World) :
  env w !! "OPENAI_API_KEY" = Some key ->
  Str.truthy key = true ->
  OpenAiCompletionProvider.new m None w =
    (Normal (OpenAiGenericProvider.mk m key
               (or_else (env w !! "OPENAI_API_HOST") (fun h => h) DEFAULT_OPENAI_HOST)),
     warned OpenAiCompletionProvider.OPENAI_COMPLETION_MODELS "completion" m w).
Proof.
  intros Hkey Htruthy.
  unfold OpenAiCompletionProvider.new, warned, bind.
  destruct (Str.includes OpenAiCompletionProvider.OPENAI_COMPLETION_MODELS m).
  - simpl. apply generic_new_run; assumption.
  - simpl. unfold logger.warn, log.
    rewrite (generic_new_run m key (logged Warn _ w)) by assumption.
    reflexivity.
Qed.

Lemma truthy_or_else (m fallback : string) :
  Str.truthy m = true -> or_else (Some m) (fun x => x) fallback = m.
Proof. intros H. unfold or_else. rewrite H. reflexivity. Qed.

(** C4, amended. With an API key in the environment, for every model name
    that is not empty and holds no colon, the specifications
    [openai:chat:m] and [openai:completion:m] load an adapter of the named
    family whose [id()] is exactly [openai:m]; nothing is thrown, and a
    warning is logged exactly when [m] is not in the family's list of
    models. *)
Theorem loadApiProvider_tagged (m key : string) (w : World) :
  env w !! "OPENAI_API_KEY" = Some key ->
  Str.truthy key = true ->
  Str.truthy m = true ->
  Str.contains ":" m = false ->
  (exists self : OpenAiGenericProvider.t,
     loadApiProvider host (ArgString ("openai:chat:" ++ m)) w
     = (Normal (ChatInstance self),
        warned OpenAiChatCompletionProvider.OPENAI_CHAT_MODELS "chat" m w)
     /\ provider_id (ChatInstance self) = "openai:" ++ m)
  /\ (exists self : OpenAiGenericProvider.t,
        loadApiProvider host (ArgString ("openai:completion:" ++ m)) w
        = (Normal (CompletionInstance self),
           warned OpenAiCompletionProvider.OPENAI_COMPLETION_MODELS "completion" m w)
        /\ provider_id (CompletionInstance self) = "openai:" ++ m).
Proof.
  intros Hkey Hkey_truthy Hm Hcolon. split.
  - eexists. unfold loadApiProvider.
    change (Str.startsWith ("openai:chat:" ++ m) "openai:") with true.
    change ("openai:chat:" ++ m) with ("openai" ++ String ":" ("chat" ++ String ":" m)).
    rewrite (split_tagged "chat" m eq_refl Hcolon).
    cbn [nth_error is_string]. change (String.eqb "chat" "chat") with true.
    cbv iota. rewrite (truthy_or_else _ _ Hm).
    unfold bind. rewrite (chat_new_run m key w Hkey Hkey_truthy).
    split; reflexivity.
  - eexists. unfold loadApiProvider.
    change (Str.startsWith ("openai:completion:" ++ m) "openai:") with true.
    change ("openai:completion:" ++ m)
      with ("openai" ++ String ":" ("completion" ++ String ":" m)).
    rewrite (split_tagged "completion" m eq_refl Hcolon).
    cbn [nth_error is_string]. change (String.eqb "completion" "chat") with false.
    change (String.eqb "completion" "completion") with true.
    cbv iota. rewrite (truthy_or_else _ _ Hm).
    unfold bind. rewrite (completion_new_run m key w Hkey Hkey_truthy).
    split; reflexivity.
Qed.

End Loader.

(** An unlisted model loads with a warning, and the adapter is named after
    it. *)
Lemma loadApiProvider_tagged_witness :
  exists self : OpenAiGenericProvider.t,
    loadApiProvider Demo.unreachable (ArgString "openai:chat:my-model") Demo.with_key
    = (Normal (ChatInstance self),
       logged Warn "Using unknown OpenAI chat model: my-model" Demo.with_key)
    /\ provider_id (ChatInstance self) = "openai:my-model".
Proof.
  destruct (loadApiProvider_tagged Demo.unreachable "my-model" "sk-test" Demo.with_key)
    as [Hchat _].
  - vm_compute. reflexivity.
  - reflexivity.
  - reflexivity.
  - reflexivity.
  - exact Hchat.
Defined.

(** C4 as stated fails on three inputs: a model name with colons loses
    all but its first segment; without an API key the constructor throws;
    an empty model name gives the family's default model. *)
Lemma loadApiProvider_tagged_fails :
  (fst (loadApiProvider Demo.unreachable (ArgString "openai:chat:ft:gpt-3.5-turbo:acme")
          Demo.with_key)
   = Normal (ChatInstance (OpenAiGenericProvider.mk "ft" "sk-test" DEFAULT_OPENAI_HOST))
   /\ ~ loads_tagged Demo.unreachable "ft:gpt-3.5-turbo:acme" Demo.with_key)
  /\ (fst (loadApiProvider Demo.unreachable (ArgString "openai:chat:my-model")
             Demo.without_key)
      = Throw (Error "OpenAI API key is not set. Set OPENAI_API_KEY environment variable or pass it as an argument to the constructor.")
      /\ ~ loads_tagged Demo.unreachable "my-model" Demo.without_key)
  /\ (fst (loadApiProvider Demo.unreachable (ArgString "openai:chat:") Demo.with_key)
      = Normal (ChatInstance
                  (OpenAiGenericProvider.mk "gpt-3.5-turbo" "sk-test" DEFAULT_OPENAI_HOST))
      /\ ~ loads_tagged Demo.unreachable EmptyString Demo.with_key).
Proof.
  repeat split; try (vm_compute; reflexivity).
  - intros [(p & w' & Hload & Hid) _].
    apply (f_equal fst) in Hload. vm_compute in Hload. injection Hload as <-.
    vm_compute in Hid. discriminate Hid.
  - intros [(p & w' & Hload & Hid) _].
    apply (f_equal fst) in Hload. vm_compute in Hload. discriminate Hload.
  - intros [(p & w' & Hload & Hid) _].
    apply (f_equal fst) in Hload. vm_compute in Hload. injection Hload as <-.
    vm_compute in Hid. discriminate Hid.
Qed.

(* ===================================================================== *)
(** ** The Nested Provider Resolver *)
(* ===================================================================== *)

(** C1, at the failing input. A test whose override provider is a string
    leaves the resolver with that string still in place, whatever its
    assertions are, and the Provider Loader is not called for it; a test
    whose override provider is a function has that function handed to the
    Provider Loader, which throws on it. An adapter object is left alone.
    The assertions' providers, five lines below, are resolved when they are
    strings and left alone when they are functions. *)
Theorem resolveTest_string_override_kept (host : Host) (s label : string)
    (a : ApiProvider) (vars prefix suffix : JsValue)
    (assertions : option (list Assertion.t)) (w : World) :
  let options_with p := Some (TestOptions.mk prefix suffix (Some p)) in
  resolveTest host (TestCase.mk vars (options_with (RefString s)) assertions) w
  = match assertions with
    | Some declared =>
        match for_each (resolveAssertionProvider host) declared w with
        | (Normal resolved, w') =>
            (Normal (TestCase.mk vars (options_with (RefString s)) (Some resolved)), w')
        | (Throw e, w') => (Throw e, w')
        end
    | None => (Normal (TestCase.mk vars (options_with (RefString s)) None), w)
    end
  /\ resolveTest host (TestCase.mk vars (options_with (RefFunction label)) assertions) w
     = (Throw (TypeError "providerPath?.startsWith is not a function"), w)
  /\ resolveTest host (TestCase.mk vars (options_with (RefInstance a)) None) w
     = (Normal (TestCase.mk vars (options_with (RefInstance a)) None), w)
  /\ resolveAssertionProvider host
       (Assertion.mk "llm-rubric" None (Some (RefFunction label))) w
     = (Normal (Assertion.mk "llm-rubric" None (Some (RefFunction label))), w)
  /\ fst (resolveTest Demo.unreachable (Demo.test_with (RefString "openai:chat:gpt-4"))
            Demo.with_key)
     = Normal (Demo.test_with (RefString "openai:chat:gpt-4"))
  /\ fst (resolveAssertionProvider Demo.unreachable
            (Demo.assertion (RefString "openai:chat:gpt-4")) Demo.with_key)
     = Normal (with_provider (Demo.assertion (RefString "openai:chat:gpt-4"))
                 (ChatInstance Demo.chat_self)).
Proof.
  cbv zeta. split; [|split; [|split; [|split; [|split]]]].
  - unfold resolveTest, resolveTestProvider, bind, pure.
    cbn [TestCase.options TestOptions.provider truthy typeof].
    destruct (Str.truthy s); cbn [TestCase.assert];
      (destruct assertions as [declared|]; [|reflexivity]);
      destruct (for_each (resolveAssertionProvider host) declared w) as [[resolved|e] w'];
      reflexivity.
  - reflexivity.
  - reflexivity.
  - reflexivity.
  - vm_compute. reflexivity.
  - vm_compute. reflexivity.
Qed.

Section Resolver.

Context (host : Host).


End Resolver.



(* ===================================================================== *)
(** ** The Evaluation Setup Orchestrator *)
(* ===================================================================== *)

Section Orchestrator.

Context (host : Host) (ext : Collaborators).

Lemma evaluate_after_engine (testSuite : EvaluateTestSuite.t)
    (options : EvaluateOptions.t) (w : World) (constructed : TestSuite.t) (w1 : World)
    (ret : EvaluateSummary) (w2 : World) :
  prepare host ext testSuite options w = (Normal constructed, w1) ->
  doEvaluate ext constructed options w1 = (Normal ret, w2) ->
  evaluate host ext testSuite options w =
    match write_outputs ext testSuite ret w2 with
    | (Throw e, w3) => (Throw e, w3)
    | (Normal _, w3) =>
        match write_latest ext testSuite ret w3 with
        | (Throw e, w4) => (Throw e, w4)
        | (Normal _, w4) =>
            match send ext w4 with
            | (Throw e, w5) => (Throw e, w5)
            | (Normal _, w5) => (Normal ret, w5)
            end
        end
    end.
Proof.
  intros Hprepare Hengine. unfold evaluate, bind, pure.
  rewrite Hprepare, Hengine. reflexivity.
Qed.

(** C2, amended. Once the Evaluation Engine has returned a result: when
    writing the output paths, persisting the latest results and flushing
    telemetry all succeed, [evaluate] returns that result unchanged;
    [evaluate] never returns another value; and an error thrown by one of
    the three later steps is thrown by [evaluate], the steps after it not
    being run. *)
Theorem evaluate_returns_engine_result (testSuite : EvaluateTestSuite.t)
    (options : EvaluateOptions.t) (w : World) (constructed : TestSuite.t) (w1 : World)
    (ret : EvaluateSummary) (w2 : World) :
  prepare host ext testSuite options w = (Normal constructed, w1) ->
  doEvaluate ext constructed options w1 = (Normal ret, w2) ->
  (forall w3 w4 w5,
     write_outputs ext testSuite ret w2 = (Normal tt, w3) ->
     write_latest ext testSuite ret w3 = (Normal tt, w4) ->
     send ext w4 = (Normal tt, w5) ->
     evaluate host ext testSuite options w = (Normal ret, w5))
  /\ (forall out w',
        evaluate host ext testSuite options w = (Normal out, w') -> out = ret)
  /\ (forall e w3,
        write_outputs ext testSuite ret w2 = (Throw e, w3) ->
        evaluate host ext testSuite options w = (Throw e, w3))
  /\ (forall w3 e w4,
        write_outputs ext testSuite ret w2 = (Normal tt, w3) ->
        write_latest ext testSuite ret w3 = (Throw e, w4) ->
        evaluate host ext testSuite options w = (Throw e, w4))
  /\ (forall w3 w4 e w5,
        write_outputs ext testSuite ret w2 = (Normal tt, w3) ->
        write_latest ext testSuite ret w3 = (Normal tt, w4) ->
        send ext w4 = (Throw e, w5) ->
        evaluate host ext testSuite options w = (Throw e, w5)).
Proof.
  intros Hprepare Hengine.
  rewrite (evaluate_after_engine _ _ _ _ _ _ _ Hprepare Hengine).
  repeat split.
  - intros w3 w4 w5 H7 H8 H9. rewrite H7, H8, H9. reflexivity.
  - intros out w'.
    destruct (write_outputs ext testSuite ret w2) as [[u|e] w3]; [|discriminate].
    destruct (write_latest ext testSuite ret w3) as [[u'|e] w4]; [|discriminate].
    destruct (send ext w4) as [[u''|e] w5]; [|discriminate].
    intros H. injection H as <- _. reflexivity.
  - intros e w3 H7. rewrite H7. reflexivity.
  - intros w3 e w4 H7 H8. rewrite H7, H8. reflexivity.
  - intros w3 w4 e w5 H7 H8 H9. rewrite H7, H8, H9. reflexivity.
Qed.

End Orchestrator.

(** With collaborators that all succeed, [evaluate] returns the engine's
    summary, after the output file has been written and telemetry sent. *)
Lemma evaluate_returns_engine_result_witness :
  exists w5 : World,
    evaluate Demo.unreachable Demo.collaborators Demo.suite Demo.options Demo.with_key
    = (Normal Demo.summary, w5)
    /\ journal w5
       = ["maybeShowNotice"; "doEvaluate"; "writeOutput out.json"; "telemetry.send"].
Proof.
  eexists. split.
  - eapply (evaluate_returns_engine_result Demo.unreachable Demo.collaborators
              Demo.suite Demo.options Demo.with_key).
    + vm_compute. reflexivity.
    + vm_compute. reflexivity.
    + vm_compute. reflexivity.
    + vm_compute. reflexivity.
    + vm_compute. reflexivity.
  - reflexivity.
Defined.

(** C2 as stated fails: the engine returns its summary, the output file
    cannot be written, and [evaluate] throws the writer's error; the
    summary is lost to the caller, and telemetry is not flushed. *)
Lemma evaluate_loses_result_on_write_failure :
  (exists (constructed : TestSuite.t) (w1 w2 : World),
     prepare Demo.unreachable Demo.read_only_disk Demo.suite Demo.options Demo.with_key
     = (Normal constructed, w1)
     /\ doEvaluate Demo.read_only_disk constructed Demo.options w1
        = (Normal Demo.summary, w2))
  /\ fst (evaluate Demo.unreachable Demo.read_only_disk Demo.suite Demo.options
            Demo.with_key)
     = Throw (Error "EACCES: permission denied, open 'out.json'")
  /\ journal (snd (evaluate Demo.unreachable Demo.read_only_disk Demo.suite Demo.options
                     Demo.with_key))
     = ["maybeShowNotice"; "doEvaluate"]
  /\ ~ result_survives Demo.unreachable Demo.read_only_disk Demo.suite Demo.options
         Demo.with_key.
Proof.
  split; [|split; [|split]].
  - eexists _, _, _. split; vm_compute; reflexivity.
  - vm_compute. reflexivity.
  - vm_compute. reflexivity.
  - intros Hclaim.
    assert (H : fst (evaluate Demo.unreachable Demo.read_only_disk Demo.suite
                       Demo.options Demo.with_key) = Normal Demo.summary).
    { eapply Hclaim; vm_compute; reflexivity. }
    vm_compute in H. discriminate H.
Qed.

(** * Further properties of the code *)

Section RoundTrip.

Import JSON.

Lemma parse_at_stable (fuel : nat) :
  forall fuel' mode s,
    fuel <= fuel' -> parse_at fuel mode s <> OutOfFuel ->
    parse_at fuel' mode s = parse_at fuel mode s.
Proof.
  induction fuel as [|fuel IH]; intros fuel' mode s Hle H; [now contradiction H|].
  destruct fuel' as [|fuel']; [lia|]. assert (Hle' : fuel <= fuel') by lia.
  simpl in *. destruct mode as [|acc|acc].
  - destruct (skip_ws s) as [|c r]; [reflexivity|].
    destruct (Ascii.eqb c "[").
    { destruct (closes "]" r); [reflexivity|]. now apply IH. }
    destruct (Ascii.eqb c "{").
    { destruct (closes "}" r); [reflexivity|]. now apply IH. }
    reflexivity.
  - destruct (parse_at fuel MValue s) as [| |x after] eqn:Ev.
    + now contradiction H.
    + rewrite (IH fuel' MValue s Hle') by (rewrite Ev; discriminate).
      rewrite Ev. reflexivity.
    + rewrite (IH fuel' MValue s Hle') by (rewrite Ev; discriminate).
      rewrite Ev. destruct (next "]" after); [|reflexivity|reflexivity].
      now apply IH.
  - destruct (read_key s) as [[k after_colon]|]; [|reflexivity].
    destruct (parse_at fuel MValue after_colon) as [| |x after] eqn:Ev.
    + now contradiction H.
    + rewrite (IH fuel' MValue after_colon Hle') by (rewrite Ev; discriminate).
      rewrite Ev. reflexivity.
    + rewrite (IH fuel' MValue after_colon Hle') by (rewrite Ev; discriminate).
      rewrite Ev. destruct (next "}" after); [|reflexivity|reflexivity].
      now apply IH.
Qed.


Lemma cons_append (c : ascii) (a b : string) : String c a ++ b = String c (a ++ b).
Proof. reflexivity. Qed.

Lemma read_items_escape_char (c : ascii) (tail : string) (items : list StrItem)
    (after : string) :
  read_items tail = Some (items, after) ->
  exists item,
    read_items (escape_char c ++ tail) = Some (item :: items, after)
    /\ (item = Raw c \/ (item = Unit16 (N_of_ascii c) /\ (N_of_ascii c < 32)%N)).
Proof.
  intros H.
  destruct c as [[|] [|] [|] [|] [|] [|] [|] [|]];
    match goal with
    | |- context [escape_char ?c] =>
        let e := eval vm_compute in (escape_char c) in
        change (escape_char c) with e
    end;
    rewrite ?cons_append; change (EmptyString ++ tail) with tail;
    simpl read_items; rewrite H;
    eexists; (split; [reflexivity|]);
    first [left; reflexivity | right; split; [reflexivity | reflexivity]].
Qed.

Lemma encode_item (c : ascii) (item : StrItem) (items : list StrItem) :
  item = Raw c \/ (item = Unit16 (N_of_ascii c) /\ (N_of_ascii c < 32)%N) ->
  encode_items (item :: items) = String c (encode_items items).
Proof.
  intros [->|[-> Hlt]]; [reflexivity|].
  assert (Hhigh : is_high_surrogate (N_of_ascii c) = false).
  { unfold is_high_surrogate. apply andb_false_iff. left. apply N.leb_gt. lia. }
  assert (Hutf : utf8 (N_of_ascii c) = Str.of_char c).
  { unfold utf8. replace (N_of_ascii c <? 128)%N with true
      by (symmetry; apply N.ltb_lt; lia).
    unfold byte. now rewrite ascii_N_embedding. }
  simpl. destruct items as [|[x|lo] items']; rewrite ?Hhigh, Hutf; reflexivity.
Qed.

(** A string in quotes is read back as it was. *)
Lemma read_items_escape (s : string) (after : string) :
  exists items,
    read_items (escape s ++ String Str.dquote after) = Some (items, after)
    /\ encode_items items = s.
Proof.
  induction s as [|c s (items & Hread & Hencode)].
  - exists []. split; reflexivity.
  - change (escape (String c s)) with (escape_char c ++ escape s).
    rewrite append_associative.
    destruct (read_items_escape_char c _ _ _ Hread) as (item & Hitem & Hkind).
    exists (item :: items). split; [exact Hitem|].
    rewrite (encode_item c item items Hkind), Hencode. reflexivity.
Qed.

Lemma parse_string_quote (s after : string) :
  parse_string (escape s ++ String Str.dquote after) = Some (s, after).
Proof.
  unfold parse_string.
  destruct (read_items_escape s after) as (items & -> & ->). reflexivity.
Qed.

Lemma quote_append (s rest : string) :
  quote s ++ rest = String Str.dquote (escape s ++ String Str.dquote rest).
Proof.
  unfold quote, Str.quoted, Str.of_char.
  rewrite cons_append, append_associative. reflexivity.
Qed.


Lemma stringify_opens (v : Json) :
  textual v = true -> exists c tail, stringify v = String c tail /\ opens c.
Proof.
  destruct v as [|[|]|x|s|elements|members]; intros H; try discriminate;
    try (eexists _, _; split; [reflexivity | repeat split]).
Qed.

Lemma closes_opens (close c : ascii) (tail : string) :
  is_ws c = false -> Ascii.eqb c close = false -> closes close (String c tail) = None.
Proof. intros Hws Hc. unfold closes. simpl. now rewrite Hws, Hc. Qed.

Lemma next_comma (close : ascii) (s : string) : next close (String "," s) = More s.
Proof. reflexivity. Qed.

Lemma next_close (close : ascii) (s : string) :
  Ascii.eqb close "," = false -> is_ws close = false ->
  next close (String close s) = Closed s.
Proof.
  intros Hc Hws. unfold next. simpl. rewrite Hws, Hc, Ascii.eqb_refl. reflexivity.
Qed.

Lemma reads_elements (elements : list Json) :
  Forall (fun e => forall rest, reads MValue (stringify e ++ rest) e rest) elements ->
  elements <> [] ->
  forall acc rest,
    reads (MElements acc)
      (Str.join "," (List.map stringify elements) ++ String "]" rest)
      (JArr (acc ++ elements)) rest.
Proof.
  induction 1 as [|e tl He Htl IH]; intros Hne acc rest; [now contradiction Hne|].
  destruct tl as [|e2 tl].
  - destruct (He (String "]" rest)) as (f & Hf).
    exists (S f). intros [|fuel'] Hle; [lia|].
    simpl. rewrite Hf by lia. reflexivity.
  - change (Str.join "," (List.map stringify (e :: e2 :: tl)))
      with (stringify e ++ "," ++ Str.join "," (List.map stringify (e2 :: tl))).
    rewrite !append_associative.
    destruct (He ("," ++ Str.join "," (List.map stringify (e2 :: tl)) ++ String "]" rest))
      as (f1 & Hf1).
    destruct (IH ltac:(discriminate) (acc ++ [e])%list rest) as (f2 & Hf2).
    exists (S (Nat.max f1 f2)). intros [|fuel'] Hle; [lia|].
    simpl parse_at. rewrite Hf1 by lia.
    change ("," ++ ?x) with (String "," x).
    rewrite next_comma. rewrite Hf2 by lia.
    rewrite <- app_assoc. reflexivity.
Qed.

Lemma has_key_app (k : string) (a b : list (string * Json)) :
  has_key k (a ++ b)%list = has_key k a || has_key k b.
Proof.
  induction a as [|[k' x] a IH]; [reflexivity|].
  simpl. rewrite IH. now rewrite orb_assoc.
Qed.

Lemma has_key_absent (k : string) (members : list (string * Json)) (k' : string)
    (x : Json) :
  has_key k members = false -> In (k', x) members -> String.eqb k k' = false.
Proof.
  induction members as [|[k3 x3] l IH]; intros Hk Hin; [destruct Hin|].
  simpl in Hk. apply orb_false_iff in Hk as [H3 Hl].
  destruct Hin as [E|Hin]; [injection E as -> _; exact H3 | now apply IH].
Qed.

Lemma replace_member_fresh (k : string) (v : Json) (members : list (string * Json)) :
  has_key k members = false -> replace_member k v members = None.
Proof.
  induction members as [|[k' x] members IH]; [reflexivity|].
  simpl. intros H. apply orb_false_iff in H as [Hk Hrest].
  rewrite Hk, (IH Hrest). reflexivity.
Qed.

Lemma define_fresh (k : string) (v : Json) (members : list (string * Json)) :
  has_key k members = false -> array_index k = None ->
  define k v members = (members ++ [(k, v)])%list.
Proof.
  intros Hfresh Hindex. unfold define.
  now rewrite (replace_member_fresh _ _ _ Hfresh), Hindex.
Qed.

Lemma read_key_quote (k after : string) :
  read_key (quote k ++ ":" ++ after) = Some (k, after).
Proof.
  rewrite quote_append. unfold read_key.
  change (skip_ws (String Str.dquote ?x)) with (String Str.dquote x).
  cbv beta iota. rewrite Ascii.eqb_refl, parse_string_quote. reflexivity.
Qed.


Lemma reads_members (members : list (string * Json)) :
  Forall (fun kv => forall rest, reads MValue (stringify (snd kv) ++ rest) (snd kv) rest)
    members ->
  members <> [] ->
  forall acc rest,
    plain_keys members = true ->
    forallb (fun kv => negb (has_key (fst kv) acc)) members = true ->
    reads (MMembers acc)
      (Str.join "," (List.map member_text members) ++ String "}" rest)
      (JObj (acc ++ members)) rest.
Proof.
  induction 1 as [|[k x] tl Hx Htl IH]; intros Hne acc rest Hkeys Hfresh;
    [now contradiction Hne|].
  simpl in Hkeys, Hfresh, Hx.
  apply andb_true_iff in Hkeys as [Hk Hkeys_tl].
  apply andb_true_iff in Hk as [Hk_tl Hindex].
  apply negb_true_iff in Hk_tl.
  assert (Hindex' : array_index k = None) by (destruct (array_index k); [discriminate|reflexivity]).
  apply andb_true_iff in Hfresh as [Hk_acc Hfresh_tl]. apply negb_true_iff in Hk_acc.
  destruct tl as [|kv2 tl].
  - destruct (Hx (String "}" rest)) as (f & Hf).
    exists (S f). intros [|fuel'] Hle; [lia|].
    change (Str.join "," (List.map member_text [(k, x)])) with (quote k ++ ":" ++ stringify x).
    rewrite !append_associative. simpl parse_at. rewrite read_key_quote.
    rewrite Hf by lia.
    rewrite (next_close "}") by reflexivity.
    rewrite (define_fresh _ _ _ Hk_acc Hindex'). reflexivity.
  - change (Str.join "," (List.map member_text ((k, x) :: kv2 :: tl)))
      with ((quote k ++ ":" ++ stringify x) ++ ","
              ++ Str.join "," (List.map member_text (kv2 :: tl))).
    rewrite !append_associative.
    destruct (Hx ("," ++ Str.join "," (List.map member_text (kv2 :: tl)) ++ String "}" rest))
      as (f1 & Hf1).
    assert (Hfresh' : forallb (fun kv => negb (has_key (fst kv) (acc ++ [(k, x)])%list))
                        (kv2 :: tl) = true).
    { apply forallb_forall. intros [k2 x2] Hin.
      rewrite forallb_forall in Hfresh_tl. specialize (Hfresh_tl _ Hin).
      cbn [fst] in *. rewrite has_key_app. apply negb_true_iff in Hfresh_tl.
      rewrite Hfresh_tl. cbn [has_key orb]. rewrite orb_false_r. apply negb_true_iff.
      rewrite String.eqb_sym. exact (has_key_absent _ _ _ _ Hk_tl Hin). }
    destruct (IH ltac:(discriminate) (acc ++ [(k, x)])%list rest Hkeys_tl Hfresh')
      as (f2 & Hf2).
    exists (S (Nat.max f1 f2)). intros [|fuel'] Hle; [lia|].
    simpl parse_at. rewrite read_key_quote. rewrite Hf1 by lia.
    change ("," ++ ?y) with (String "," y).
    rewrite next_comma, (define_fresh _ _ _ Hk_acc Hindex'). rewrite Hf2 by lia.
    rewrite <- app_assoc. reflexivity.
Qed.

Lemma Json_nested_ind (P : Json -> Prop) :
  P JNull -> (forall b, P (JBool b)) -> (forall x, P (JNum x)) ->
  (forall s, P (JStr s)) ->
  (forall elements, Forall P elements -> P (JArr elements)) ->
  (forall members, Forall (fun kv => P (snd kv)) members -> P (JObj members)) ->
  forall v, P v.
Proof.
  intros Hnull Hbool Hnum Hstr Harr Hobj. fix IH 1.
  intros [|b|x|s|elements|members].
  - exact Hnull.
  - apply Hbool.
  - apply Hnum.
  - apply Hstr.
  - apply Harr. induction elements as [|x tl IHtl]; constructor; [apply IH | exact IHtl].
  - apply Hobj. induction members as [|[k x] tl IHtl]; constructor; [apply IH | exact IHtl].
Qed.

Lemma parse_at_bracket (fuel : nat) (s : string) :
  parse_at (S fuel) MValue (String "[" s) =
    match closes "]" s with
    | Some after => Got (JArr []) after
    | None => parse_at fuel (MElements []) s
    end.
Proof. reflexivity. Qed.

Lemma parse_at_brace (fuel : nat) (s : string) :
  parse_at (S fuel) MValue (String "{" s) =
    match closes "}" s with
    | Some after => Got (JObj []) after
    | None => parse_at fuel (MMembers []) s
    end.
Proof. reflexivity. Qed.

Lemma reads_stringify (v : Json) :
  textual v = true -> forall rest, reads MValue (stringify v ++ rest) v rest.
Proof.
  induction v as [|b|x|s|elements IH|members IH] using Json_nested_ind;
    intros Htext rest.
  - exists 1. intros [|f] Hle; [lia | reflexivity].
  - exists 1. intros [|f] Hle; [lia | destruct b; reflexivity].
  - discriminate.
  - exists 1. intros [|f] Hle; [lia|].
    change (stringify (JStr s)) with (quote s). rewrite quote_append.
    simpl parse_at. rewrite parse_string_quote. reflexivity.
  - simpl in Htext.
    change (stringify (JArr elements))
      with ("[" ++ Str.join "," (List.map stringify elements) ++ "]").
    rewrite !append_associative. change ("]" ++ rest) with (String "]" rest).
    change ("[" ++ ?x) with (String "[" x).
    destruct elements as [|e tl].
    + exists 1. intros [|f] Hle; [lia | reflexivity].
    + assert (Hall : Forall (fun e => forall rest, reads MValue (stringify e ++ rest) e rest)
                       (e :: tl)).
      { rewrite forallb_forall in Htext. rewrite Forall_forall in IH |- *.
        intros x Hx. apply IH; [exact Hx|]. apply Htext. now apply list_elem_of_In. }
      destruct (reads_elements (e :: tl) Hall ltac:(discriminate) [] rest) as (f & Hf).
      exists (S f). intros [|fuel'] Hle; [lia|].
      rewrite parse_at_bracket.
      assert (Hopen : closes "]" (Str.join "," (List.map stringify (e :: tl)) ++ String "]" rest)
                      = None).
      { assert (He : textual e = true).
        { simpl in Htext. now apply andb_true_iff in Htext as [He _]. }
        destruct (stringify_opens e He) as (c & tail & Hc & Hws & _ & Hclose & _).
        destruct tl; simpl Str.join; cbn [List.map]; rewrite Hc, ?cons_append;
          now apply closes_opens. }
      rewrite Hopen. apply Hf. lia.
  - simpl in Htext. apply andb_true_iff in Htext as [Hkeys Htext].
    change (stringify (JObj members))
      with ("{" ++ Str.join "," (List.map member_text members) ++ "}").
    rewrite !append_associative. change ("}" ++ rest) with (String "}" rest).
    change ("{" ++ ?x) with (String "{" x).
    destruct members as [|[k x] tl].
    + exists 1. intros [|f] Hle; [lia | reflexivity].
    + assert (Hall : Forall (fun kv => forall rest,
                                 reads MValue (stringify (snd kv) ++ rest) (snd kv) rest)
                       ((k, x) :: tl)).
      { rewrite forallb_forall in Htext. rewrite Forall_forall in IH |- *.
        intros [k' x'] Hx. apply (IH _ Hx).
        apply list_elem_of_In in Hx. exact (Htext _ Hx). }
      destruct (reads_members ((k, x) :: tl) Hall ltac:(discriminate) [] rest Hkeys
                  ltac:(apply forallb_forall; intros; reflexivity)) as (f & Hf).
      exists (S f). intros [|fuel'] Hle; [lia|].
      rewrite parse_at_brace.
      assert (Hopen : closes "}" (Str.join "," (List.map member_text ((k, x) :: tl))
                                    ++ String "}" rest) = None).
      { destruct tl; simpl Str.join; cbn [List.map member_text];
          rewrite ?append_associative, quote_append; now apply closes_opens. }
      rewrite Hopen. apply Hf. lia.
Qed.

(** [JSON.parse] undoes [JSON.stringify] on the textual values. *)
Lemma parse_stringify (v : Json) :
  textual v = true -> JSON.parse (JSON.stringify v) = Some v.
Proof.
  intros Htext.
  destruct (reads_stringify v Htext EmptyString) as (f & Hf).
  rewrite append_empty in Hf.
  unfold parse.
  pose proof (parse_never_starves (stringify v)) as Hfuel.
  pose proof (parse_at_stable (fuel_for (stringify v))
                (Nat.max f (fuel_for (stringify v))) MValue (stringify v)
                (Nat.le_max_r _ _) Hfuel) as Hstable.
  rewrite <- Hstable, Hf by lia. reflexivity.
Qed.

End RoundTrip.

Section Timeout.

Lemma read_digits_acc (d : Decimal.uint) :
  forall (acc : positive) (count : Z),
    JSON.read_digits (NilEmpty.string_of_uint d) (Z.pos acc) count
    = (Z.pos (Pos.of_uint_acc d acc),
       (count + Z.of_nat (String.length (NilEmpty.string_of_uint d)))%Z, EmptyString).
Proof.
  induction d as [|d IH|d IH|d IH|d IH|d IH|d IH|d IH|d IH|d IH|d IH];
    intros acc count;
    [simpl; f_equal; f_equal; lia | ..];
    cbn [NilEmpty.string_of_uint JSON.read_digits Pos.of_uint_acc String.length];
    match goal with
    | |- context [JSON.digit_val ?c] =>
        let v := eval vm_compute in (JSON.digit_val c) in
        change (JSON.digit_val c) with v
    end;
    cbv iota;
    match goal with
    | |- JSON.read_digits _ ?a _ = (Z.pos (Pos.of_uint_acc _ ?p), _, _) =>
        replace a with (Z.pos p) by lia
    end;
    rewrite IH; f_equal; f_equal; lia.
Qed.

Lemma read_digits_uint (d : Decimal.uint) :
  forall count : Z,
    JSON.read_digits (NilEmpty.string_of_uint d) 0 count
    = (Z.of_N (Pos.of_uint d),
       (count + Z.of_nat (String.length (NilEmpty.string_of_uint d)))%Z, EmptyString).
Proof.
  induction d as [|d IH|d IH|d IH|d IH|d IH|d IH|d IH|d IH|d IH|d IH];
    intros count;
    [simpl; f_equal; f_equal; lia | ..];
    cbn [NilEmpty.string_of_uint JSON.read_digits Pos.of_uint String.length];
    match goal with
    | |- context [JSON.digit_val ?c] =>
        let v := eval vm_compute in (JSON.digit_val c) in
        change (JSON.digit_val c) with v
    end;
    cbv iota;
    first [ change (10 * 0 + 0)%Z with 0%Z; rewrite IH; f_equal; f_equal; lia
          | match goal with
            | |- JSON.read_digits _ ?a _ = _ =>
                let p := eval vm_compute in (Z.to_pos a) in
                change a with (Z.pos p)
            end;
            rewrite read_digits_acc; f_equal; f_equal; lia ].
Qed.

Lemma to_uint_not_nil (n : N) : N.to_uint n <> Decimal.Nil.
Proof.
  destruct n as [|p]; [discriminate|].
  simpl. intros H. pose proof (DecimalPos.Unsigned.of_to p) as Hp.
  rewrite H in Hp. discriminate Hp.
Qed.

(** [parseInt] reads a number written in decimal back. *)
Lemma parseInt_of_N (n : N) : parseInt (Str.of_N n) = Number.round false n 0.
Proof.
  unfold Str.of_N, parseInt.
  pose proof (to_uint_not_nil n) as Hnil.
  pose proof (DecimalN.Unsigned.of_to n) as Hback. unfold N.of_uint in Hback.
  destruct (N.to_uint n) as [|d|d|d|d|d|d|d|d|d|d] eqn:E; [now contradiction Hnil|..];
    cbn [NilZero.string_of_uint];
    match goal with
    | |- context [skip_space (NilEmpty.string_of_uint ?u)] =>
        change (skip_space (NilEmpty.string_of_uint u)) with (NilEmpty.string_of_uint u);
        pose proof (read_digits_uint u 0) as Hread
    end;
    cbn [NilEmpty.string_of_uint] in *; cbv iota beta;
    rewrite Hread, Hback;
    match goal with
    | |- (if (?c =? 0)%Z then _ else _) = _ =>
        replace (c =? 0)%Z with false by (symmetry; apply Z.eqb_neq; cbn [String.length]; lia)
    end; now rewrite N2Z.id.
Qed.

End Timeout.

Section Constructors.

Lemma provided_false (v : option string) :
  provided v = false -> v = None \/ v = Some EmptyString.
Proof.
  destruct v as [[|c s]|]; [now right | discriminate | now left].
Qed.

Lemma generic_new_without_key (m : string) (apiKey : option string) (w : World) :
  provided apiKey = false ->
  provided (env w !! "OPENAI_API_KEY") = false ->
  OpenAiGenericProvider.new m apiKey w = (Throw key_not_set, w).
Proof.
  intros Harg Henv. unfold OpenAiGenericProvider.new, bind, getenv.
  apply provided_false in Harg, Henv.
  destruct Harg as [->| ->], Henv as [->| ->]; reflexivity.
Qed.

(** X1. When neither the [apiKey] argument nor [OPENAI_API_KEY] gives a
    key that is not empty, constructing an adapter throws the error that
    the key is not set, for every model name; the subclasses have by then
    logged their warning about a model they do not know. *)
Theorem constructor_without_key (m : string) (apiKey : option string) (w : World) :
  provided apiKey = false ->
  provided (env w !! "OPENAI_API_KEY") = false ->
  OpenAiGenericProvider.new m apiKey w = (Throw key_not_set, w)
  /\ OpenAiChatCompletionProvider.new m apiKey w
     = (Throw key_not_set,
        warned OpenAiChatCompletionProvider.OPENAI_CHAT_MODELS "chat" m w)
  /\ OpenAiCompletionProvider.new m apiKey w
     = (Throw key_not_set,
        warned OpenAiCompletionProvider.OPENAI_COMPLETION_MODELS "completion" m w).
Proof.
  intros Harg Henv. split; [now apply generic_new_without_key|]. split.
  - unfold OpenAiChatCompletionProvider.new, warned, bind.
    destruct (Str.includes OpenAiChatCompletionProvider.OPENAI_CHAT_MODELS m); cbn [negb].
    + unfold pure. now apply generic_new_without_key.
    + unfold logger.warn, log. now apply generic_new_without_key.
  - unfold OpenAiCompletionProvider.new, warned, bind.
    destruct (Str.includes OpenAiCompletionProvider.OPENAI_COMPLETION_MODELS m);
      cbn [negb].
    + unfold pure. now apply generic_new_without_key.
    + unfold logger.warn, log. now apply generic_new_without_key.
Qed.

Lemma constructor_without_key_witness :
  OpenAiChatCompletionProvider.new "gpt-5" (Some EmptyString) Demo.without_key
  = (Throw key_not_set, logged Warn "Using unknown OpenAI chat model: gpt-5" Demo.without_key).
Proof.
  apply (constructor_without_key "gpt-5" (Some EmptyString) Demo.without_key);
    reflexivity.
Defined.

Lemma generic_new_with_key (m : string) (apiKey : option string) (key : string)
    (w : World) :
  or_else apiKey Some (env w !! "OPENAI_API_KEY") = Some key ->
  Str.truthy key = true ->
  OpenAiGenericProvider.new m apiKey w
  = (Normal (OpenAiGenericProvider.mk m key (host_of w)), w).
Proof.
  intros Hkey Htruthy. unfold OpenAiGenericProvider.new, bind, getenv, pure.
  rewrite Hkey, Htruthy. reflexivity.
Qed.

(** X2. A constructor takes the key from its [apiKey] argument when that
    is not empty, whatever the environment holds, and from
    [OPENAI_API_KEY] otherwise; the adapter it returns carries that key,
    the model name as given, and the host of [OPENAI_API_HOST], or
    api.openai.com when that is unset or empty. *)
Theorem constructor_key_precedence (m : string) (apiKey : option string) (key : string)
    (w : World) :
  Str.truthy key = true ->
  apiKey = Some key
  \/ (provided apiKey = false /\ env w !! "OPENAI_API_KEY" = Some key) ->
  OpenAiChatCompletionProvider.new m apiKey w
  = (Normal (OpenAiGenericProvider.mk m key (host_of w)),
     warned OpenAiChatCompletionProvider.OPENAI_CHAT_MODELS "chat" m w)
  /\ OpenAiCompletionProvider.new m apiKey w
     = (Normal (OpenAiGenericProvider.mk m key (host_of w)),
        warned OpenAiCompletionProvider.OPENAI_COMPLETION_MODELS "completion" m w).
Proof.
  intros Htruthy Hsource.
  assert (Hkey : or_else apiKey Some (env w !! "OPENAI_API_KEY") = Some key).
  { destruct Hsource as [->|[Harg Henv]].
    - unfold or_else. now rewrite Htruthy.
    - apply provided_false in Harg. destruct Harg as [->| ->]; exact Henv. }
  assert (Hgeneric : forall w', env w' = env w ->
            OpenAiGenericProvider.new m apiKey w'
            = (Normal (OpenAiGenericProvider.mk m key (host_of w)), w')).
  { intros w' Hw'. rewrite (generic_new_with_key m apiKey key w'); [|now rewrite Hw'|exact Htruthy].
    unfold host_of. now rewrite Hw'. }
  split.
  - unfold OpenAiChatCompletionProvider.new, warned, bind.
    destruct (Str.includes OpenAiChatCompletionProvider.OPENAI_CHAT_MODELS m); cbn [negb].
    + unfold pure. now apply Hgeneric.
    + unfold logger.warn, log. now apply Hgeneric.
  - unfold OpenAiCompletionProvider.new, warned, bind.
    destruct (Str.includes OpenAiCompletionProvider.OPENAI_COMPLETION_MODELS m);
      cbn [negb].
    + unfold pure. now apply Hgeneric.
    + unfold logger.warn, log. now apply Hgeneric.
Qed.

Lemma constructor_key_precedence_witness :
  OpenAiChatCompletionProvider.new "gpt-4" (Some "sk-argument")
    (Demo.world [("OPENAI_API_KEY", "sk-environment"); ("OPENAI_API_HOST", "proxy.local")])
  = (Normal (OpenAiGenericProvider.mk "gpt-4" "sk-argument" "proxy.local"),
     Demo.world [("OPENAI_API_KEY", "sk-environment"); ("OPENAI_API_HOST", "proxy.local")]).
Proof.
  apply (constructor_key_precedence "gpt-4" (Some "sk-argument") "sk-argument"
           (Demo.world [("OPENAI_API_KEY", "sk-environment");
                        ("OPENAI_API_HOST", "proxy.local")])).
  - reflexivity.
  - left. reflexivity.
Defined.

End Constructors.

Section LoaderSegments.

Context (host : Host).

Lemma split_openai (rest : string) :
  Str.split ":" ("openai:" ++ rest) = "openai" :: Str.split ":" rest.
Proof.
  change ("openai:" ++ rest) with ("openai" ++ String ":" rest).
  now rewrite split_at_separator.
Qed.

Lemma startsWith_openai (rest : string) :
  Str.startsWith ("openai:" ++ rest) "openai:" = true.
Proof. destruct rest; reflexivity. Qed.

Lemma split_not_empty (sep : ascii) (s : string) :
  exists segment segments, Str.split sep s = segment :: segments.
Proof.
  induction s as [|c s (p & ps & IH)]; [eexists _, _; reflexivity|].
  simpl. rewrite IH. destruct (Ascii.eqb c sep); eexists _, _; reflexivity.
Qed.

(** What the loader does with a vendor specification, by its segments. *)
Lemma loadApiProvider_openai (rest : string) :
  loadApiProvider host (ArgString ("openai:" ++ rest)) =
    let modelType := first_segment rest in
    let modelName := nth_error (Str.split ":" rest) 1 in
    if String.eqb modelType "chat" then
      let* self :=
        OpenAiChatCompletionProvider.new
          (or_else modelName (fun m => m) "gpt-3.5-turbo") None in
      pure (ChatInstance self)
    else if String.eqb modelType "completion" then
      let* self :=
        OpenAiCompletionProvider.new
          (or_else modelName (fun m => m) "text-davinci-003") None in
      pure (CompletionInstance self)
    else if Str.includes OpenAiChatCompletionProvider.OPENAI_CHAT_MODELS modelType then
      let* self := OpenAiChatCompletionProvider.new modelType None in
      pure (ChatInstance self)
    else if Str.includes OpenAiCompletionProvider.OPENAI_COMPLETION_MODELS modelType then
      let* self := OpenAiCompletionProvider.new modelType None in
      pure (CompletionInstance self)
    else throw (unknown_model_type modelType).
Proof.
  unfold loadApiProvider. rewrite startsWith_openai, split_openai. unfold first_segment.
  destruct (split_not_empty ":" rest) as (segment & segments & ->).
  reflexivity.
Qed.

End LoaderSegments.

Section LoaderMore.

Context (host : Host).

(** X3. A vendor specification whose segment after [openai:] is neither
    [chat] nor [completion] nor one of the listed models is refused: the
    loader throws an error that names the segment, logs nothing and calls
    nothing. *)
Theorem loadApiProvider_unknown_type (rest : string) (w : World) :
  Str.includes model_types (first_segment rest) = false ->
  loadApiProvider host (ArgString ("openai:" ++ rest)) w
  = (Throw (unknown_model_type (first_segment rest)), w).
Proof.
  intros H. rewrite loadApiProvider_openai. cbv zeta.
  unfold model_types, Str.includes in H. cbn [existsb] in H.
  apply orb_false_iff in H as [Hchat H]. apply orb_false_iff in H as [Hcompletion H].
  rewrite existsb_app in H. apply orb_false_iff in H as [Hchats Hcompletions].
  rewrite Hchat, Hcompletion.
  unfold Str.includes. rewrite Hchats, Hcompletions. reflexivity.
Qed.

Lemma first_segment_tag (tag tail : string) :
  Str.contains ":" tag = false ->
  first_segment (tag ++ String ":" tail) = tag
  /\ nth_error (Str.split ":" (tag ++ String ":" tail)) 1
     = Some (first_segment tail).
Proof.
  intros Htag. unfold first_segment. rewrite (split_at_separator _ _ _ Htag).
  destruct (split_not_empty ":" tail) as (segment & segments & ->).
  split; reflexivity.
Qed.

(** X4. The shorthand [openai:m] of a listed model loads exactly what the
    tagged form of its family loads, [openai:chat:m] or
    [openai:completion:m], in every world. *)
Theorem loadApiProvider_shorthand (m : string) :
  (In m OpenAiChatCompletionProvider.OPENAI_CHAT_MODELS ->
   loadApiProvider host (ArgString ("openai:" ++ m))
   = loadApiProvider host (ArgString ("openai:chat:" ++ m)))
  /\ (In m OpenAiCompletionProvider.OPENAI_COMPLETION_MODELS ->
      loadApiProvider host (ArgString ("openai:" ++ m))
      = loadApiProvider host (ArgString ("openai:completion:" ++ m))).
Proof.
  split; intros Hin; cbn [In OpenAiChatCompletionProvider.OPENAI_CHAT_MODELS
                            OpenAiCompletionProvider.OPENAI_COMPLETION_MODELS] in Hin;
    repeat (destruct Hin as [<-|Hin]; [reflexivity|]); destruct Hin.
Qed.

(** X5. Whatever follows the third segment of a tagged specification is
    ignored: [openai:chat:m:rest] loads exactly what [openai:chat:m] loads,
    and likewise for [completion]. *)
Theorem loadApiProvider_extra_segments (m rest : string) :
  Str.contains ":" m = false ->
  loadApiProvider host (ArgString ("openai:chat:" ++ m ++ ":" ++ rest))
  = loadApiProvider host (ArgString ("openai:chat:" ++ m))
  /\ loadApiProvider host (ArgString ("openai:completion:" ++ m ++ ":" ++ rest))
     = loadApiProvider host (ArgString ("openai:completion:" ++ m)).
Proof.
  intros Hm.
  assert (Hsame : forall tag, Str.contains ":" tag = false ->
            loadApiProvider host (ArgString ("openai:" ++ tag ++ String ":" (m ++ String ":" rest)))
            = loadApiProvider host (ArgString ("openai:" ++ tag ++ String ":" m))).
  { intros tag Htag. rewrite !loadApiProvider_openai. cbv zeta.
    destruct (first_segment_tag tag (m ++ String ":" rest) Htag) as [-> ->].
    destruct (first_segment_tag tag m Htag) as [-> ->].
    unfold first_segment.
    rewrite (split_at_separator _ _ _ Hm), (split_no_separator _ _ Hm). reflexivity. }
  split; [exact (Hsame "chat" eq_refl) | exact (Hsame "completion" eq_refl)].
Qed.

(** X6. A tagged specification without a model name, or with an empty
    one, loads the family's default model, gpt-3.5-turbo for [chat] and
    text-davinci-003 for [completion]; these being listed models, nothing
    is logged. *)
Theorem loadApiProvider_default_model (w : World) :
  (loadApiProvider host (ArgString "openai:chat")
   = loadApiProvider host (ArgString "openai:chat:gpt-3.5-turbo")
   /\ loadApiProvider host (ArgString "openai:chat:")
      = loadApiProvider host (ArgString "openai:chat:gpt-3.5-turbo")
   /\ snd (loadApiProvider host (ArgString "openai:chat") w) = w)
  /\ (loadApiProvider host (ArgString "openai:completion")
      = loadApiProvider host (ArgString "openai:completion:text-davinci-003")
      /\ loadApiProvider host (ArgString "openai:completion:")
         = loadApiProvider host (ArgString "openai:completion:text-davinci-003")
      /\ snd (loadApiProvider host (ArgString "openai:completion") w) = w).
Proof.
  repeat split.
  - change (loadApiProvider host (ArgString "openai:chat") w)
      with (bind (OpenAiGenericProvider.new "gpt-3.5-turbo" None)
              (fun self => pure (ChatInstance self)) w).
    unfold OpenAiGenericProvider.new, bind, getenv, pure.
    destruct (or_else None Some (env w !! "OPENAI_API_KEY")) as [key|]; [|reflexivity].
    destruct (Str.truthy key); reflexivity.
  - change (loadApiProvider host (ArgString "openai:completion") w)
      with (bind (OpenAiGenericProvider.new "text-davinci-003" None)
              (fun self => pure (CompletionInstance self)) w).
    unfold OpenAiGenericProvider.new, bind, getenv, pure.
    destruct (or_else None Some (env w !! "OPENAI_API_KEY")) as [key|]; [|reflexivity].
    destruct (Str.truthy key); reflexivity.
Qed.

(** X7. Loading a vendor specification makes no request and imports no
    module: for a specification that begins with [openai:] the loader does
    the same on every host, whatever its network, its module loader and
    the variables it was started with. *)
Theorem loadApiProvider_no_network (other : Host) (rest : string) :
  loadApiProvider host (ArgString ("openai:" ++ rest))
  = loadApiProvider other (ArgString ("openai:" ++ rest)).
Proof. now rewrite !loadApiProvider_openai. Qed.

Lemma generic_new_env (m : string) (apiKey : option string) (w : World) :
  env (snd (OpenAiGenericProvider.new m apiKey w)) = env w
  /\ forall w2, env w2 = env w ->
       fst (OpenAiGenericProvider.new m apiKey w2)
       = fst (OpenAiGenericProvider.new m apiKey w).
Proof.
  split.
  - unfold OpenAiGenericProvider.new, bind, getenv, pure.
    destruct (or_else apiKey Some (env w !! "OPENAI_API_KEY")) as [key|]; [|reflexivity].
    destruct (Str.truthy key); reflexivity.
  - intros w2 Hw2. unfold OpenAiGenericProvider.new, bind, getenv, pure. rewrite Hw2.
    destruct (or_else apiKey Some (env w !! "OPENAI_API_KEY")) as [key|]; [|reflexivity].
    destruct (Str.truthy key); cbn [fst]; rewrite ?Hw2; reflexivity.
Qed.


Lemma reads_env_only_bind {A B : Type} (c : Js A) (k : A -> Js B) :
  reads_env_only c -> (forall a, reads_env_only (k a)) -> reads_env_only (bind c k).
Proof.
  intros Hc Hk w. unfold bind. destruct (Hc w) as [Henv Hfst]. split.
  - destruct (c w) as [[a|e] w1] eqn:E; cbn [snd] in *; [|exact Henv].
    destruct (Hk a w1) as [Hk1 _]. congruence.
  - intros w2 Hw2. specialize (Hfst w2 Hw2).
    destruct (Hc w2) as [Henv2 _].
    destruct (c w) as [[a|e] w1], (c w2) as [[a2|e2] w12]; cbn [fst snd] in *;
      try discriminate; [|congruence].
    injection Hfst as ->. destruct (Hk a w1) as [_ Hk2]. apply Hk2. congruence.
Qed.

Lemma reads_env_only_pure {A : Type} (a : A) : reads_env_only (pure a).
Proof. intros w. split; [reflexivity | intros; reflexivity]. Qed.

Lemma reads_env_only_throw {A : Type} (e : JsError) : reads_env_only (@throw A e).
Proof. intros w. split; [reflexivity | intros; reflexivity]. Qed.

Lemma reads_env_only_log (lvl : LogLevel) (msg : string) : reads_env_only (log lvl msg).
Proof. intros w. split; [reflexivity | intros; reflexivity]. Qed.

Lemma reads_env_only_generic_new (m : string) (apiKey : option string) :
  reads_env_only (OpenAiGenericProvider.new m apiKey).
Proof. intros w. apply generic_new_env. Qed.

Lemma reads_env_only_chat_new (m : string) (apiKey : option string) :
  reads_env_only (OpenAiChatCompletionProvider.new m apiKey).
Proof.
  unfold OpenAiChatCompletionProvider.new.
  apply reads_env_only_bind; [|intros; apply reads_env_only_generic_new].
  destruct (negb _); [apply reads_env_only_log | apply reads_env_only_pure].
Qed.

Lemma reads_env_only_completion_new (m : string) (apiKey : option string) :
  reads_env_only (OpenAiCompletionProvider.new m apiKey).
Proof.
  unfold OpenAiCompletionProvider.new.
  apply reads_env_only_bind; [|intros; apply reads_env_only_generic_new].
  destruct (negb _); [apply reads_env_only_log | apply reads_env_only_pure].
Qed.

Lemma reads_env_only_loadApiProvider (rest : string) :
  reads_env_only (loadApiProvider host (ArgString ("openai:" ++ rest))).
Proof.
  rewrite loadApiProvider_openai. cbv zeta.
  repeat match goal with
         | |- reads_env_only (if ?c then _ else _) => destruct c
         end;
    try apply reads_env_only_throw;
    (apply reads_env_only_bind;
     [first [apply reads_env_only_chat_new | apply reads_env_only_completion_new]
     | intros; apply reads_env_only_pure]).
Qed.

(** X8. Loading a vendor specification leaves [process.env] as it is, and
    loading it a second time gives the same adapter. *)
Theorem loadApiProvider_twice (rest : string) (w : World) (p : ApiProvider) (w' : World) :
  loadApiProvider host (ArgString ("openai:" ++ rest)) w = (Normal p, w') ->
  env w' = env w
  /\ exists w'', loadApiProvider host (ArgString ("openai:" ++ rest)) w' = (Normal p, w'').
Proof.
  intros Hload.
  destruct (reads_env_only_loadApiProvider rest w) as [Henv Hfst].
  rewrite Hload in Henv, Hfst. cbn [fst snd] in *. split; [exact Henv|].
  specialize (Hfst w' Henv).
  destruct (loadApiProvider host (ArgString ("openai:" ++ rest)) w') as [c w''].
  cbn [fst] in Hfst. subst c. now exists w''.
Qed.

End LoaderMore.

Lemma loadApiProvider_unknown_type_witness :
  loadApiProvider Demo.unreachable (ArgString "openai:gpt-5:turbo") Demo.with_key
  = (Throw (unknown_model_type "gpt-5"), Demo.with_key).
Proof.
  apply (loadApiProvider_unknown_type Demo.unreachable "gpt-5:turbo" Demo.with_key).
  reflexivity.
Defined.

Lemma loadApiProvider_shorthand_witness :
  loadApiProvider Demo.unreachable (ArgString "openai:gpt-4")
  = loadApiProvider Demo.unreachable (ArgString "openai:chat:gpt-4").
Proof.
  apply (proj1 (loadApiProvider_shorthand Demo.unreachable "gpt-4")).
  simpl. tauto.
Defined.

Lemma loadApiProvider_extra_segments_witness :
  loadApiProvider Demo.unreachable (ArgString "openai:chat:ft:gpt-3.5-turbo:acme")
  = loadApiProvider Demo.unreachable (ArgString "openai:chat:ft").
Proof.
  apply (proj1 (loadApiProvider_extra_segments Demo.unreachable "ft" "gpt-3.5-turbo:acme"
                  eq_refl)).
Defined.

Lemma loadApiProvider_twice_witness :
  env (logged Warn "Using unknown OpenAI chat model: my-model" Demo.with_key)
  = env Demo.with_key
  /\ exists w'',
       loadApiProvider Demo.unreachable (ArgString "openai:chat:my-model")
         (logged Warn "Using unknown OpenAI chat model: my-model" Demo.with_key)
       = (Normal (ChatInstance
                    (OpenAiGenericProvider.mk "my-model" "sk-test" DEFAULT_OPENAI_HOST)),
          w'').
Proof.
  apply (loadApiProvider_twice Demo.unreachable "chat:my-model" Demo.with_key).
  vm_compute. reflexivity.
Defined.

Section CallApiMore.

Lemma request_run (host : Host) (self : OpenAiGenericProvider.t) (endpoint : string)
    (payload : Json) (w : World) :
  OpenAiGenericProvider.request host self endpoint payload
    (logged Debug ("Calling OpenAI API: " ++ JSON.stringify payload) w)
  = match the_request host self endpoint payload w with
    | (Normal response, w') => json response w'
    | (Throw e, w') => (Throw e, w')
    end.
Proof. reflexivity. Qed.

Lemma completion_callApi_request (host : Host) (self : OpenAiGenericProvider.t)
    (prompt : string) (w : World) :
  OpenAiCompletionProvider.callApi host self prompt w
  = match OpenAiGenericProvider.request host self "/v1/completions"
            (completion_payload self prompt w)
            (logged Debug ("Calling OpenAI API: "
                             ++ JSON.stringify (completion_payload self prompt w)) w) with
    | (Throw err, w2) =>
        (Normal (ProviderResponse.failure ("API call error: " ++ String_of_error err)), w2)
    | (Normal data, w2) =>
        try_catch (OpenAiCompletionProvider.read_result data)
          (fun err =>
             pure (ProviderResponse.failure
                     ("API response error: " ++ String_of_error err ++ ": "
                        ++ JSON.stringify data)))
          (logged Debug (TAB ++ "OpenAI API response: " ++ JSON.stringify data) w2)
    end.
Proof.
  unfold OpenAiCompletionProvider.callApi, bind, try_catch, logger.debug, log, pure.
  rewrite completion_request_body_run. fold (completion_payload self prompt w).
  destruct (OpenAiGenericProvider.request _ _ _ _ _) as [[data|err] w2]; reflexivity.
Qed.

Lemma chat_callApi_request (host : Host) (self : OpenAiGenericProvider.t)
    (prompt : string) (w : World) :
  OpenAiChatCompletionProvider.callApi host self prompt w
  = match OpenAiGenericProvider.request host self "/v1/chat/completions"
            (chat_payload self prompt w)
            (logged Debug ("Calling OpenAI API: "
                             ++ JSON.stringify (chat_payload self prompt w)) w) with
    | (Throw err, w2) =>
        (Normal (ProviderResponse.failure ("API call error: " ++ String_of_error err)), w2)
    | (Normal data, w2) =>
        try_catch (OpenAiChatCompletionProvider.read_result data)
          (fun err =>
             pure (ProviderResponse.failure
                     ("API response error: " ++ String_of_error err ++ ": "
                        ++ JSON.stringify data)))
          (logged Debug (TAB ++ "OpenAI API response: " ++ JSON.stringify data) w2)
    end.
Proof.
  unfold OpenAiChatCompletionProvider.callApi, bind, try_catch, logger.debug, log, pure.
  rewrite chat_request_body_run. fold (chat_payload self prompt w).
  destruct (OpenAiGenericProvider.request _ _ _ _ _) as [[data|err] w2]; reflexivity.
Qed.

(** X9. [callApi] calls [fetchWithTimeout] once and no more: a POST to
    [https://<apiHost>/v1/completions] (chat: [/v1/chat/completions]) with
    the JSON content type, the key as bearer token, the serialised payload
    as body, and as timeout the constant the module computed when it was
    imported, whatever [process.env] holds by now. On a network that keeps
    a record, the journal after the call is the journal before it and that
    one entry. And the result depends on the host through the answer to
    that call alone: two hosts that answer it alike give the same
    result. *)
Theorem callApi_one_request (self : OpenAiGenericProvider.t) (prompt : string)
    (w : World) :
  (forall (variables : gmap string string) (answer : Completion Response),
     silent answer ->
     journal (snd (OpenAiCompletionProvider.callApi (recording variables answer)
                     self prompt w))
     = List.app (journal w)
         (call_record
            ("https://" ++ OpenAiGenericProvider.apiHost self ++ "/v1/completions")
            (mkRequest "POST"
               [("Content-Type", "application/json");
                ("Authorization", "Bearer " ++ OpenAiGenericProvider.apiKey self)]
               (JSON.stringify (completion_payload self prompt w)))
            (or_else (variables !! "REQUEST_TIMEOUT_MS") parseInt
               (Number.integer 10000)))
     /\ journal (snd (OpenAiChatCompletionProvider.callApi (recording variables answer)
                        self prompt w))
        = List.app (journal w)
            (call_record
               ("https://" ++ OpenAiGenericProvider.apiHost self
                  ++ "/v1/chat/completions")
               (mkRequest "POST"
                  [("Content-Type", "application/json");
                   ("Authorization", "Bearer " ++ OpenAiGenericProvider.apiKey self)]
                  (JSON.stringify (chat_payload self prompt w)))
               (or_else (variables !! "REQUEST_TIMEOUT_MS") parseInt
                  (Number.integer 10000))))
  /\ (forall host other : Host,
        (the_request host self "/v1/completions" (completion_payload self prompt w) w
         = the_request other self "/v1/completions" (completion_payload self prompt w) w ->
         OpenAiCompletionProvider.callApi host self prompt w
         = OpenAiCompletionProvider.callApi other self prompt w)
        /\ (the_request host self "/v1/chat/completions" (chat_payload self prompt w) w
            = the_request other self "/v1/chat/completions" (chat_payload self prompt w) w ->
            OpenAiChatCompletionProvider.callApi host self prompt w
            = OpenAiChatCompletionProvider.callApi other self prompt w)).
Proof.
  split.
  - intros variables answer Hsilent. split.
    + rewrite completion_callApi_request, request_run.
      unfold the_request, REQUEST_TIMEOUT_MS. cbn [fetchWithTimeout recording startup].
      destruct answer as [response|err]; [|reflexivity].
      match goal with |- context [json response ?w1] =>
        specialize (Hsilent w1); destruct (json response w1) as [[data|err] w2]
      end; [|exact Hsilent].
      unfold try_catch.
      destruct (completion_read_result_run data
                  (logged Debug (TAB ++ "OpenAI API response: " ++ JSON.stringify data) w2))
        as (err & _ & ->).
      destruct (completion_unreadable data); exact Hsilent.
    + rewrite chat_callApi_request, request_run.
      unfold the_request, REQUEST_TIMEOUT_MS. cbn [fetchWithTimeout recording startup].
      destruct answer as [response|err]; [|reflexivity].
      match goal with |- context [json response ?w1] =>
        specialize (Hsilent w1); destruct (json response w1) as [[data|err] w2]
      end; [|exact Hsilent].
      unfold try_catch.
      destruct (chat_read_result_run data
                  (logged Debug (TAB ++ "OpenAI API response: " ++ JSON.stringify data) w2))
        as (err & _ & ->).
      destruct (chat_unreadable data); exact Hsilent.
  - intros host other. split; intros Hsame.
    + rewrite !completion_callApi_request, !request_run, Hsame. reflexivity.
    + rewrite !chat_callApi_request, !request_run, Hsame. reflexivity.
Qed.

(** X10. When the response can be read, [callApi] returns as output what
    the body holds at [choices[0].text] (chat: [choices[0].message.content])
    and as token usage what it holds under [usage], having logged the
    response; further choices are not looked at. *)
Theorem callApi_reads_first_choice (host : Host) (self : OpenAiGenericProvider.t)
    (prompt : string) (w : World) (response : Response) (w1 : World) (data : Json)
    (w2 : World) :
  json response w1 = (Normal data, w2) ->
  (the_request host self "/v1/completions" (completion_payload self prompt w) w
   = (Normal response, w1) ->
   completion_unreadable data = false ->
   OpenAiCompletionProvider.callApi host self prompt w
   = (Normal (ProviderResponse.success
                (peek (peek (peek (Some data) "choices") "0") "text") (usage_of data)),
      logged Debug (TAB ++ "OpenAI API response: " ++ JSON.stringify data) w2))
  /\ (the_request host self "/v1/chat/completions" (chat_payload self prompt w) w
      = (Normal response, w1) ->
      chat_unreadable data = false ->
      OpenAiChatCompletionProvider.callApi host self prompt w
      = (Normal (ProviderResponse.success
                   (peek (peek (peek (peek (Some data) "choices") "0") "message") "content")
                   (usage_of data)),
         logged Debug (TAB ++ "OpenAI API response: " ++ JSON.stringify data) w2)).
Proof.
  intros Hjson. split; intros Hrequest Hreadable.
  - rewrite completion_callApi_request, request_run, Hrequest, Hjson.
    unfold try_catch.
    destruct (completion_read_result_run data
                (logged Debug (TAB ++ "OpenAI API response: " ++ JSON.stringify data) w2))
      as (err & _ & ->).
    rewrite Hreadable. reflexivity.
  - rewrite chat_callApi_request, request_run, Hrequest, Hjson.
    unfold try_catch.
    destruct (chat_read_result_run data
                (logged Debug (TAB ++ "OpenAI API response: " ++ JSON.stringify data) w2))
      as (err & _ & ->).
    rewrite Hreadable. reflexivity.
Qed.

End CallApiMore.

Section ForEach.

Context {A : Type} (body : A -> Js A).

Lemma for_each_Forall2 (R : A -> A -> Prop) :
  (forall x w y w', body x w = (Normal y, w') -> R x y) ->
  forall xs w ys w', for_each body xs w = (Normal ys, w') -> Forall2 R xs ys.
Proof.
  intros Hbody. induction xs as [|x xs IH]; intros w ys w' H.
  - injection H as <- _. constructor.
  - simpl in H. unfold bind in H.
    destruct (body x w) as [[y|e] w1] eqn:Ex; [|discriminate].
    destruct (for_each body xs w1) as [[ys'|e] w2] eqn:Exs; [|discriminate].
    injection H as <- _. constructor; [exact (Hbody _ _ _ _ Ex) | exact (IH _ _ _ Exs)].
Qed.

Lemma for_each_threaded (R : A -> World -> A -> World -> Prop) :
  (forall x w y w', body x w = (Normal y, w') -> R x w y w') ->
  forall xs w ys w', for_each body xs w = (Normal ys, w') -> threaded R xs w ys w'.
Proof.
  intros Hbody. induction xs as [|x xs IH]; intros w ys w' H.
  - injection H as <- <-. constructor.
  - simpl in H. unfold bind in H.
    destruct (body x w) as [[y|e] w1] eqn:Ex; [|discriminate].
    destruct (for_each body xs w1) as [[ys'|e] w2] eqn:Exs; [|discriminate].
    injection H as <- <-.
    econstructor; [exact (Hbody _ _ _ _ Ex) | exact (IH _ _ _ Exs)].
Qed.

Lemma for_each_unchanged (P : A -> Prop) :
  (forall x, P x -> forall w, body x w = (Normal x, w)) ->
  forall xs w, Forall P xs -> for_each body xs w = (Normal xs, w).
Proof.
  intros Hbody. induction xs as [|x xs IH]; intros w Hall; [reflexivity|].
  inversion Hall as [|? ? Hx Hxs]; subst.
  simpl. unfold bind. rewrite (Hbody x Hx w), (IH w Hxs). reflexivity.
Qed.

Lemma for_each_stops (before after : list A) (x : A) :
  forall w before' w1 e w2,
    for_each body before w = (Normal before', w1) ->
    body x w1 = (Throw e, w2) ->
    for_each body (before ++ x :: after) w = (Throw e, w2).
Proof.
  induction before as [|b before IH]; intros w before' w1 e w2 Hbefore Hx.
  - injection Hbefore as _ <-. simpl. unfold bind. now rewrite Hx.
  - simpl in *. unfold bind in *.
    destruct (body b w) as [[b'|eb] wb]; [|discriminate].
    destruct (for_each body before wb) as [[bs|ebs] wbs] eqn:E; [|discriminate].
    injection Hbefore as _ <-. now rewrite (IH _ _ _ _ _ E Hx).
Qed.

End ForEach.

Section ResolverMore.

Context (host : Host).

Lemma resolveAssertionProvider_at_rest (a : Assertion.t) (w : World) :
  at_rest (Assertion.provider a) = true ->
  resolveAssertionProvider host a w = (Normal a, w).
Proof.
  unfold resolveAssertionProvider, at_rest.
  destruct (Assertion.provider a) as [[s|o|f|i]|]; try discriminate; try reflexivity.
  cbn [truthy]. intros H. apply negb_true_iff in H. now rewrite H.
Qed.

Lemma resolveAssertionProvider_resolved (a : Assertion.t) (w : World) (a' : Assertion.t)
    (w' : World) :
  resolveAssertionProvider host a w = (Normal a', w') ->
  assertion_resolved host a w a' w'.
Proof.
  unfold assertion_resolved.
  destruct (at_rest (Assertion.provider a)) eqn:Hrest.
  - rewrite (resolveAssertionProvider_at_rest a w Hrest). intros H.
    injection H as <- <-. split; reflexivity.
  - destruct a as [ty val prov]. unfold resolveAssertionProvider.
    cbn [Assertion.provider Assertion.type Assertion.value] in *.
    unfold at_rest in Hrest.
    destruct prov as [[s|o|f|i]|]; try discriminate;
      try (apply negb_false_iff in Hrest; cbn [truthy typeof]; rewrite Hrest);
      cbn [truthy typeof]; unfold bind, pure, surplus;
      try (destruct (invariant _ _ _ w) as [[u|e0] w0] eqn:Hinvariant; [|discriminate]);
      (destruct (loadApiProvider host _ _) as [[p|e] w1] eqn:Hload; [|discriminate]);
      intros H; injection H as <- <-.
    + exists (RefString s), p. repeat split. exact Hload.
    + exists (RefOptions o), p. repeat split.
      unfold invariant in Hinvariant.
      destruct (truthy_argument (id_property (RefOptions o)));
        [injection Hinvariant as _ <-; exact Hload|].
      destruct (isProduction host); discriminate Hinvariant.
Qed.

Lemma resolveTestProvider_run (t : TestCase.t) (w : World) :
  resolveTestProvider host t w =
    match TestCase.options t with
    | Some opts =>
        match TestOptions.provider opts with
        | Some (RefFunction _) =>
            (Throw (TypeError "providerPath?.startsWith is not a function"), w)
        | _ => (Normal t, w)
        end
    | None => (Normal t, w)
    end.
Proof.
  unfold resolveTestProvider.
  destruct (TestCase.options t) as [opts|]; [|reflexivity].
  destruct (TestOptions.provider opts) as [[s|o|f|i]|]; try reflexivity.
  cbn [truthy typeof]. destruct (Str.truthy s); reflexivity.
Qed.

Lemma resolveTestProvider_cases (t : TestCase.t) (w : World) :
  resolveTestProvider host t w = (Normal t, w)
  \/ resolveTestProvider host t w
     = (Throw (TypeError "providerPath?.startsWith is not a function"), w).
Proof.
  rewrite resolveTestProvider_run.
  destruct (TestCase.options t) as [opts|]; [|now left].
  destruct (TestOptions.provider opts) as [[s|o|f|i]|]; (now left) || (now right).
Qed.

Lemma resolveTest_resolved (t : TestCase.t) (w : World) (t' : TestCase.t) (w' : World) :
  resolveTest host t w = (Normal t', w') -> test_resolved host t w t' w'.
Proof.
  unfold resolveTest, bind.
  destruct (resolveTestProvider_cases t w) as [-> | ->]; [|discriminate].
  destruct t as [vars options [declared|]]; cbn [TestCase.assert TestCase.vars
                                                   TestCase.options].
  - destruct (for_each (resolveAssertionProvider host) declared w)
      as [[resolved|e] w2] eqn:E; [|discriminate].
    intros H. injection H as <- <-. repeat split.
    exact (for_each_threaded _ _ resolveAssertionProvider_resolved _ _ _ _ E).
  - intros H. injection H as <- <-. repeat split.
Qed.

(** X11. When the resolver returns, it has gone through the tests in
    their order, and through the assertions of each in their order, every
    step from the world the step before it left. Each test comes back with
    its variables and options as they were. An assertion whose provider
    was absent, empty or a function comes back as it was, and the world
    with it. Every other assertion keeps its type and value, and its
    provider is the very adapter the Provider Loader returned at that
    point for the string it held, or for the identifier of the object it
    held. *)
Theorem resolveNestedProviders_resolved (tests : list TestCase.t) (w : World)
    (tests' : list TestCase.t) (w' : World) :
  resolveNestedProviders host tests w = (Normal tests', w') ->
  threaded (test_resolved host) tests w tests' w'.
Proof.
  intros H. unfold resolveNestedProviders in H.
  exact (for_each_threaded _ _ resolveTest_resolved _ _ _ _ H).
Qed.

Lemma resolveTest_at_rest (t : TestCase.t) (w : World) :
  test_at_rest t = true -> resolveTest host t w = (Normal t, w).
Proof.
  unfold test_at_rest. intros H. apply andb_true_iff in H as [Hoptions Hasserts].
  unfold resolveTest, bind. rewrite resolveTestProvider_run.
  destruct t as [vars options asserts];
    cbn [TestCase.assert TestCase.vars TestCase.options] in *.
  assert (Hprovider :
            match options with
            | Some opts =>
                match TestOptions.provider opts with
                | Some (RefFunction _) =>
                    (Throw (TypeError "providerPath?.startsWith is not a function"), w)
                | _ => (Normal (TestCase.mk vars options asserts), w)
                end
            | None => (Normal (TestCase.mk vars options asserts), w)
            end = (Normal (TestCase.mk vars options asserts), w)).
  { destruct options as [opts|]; [|reflexivity].
    destruct (TestOptions.provider opts) as [[s|o|f|i]|]; try reflexivity. discriminate. }
  rewrite Hprovider. cbn [TestCase.assert TestCase.vars TestCase.options].
  destruct asserts as [declared|]; [|reflexivity].
  rewrite (for_each_unchanged (resolveAssertionProvider host)
             (fun a => at_rest (Assertion.provider a) = true)).
  - reflexivity.
  - intros a Ha w0. now apply resolveAssertionProvider_at_rest.
  - apply Forall_forall. intros a Ha. rewrite forallb_forall in Hasserts.
    apply Hasserts. now apply list_elem_of_In.
Qed.

(** X12. Tests that override nothing that needs loading (no function as
    their own provider; assertion providers absent, empty or functions)
    come back as they are, the world unchanged and the Provider Loader not
    called. *)
Theorem resolveNestedProviders_at_rest (tests : list TestCase.t) (w : World) :
  forallb test_at_rest tests = true ->
  resolveNestedProviders host tests w = (Normal tests, w).
Proof.
  intros H. unfold resolveNestedProviders.
  apply (for_each_unchanged (resolveTest host) (fun t => test_at_rest t = true)).
  - intros t Ht w0. now apply resolveTest_at_rest.
  - apply Forall_forall. intros t Ht. rewrite forallb_forall in H.
    apply H. now apply list_elem_of_In.
Qed.

(** X13. Resolution goes test by test in declaration order and stops at
    the first test that fails: its error is the resolver's, and the tests
    after it are not looked at. *)
Theorem resolveNestedProviders_stops (before after : list TestCase.t) (t : TestCase.t)
    (w : World) (before' : list TestCase.t) (w1 : World) (e : JsError) (w2 : World) :
  resolveNestedProviders host before w = (Normal before', w1) ->
  resolveTest host t w1 = (Throw e, w2) ->
  resolveNestedProviders host (before ++ t :: after) w = (Throw e, w2).
Proof. apply for_each_stops. Qed.

(** X14. The resolver cannot be run twice: an assertion whose provider it
    has replaced by an adapter makes a second resolution throw a
    [TypeError], an adapter being an object whose [id] is a method. *)
Theorem resolveAssertionProvider_twice (a : Assertion.t) (w : World) (a' : Assertion.t)
    (w' : World) :
  at_rest (Assertion.provider a) = false ->
  resolveAssertionProvider host a w = (Normal a', w') ->
  forall w'',
    resolveAssertionProvider host a' w''
    = (Throw (TypeError "providerPath?.startsWith is not a function"), w'').
Proof.
  intros Hrest Hfirst w''.
  pose proof (resolveAssertionProvider_resolved a w a' w' Hfirst) as Hresolved.
  unfold assertion_resolved in Hresolved. rewrite Hrest in Hresolved.
  destruct Hresolved as (p & loaded & _ & _ & ->). reflexivity.
Qed.

End ResolverMore.

Lemma bind_Normal {A B : Type} (c : Js A) (k : A -> Js B) (w : World) (b : B)
    (w' : World) :
  bind c k w = (Normal b, w') ->
  exists a w1, c w = (Normal a, w1) /\ k a w1 = (Normal b, w').
Proof.
  unfold bind. destruct (c w) as [[a|e] w1]; [|discriminate].
  intros H. now exists a, w1.
Qed.

Section OrchestratorMore.

Context (host : Host).

Lemma prepare_same_setup (ext ext' : Collaborators) :
  same_setup ext ext' -> prepare host ext' = prepare host ext.
Proof.
  intros (H1 & H2 & H3 & H4 & H5). unfold prepare. now rewrite H1, H2, H3, H4, H5.
Qed.

(** X15. A failure before the engine runs (loading the providers, reading
    the tests or the filters, resolving nested providers, the cache switch,
    the notice) is [evaluate]'s failure, whatever the engine, the writers
    and telemetry are: none of them is called. *)
Theorem evaluate_setup_failure (ext : Collaborators) (testSuite : EvaluateTestSuite.t)
    (options : EvaluateOptions.t) (w : World) (e : JsError) (w1 : World) :
  prepare host ext testSuite options w = (Throw e, w1) ->
  forall ext', same_setup ext ext' ->
    evaluate host ext' testSuite options w = (Throw e, w1).
Proof.
  intros Hprepare ext' Hsame. unfold evaluate, bind.
  now rewrite (prepare_same_setup ext ext' Hsame), Hprepare.
Qed.

(** X16. When the engine throws, [evaluate] throws its error, whatever
    the writers are: nothing is written. *)
Theorem evaluate_engine_failure (ext : Collaborators) (testSuite : EvaluateTestSuite.t)
    (options : EvaluateOptions.t) (w : World) (constructed : TestSuite.t) (w1 : World)
    (e : JsError) (w2 : World) :
  prepare host ext testSuite options w = (Normal constructed, w1) ->
  doEvaluate ext constructed options w1 = (Throw e, w2) ->
  forall one many latest,
    evaluate host (with_writers ext one many latest) testSuite options w = (Throw e, w2).
Proof.
  intros Hprepare Hengine one many latest. unfold evaluate, bind.
  rewrite (prepare_same_setup ext (with_writers ext one many latest))
    by (repeat split).
  rewrite Hprepare. cbn [doEvaluate with_writers]. now rewrite Hengine.
Qed.

(** X17. Unless [options.cache] is exactly [false], the cache switch is
    not called: [evaluate] does the same with any other switch. *)
Theorem evaluate_cache_kept (ext : Collaborators) (testSuite : EvaluateTestSuite.t)
    (options : EvaluateOptions.t) (switch : Js unit) :
  EvaluateOptions.cache options <> Some false ->
  evaluate host (with_disableCache ext switch) testSuite options
  = evaluate host ext testSuite options.
Proof.
  intros Hcache. unfold evaluate, prepare.
  cbn [with_disableCache loadApiProviders readTests readFilters disableCache
         maybeShowNotice doEvaluate writeOutput writeMultipleOutputs writeLatestResults
         send write_outputs write_latest].
  destruct (EvaluateOptions.cache options) as [[|]|]; try reflexivity.
  now contradiction Hcache.
Qed.

(** X18. [evaluate] calls a writer only when asked to: the single-file
    writer only for an output path that is a non-empty string, the
    multi-file writer only for an array of paths, the latest-results writer
    only when [writeLatestResults] is set. *)
Theorem evaluate_writes_what_is_asked (ext : Collaborators)
    (testSuite : EvaluateTestSuite.t) (options : EvaluateOptions.t)
    (one : string -> EvaluateSummary -> EvaluateTestSuite.t -> Js unit)
    (many : list string -> EvaluateSummary -> EvaluateTestSuite.t -> Js unit)
    (latest : EvaluateSummary -> EvaluateTestSuite.t -> Js unit) :
  (wants_one_output testSuite = false ->
   evaluate host (with_writers ext one (writeMultipleOutputs ext) (writeLatestResults ext))
     testSuite options
   = evaluate host ext testSuite options)
  /\ (wants_many_outputs testSuite = false ->
      evaluate host (with_writers ext (writeOutput ext) many (writeLatestResults ext))
        testSuite options
      = evaluate host ext testSuite options)
  /\ (EvaluateTestSuite.writeLatestResults testSuite = false ->
      evaluate host (with_writers ext (writeOutput ext) (writeMultipleOutputs ext) latest)
        testSuite options
      = evaluate host ext testSuite options).
Proof.
  unfold wants_one_output, wants_many_outputs, evaluate, write_outputs, write_latest.
  repeat split; intros H;
    rewrite (prepare_same_setup ext (with_writers ext _ _ _)) by (repeat split);
    cbn [with_writers doEvaluate writeOutput writeMultipleOutputs writeLatestResults send].
  - destruct (EvaluateTestSuite.outputPath testSuite) as [|path|paths]; try reflexivity.
    now rewrite H.
  - destruct (EvaluateTestSuite.outputPath testSuite) as [|path|paths]; try reflexivity.
    discriminate H.
  - now rewrite H.
Qed.

(** X19. The suite handed to the engine is the caller's suite with four
    fields replaced, each by what one step returned, the steps taken in
    this order and each from the world the one before it left: the
    providers as [loadApiProviders] returned them; the tests as [readTests]
    returned them and the resolver then left them; the filters as
    [readFilters] returned them for the suite's filters, or for [{}] when
    the suite has none; the prompts normalised. The cache switch, when
    [options.cache] is [false], and the notice come after. *)
Theorem prepare_constructs (ext : Collaborators) (testSuite : EvaluateTestSuite.t)
    (options : EvaluateOptions.t) (w : World) (constructed : TestSuite.t) (w1 : World) :
  prepare host ext testSuite options w = (Normal constructed, w1) ->
  TestSuite.base constructed = testSuite
  /\ TestSuite.prompts constructed = normalizePrompts (EvaluateTestSuite.prompts testSuite)
  /\ exists (wa wb wc wd we : World) (loaded : option (list TestCase.t)),
       loadApiProviders ext (EvaluateTestSuite.providers testSuite)
         (EvaluateTestSuite.env testSuite) w
       = (Normal (TestSuite.providers constructed), wa)
       /\ readTests ext (EvaluateTestSuite.tests testSuite) wa = (Normal loaded, wb)
       /\ readFilters ext
            (value_or (EvaluateTestSuite.nunjucksFilters testSuite) (JObj [])) wb
          = (Normal (TestSuite.nunjucksFilters constructed), wc)
       /\ match loaded, TestSuite.tests constructed with
          | Some declared, Some resolved =>
              threaded (test_resolved host) declared wc resolved wd
          | None, None => wd = wc
          | _, _ => False
          end
       /\ match EvaluateOptions.cache options with
          | Some false => disableCache ext wd = (Normal tt, we)
          | _ => we = wd
          end
       /\ maybeShowNotice ext we = (Normal tt, w1).
Proof.
  intros H. unfold prepare in H.
  apply bind_Normal in H as (providers & wa & Ep & H).
  apply bind_Normal in H as (loaded & wb & Et & H).
  apply bind_Normal in H as (filters & wc & Ef & H).
  cbv zeta in H.
  apply bind_Normal in H as (tests & wd & Er & H).
  apply bind_Normal in H as ([] & we & Ec & H).
  apply bind_Normal in H as ([] & wf & En & H).
  injection H as <- <-. cbn [TestSuite.base TestSuite.prompts TestSuite.providers
                            TestSuite.tests TestSuite.nunjucksFilters].
  split; [reflexivity|]. split; [reflexivity|].
  exists wa, wb, wc, wd, we, loaded.
  split; [exact Ep|]. split; [exact Et|].
  split.
  { exact Ef. }
  split.
  { destruct loaded as [declared|].
    - apply bind_Normal in Er as (resolved & wr & Er & H). injection H as <- <-.
      exact (for_each_threaded _ _ (resolveTest_resolved host) _ _ _ _ Er).
    - injection Er as <- <-. reflexivity. }
  split; [|exact En].
  destruct (EvaluateOptions.cache options) as [[|]|];
    [injection Ec as <- | exact Ec | injection Ec as <-]; reflexivity.
Qed.

End OrchestratorMore.

Section NormalizerMore.

(** X20. Normalisation never returns an empty list; every entry has the
    same [raw] and [display]; there is one entry, or one per prompt. *)
Theorem normalizePrompts_entries (prompts : list Json) :
  normalizePrompts prompts <> []
  /\ Forall (fun entry => PromptEntry.raw entry = PromptEntry.display entry)
       (normalizePrompts prompts)
  /\ (length (normalizePrompts prompts) = 1
      \/ length (normalizePrompts prompts) = length prompts).
Proof.
  unfold normalizePrompts.
  destruct (isOpenAIMessagesObjects (JArr prompts)) eqn:E.
  - split; [discriminate|]. split; [repeat constructor | now left].
  - split; [|split].
    + destruct prompts; [cbn in E | cbn]; discriminate.
    + apply Forall_forall. intros entry Hin. apply list_elem_of_In, in_map_iff in Hin.
      destruct Hin as ([] & <- & _); reflexivity.
    + right. apply length_map.
Qed.

End NormalizerMore.

Section TimeoutConfigured.

Lemma of_N_truthy (n : N) : Str.truthy (Str.of_N n) = true.
Proof.
  unfold Str.of_N. pose proof (to_uint_not_nil n) as Hnil.
  destruct (N.to_uint n); [now contradiction Hnil | reflexivity..].
Qed.

Lemma parseInt_not_a_number (s : string) (c : ascii) (rest : string) :
  skip_space s = String c rest ->
  JSON.digit_val c = None ->
  Ascii.eqb c "-" = false ->
  Ascii.eqb c "+" = false ->
  parseInt s = Number.NaN.
Proof.
  intros Hskip. unfold parseInt. rewrite Hskip. clear Hskip.
  destruct c as [[|] [|] [|] [|] [|] [|] [|] [|]];
    intros Hdigit Hminus Hplus;
    first [discriminate Hdigit | discriminate Hminus | discriminate Hplus
          | reflexivity].
Qed.

(** X21. The request timeout is a constant of the module, computed from
    [process.env] as the process was started with it: 10000 ms when
    [REQUEST_TIMEOUT_MS] is unset or empty; when a number is written there
    in decimal, the double nearest to it; and not a number when what
    follows the leading white space begins with neither a sign nor a
    digit. *)
Theorem REQUEST_TIMEOUT_MS_configured (host : Host) :
  (provided (startup host !! "REQUEST_TIMEOUT_MS") = false ->
   REQUEST_TIMEOUT_MS host = Number.integer 10000)
  /\ (forall n : N,
        startup host !! "REQUEST_TIMEOUT_MS" = Some (Str.of_N n) ->
        REQUEST_TIMEOUT_MS host = Number.round false n 0)
  /\ (forall (s : string) (c : ascii) (rest : string),
        startup host !! "REQUEST_TIMEOUT_MS" = Some s ->
        skip_space s = String c rest ->
        JSON.digit_val c = None ->
        Ascii.eqb c "-" = false -> Ascii.eqb c "+" = false ->
        REQUEST_TIMEOUT_MS host = Number.NaN).
Proof.
  unfold REQUEST_TIMEOUT_MS. split; [|split].
  - intros H. apply provided_false in H. destruct H as [-> | ->]; reflexivity.
  - intros n ->. unfold or_else. now rewrite of_N_truthy, parseInt_of_N.
  - intros s c rest -> Hskip Hdigit Hminus Hplus.
    destruct s as [|c0 s0]; [discriminate Hskip|]. cbn [or_else Str.truthy].
    now apply (parseInt_not_a_number _ c rest).
Qed.

End TimeoutConfigured.

(** A process started with [REQUEST_TIMEOUT_MS=2500] waits 2500 ms; with
    twenty nines there it waits the nearest double, which is [10^20]; with
    a no-break space before [42] it waits 42 ms; with [soon] the timeout is
    not a number; without the variable it waits 10000 ms. *)
Lemma REQUEST_TIMEOUT_MS_configured_witness :
  REQUEST_TIMEOUT_MS (Demo.started_with [("REQUEST_TIMEOUT_MS", "2500")] Demo.unreachable)
  = Number.integer 2500
  /\ REQUEST_TIMEOUT_MS
       (Demo.started_with [("REQUEST_TIMEOUT_MS", "99999999999999999999")]
          Demo.unreachable)
     = Number.integer 100000000000000000000
  /\ parseInt (String (ascii_of_N 194) (String (ascii_of_N 160) "42")) = Number.integer 42
  /\ REQUEST_TIMEOUT_MS (Demo.started_with [("REQUEST_TIMEOUT_MS", "soon")] Demo.unreachable)
     = Number.NaN
  /\ REQUEST_TIMEOUT_MS Demo.unreachable = Number.integer 10000.
Proof.
  split; [|split; [|split; [|split]]].
  - destruct (REQUEST_TIMEOUT_MS_configured
                (Demo.started_with [("REQUEST_TIMEOUT_MS", "2500")] Demo.unreachable))
      as (_ & Hnumber & _).
    rewrite (Hnumber 2500%N); [vm_compute|]; reflexivity.
  - destruct (REQUEST_TIMEOUT_MS_configured
                (Demo.started_with [("REQUEST_TIMEOUT_MS", "99999999999999999999")]
                   Demo.unreachable))
      as (_ & Hnumber & _).
    rewrite (Hnumber 99999999999999999999%N); [vm_compute|]; reflexivity.
  - vm_compute. reflexivity.
  - destruct (REQUEST_TIMEOUT_MS_configured
                (Demo.started_with [("REQUEST_TIMEOUT_MS", "soon")] Demo.unreachable))
      as (_ & _ & Hnan).
    apply (Hnan "soon" "s"%char "oon"); reflexivity.
  - destruct (REQUEST_TIMEOUT_MS_configured Demo.unreachable) as (Hdefault & _).
    apply Hdefault. reflexivity.
Defined.

Section Conversation.

(** X22. A conversation given as the suite's prompts, an array of objects
    that hold no number and whose keys are distinct and no array indices,
    reaches the chat endpoint as that
    conversation: the normaliser makes one prompt of it, and the chat
    variant sends as its message list what that prompt parses to, the
    array itself. *)
Theorem conversation_reaches_chat (self : OpenAiGenericProvider.t) (prompts : list Json)
    (w : World) :
  isOpenAIMessagesObjects (JArr prompts) = true ->
  textual (JArr prompts) = true ->
  exists (entry : PromptEntry.t) (body : Json),
    normalizePrompts prompts = [entry]
    /\ OpenAiChatCompletionProvider.request_body self (PromptEntry.raw entry) w
       = (Normal body, w)
    /\ peek (Some body) "messages" = Some (JArr prompts).
Proof.
  intros Hobjects Htext. unfold normalizePrompts. rewrite Hobjects.
  eexists _, _. split; [reflexivity|].
  cbn [PromptEntry.raw]. rewrite chat_request_body_run.
  split; [reflexivity|].
  rewrite (parse_stringify _ Htext). reflexivity.
Qed.

End Conversation.

Lemma conversation_reaches_chat_witness :
  exists (entry : PromptEntry.t) (body : Json),
    normalizePrompts Fixtures.conversation = [entry]
    /\ OpenAiChatCompletionProvider.request_body Demo.chat_self (PromptEntry.raw entry)
         Demo.with_key = (Normal body, Demo.with_key)
    /\ peek (Some body) "messages" = Some (JArr Fixtures.conversation).
Proof.
  apply (conversation_reaches_chat Demo.chat_self Fixtures.conversation Demo.with_key);
    reflexivity.
Defined.

Lemma callApi_one_request_witness :
  journal (snd (OpenAiCompletionProvider.callApi
                  (recording empty (Normal (mkResponse (JSON_parse Demo.completion_reply))))
                  Demo.self "Say hi" Demo.with_key))
  = call_record "https://api.openai.com/v1/completions"
      (OpenAiGenericProvider.post Demo.self
         (completion_payload Demo.self "Say hi" Demo.with_key))
      (Number.integer 10000)
  /\ OpenAiCompletionProvider.callApi (Demo.replying Demo.completion_reply) Demo.self
       "Say hi" Demo.with_key
     = OpenAiCompletionProvider.callApi Fixtures.completions_only Demo.self "Say hi"
         Demo.with_key.
Proof.
  destruct (callApi_one_request Demo.self "Say hi" Demo.with_key) as [Hrecord Hsame].
  split.
  - destruct (Hrecord empty (Normal (mkResponse (JSON_parse Demo.completion_reply))))
      as [Hcompletion _].
    + intros w. unfold JSON_parse. simpl json.
      destruct (JSON.parse Demo.completion_reply); reflexivity.
    + rewrite Hcompletion. reflexivity.
  - apply (proj1 (Hsame (Demo.replying Demo.completion_reply) Fixtures.completions_only)).
    reflexivity.
Defined.

(** A prompt of twenty digits is JSON text, and is sent as the double it
    reads as. *)
Example chat_payload_number_rounded :
  peek (Some (chat_payload Demo.chat_self "12345678901234567890" Demo.with_key))
    "messages"
  = Some (JInt 12345678901234567000)
  /\ JSON.stringify (JInt 12345678901234567890) = "12345678901234567000"
  /\ JSON.parse "1e999" = Some (JNum (Number.Infinity false))
  /\ JSON.stringify (JNum (Number.Infinity false)) = "null".
Proof. repeat split; vm_compute; reflexivity. Qed.

Lemma callApi_reads_first_choice_witness :
  fst (OpenAiCompletionProvider.callApi (Demo.replying Demo.completion_reply) Demo.self
         "Say hi" Demo.with_key)
  = Normal (ProviderResponse.success (Some (JStr "Hello!"))
              (TokenUsage.mk (Some (JInt 7)) (Some (JInt 3)) (Some (JInt 4)))).
Proof.
  pose (w1 := logged Debug
                ("Calling OpenAI API: "
                   ++ JSON.stringify (completion_payload Demo.self "Say hi" Demo.with_key))
                Demo.with_key).
  destruct (callApi_reads_first_choice (Demo.replying Demo.completion_reply) Demo.self
              "Say hi" Demo.with_key (mkResponse (JSON_parse Demo.completion_reply)) w1
              Fixtures.completion_data w1) as [Hcompletion _].
  - vm_compute. reflexivity.
  - rewrite Hcompletion; reflexivity.
Defined.

Lemma resolveNestedProviders_resolved_witness :
  threaded (test_resolved Demo.unreachable) [Fixtures.graded; Fixtures.bare]
    Demo.with_key [Fixtures.graded_resolved; Fixtures.bare] Demo.with_key.
Proof.
  apply (resolveNestedProviders_resolved Demo.unreachable
           [Fixtures.graded; Fixtures.bare] Demo.with_key
           [Fixtures.graded_resolved; Fixtures.bare] Demo.with_key).
  vm_compute. reflexivity.
Defined.

Lemma resolveNestedProviders_at_rest_witness :
  resolveNestedProviders Demo.unreachable
    [Fixtures.bare; Demo.test_with (RefString "openai:chat:gpt-4")] Demo.without_key
  = (Normal [Fixtures.bare; Demo.test_with (RefString "openai:chat:gpt-4")],
     Demo.without_key).
Proof.
  apply (resolveNestedProviders_at_rest Demo.unreachable
           [Fixtures.bare; Demo.test_with (RefString "openai:chat:gpt-4")]
           Demo.without_key).
  reflexivity.
Defined.

Lemma resolveNestedProviders_stops_witness :
  resolveNestedProviders Demo.unreachable
    ([Fixtures.bare] ++ Demo.test_with (RefFunction "mine") :: [Fixtures.graded])
    Demo.without_key
  = (Throw (TypeError "providerPath?.startsWith is not a function"), Demo.without_key).
Proof.
  apply (resolveNestedProviders_stops Demo.unreachable [Fixtures.bare] [Fixtures.graded]
           (Demo.test_with (RefFunction "mine")) Demo.without_key [Fixtures.bare]
           Demo.without_key);
    reflexivity.
Defined.

Lemma resolveAssertionProvider_twice_witness :
  resolveAssertionProvider Demo.unreachable
    (Assertion.mk "llm-rubric" (Some (JStr "is polite"))
       (Some (RefInstance (ChatInstance Demo.chat_self))))
    Demo.with_key
  = (Throw (TypeError "providerPath?.startsWith is not a function"), Demo.with_key).
Proof.
  apply (resolveAssertionProvider_twice Demo.unreachable
           (Demo.assertion (RefString "openai:chat:gpt-4")) Demo.with_key
           (Assertion.mk "llm-rubric" (Some (JStr "is polite"))
              (Some (RefInstance (ChatInstance Demo.chat_self))))
           Demo.with_key).
  - reflexivity.
  - vm_compute. reflexivity.
Defined.

Lemma evaluate_setup_failure_witness :
  evaluate Demo.unreachable Fixtures.no_tests Demo.suite Demo.options Demo.with_key
  = (Throw (Error "ENOENT: no such file or directory, open 'tests.csv'"), Demo.with_key).
Proof.
  apply (evaluate_setup_failure Demo.unreachable Fixtures.no_tests Demo.suite
           Demo.options Demo.with_key).
  - reflexivity.
  - repeat split.
Defined.

Lemma evaluate_engine_failure_witness :
  fst (evaluate Demo.unreachable Fixtures.engine_down Demo.suite Demo.options
         Demo.with_key)
  = Throw (Error "No providers to evaluate").
Proof.
  destruct (prepare Demo.unreachable Fixtures.engine_down Demo.suite Demo.options
              Demo.with_key) as [[constructed|e] w1] eqn:Hprepare;
    [|vm_compute in Hprepare; discriminate Hprepare].
  pose proof (evaluate_engine_failure Demo.unreachable Fixtures.engine_down Demo.suite
                Demo.options Demo.with_key constructed w1
                (Error "No providers to evaluate") w1 Hprepare eq_refl
                (writeOutput Fixtures.engine_down)
                (writeMultipleOutputs Fixtures.engine_down)
                (writeLatestResults Fixtures.engine_down)) as Hthrown.
  change (with_writers Fixtures.engine_down _ _ _) with Fixtures.engine_down in Hthrown.
  rewrite Hthrown. reflexivity.
Defined.

Lemma evaluate_cache_kept_witness :
  evaluate Demo.unreachable
    (with_disableCache Demo.collaborators (throw (Error "cache is read-only")))
    Demo.suite Demo.options
  = evaluate Demo.unreachable Demo.collaborators Demo.suite Demo.options.
Proof.
  apply (evaluate_cache_kept Demo.unreachable Demo.collaborators Demo.suite Demo.options).
  discriminate.
Defined.

Lemma evaluate_writes_what_is_asked_witness :
  evaluate Demo.unreachable
    (with_writers Demo.collaborators (writeOutput Demo.collaborators)
       (fun paths ret suite => throw (Error "EACCES"))
       (writeLatestResults Demo.collaborators))
    Demo.suite Demo.options
  = evaluate Demo.unreachable Demo.collaborators Demo.suite Demo.options.
Proof.
  apply (proj1 (proj2 (evaluate_writes_what_is_asked Demo.unreachable Demo.collaborators
                         Demo.suite Demo.options (writeOutput Demo.collaborators)
                         (fun paths ret suite => throw (Error "EACCES"))
                         (writeLatestResults Demo.collaborators)))).
  reflexivity.
Defined.

Lemma prepare_constructs_witness :
  exists (constructed : TestSuite.t) (w1 : World),
    prepare Demo.unreachable Demo.collaborators Demo.suite Demo.options Demo.with_key
    = (Normal constructed, w1)
    /\ TestSuite.base constructed = Demo.suite
    /\ TestSuite.prompts constructed = [PromptEntry.mk "Say hi" "Say hi"].
Proof.
  eexists _, _. split; [vm_compute; reflexivity|].
  destruct (prepare_constructs Demo.unreachable Demo.collaborators Demo.suite Demo.options
              Demo.with_key _ _ ltac:(vm_compute; reflexivity)) as (Hbase & Hprompts & _).
  split; [exact Hbase | exact Hprompts].
Defined.
